(** * racetime: race-room and category views

    A shallow embedding of the view handlers of [racetime/views/race.py] and
    [racetime/views/category.py].  Database rows are records, query sets are
    lists of rows, many-to-many relations are finite sets of primary keys, and
    a request handler is a computation in a small state-and-exception monad
    whose [atomic] block restores the database when its body raises. *)

From Stdlib Require Import ZArith List Bool Lia.
From stdpp Require Import base list strings gmap pretty sorting.

Open Scope Z_scope.

(** ** Rows of the model layer *)

(** Modelled from the spec: the [RaceStates] enumeration of the model layer
    is not part of the view sources.  The state column is a character field;
    the six names are the ones the data model lists (open, invitational,
    pending, in_progress, finished, cancelled); each member stands for the
    string that is stored in the column. *)
Module RaceStates.
Definition open : string := "open".
Definition invitational : string := "invitational".
Definition pending : string := "pending".
Definition in_progress : string := "in_progress".
Definition finished : string := "finished".
Definition cancelled : string := "cancelled".
End RaceStates.

Module models.

Record User := {
  pk : nat;                     (* primary key, [user.id] *)
  name : string;                (* [str(user)] *)
  active : bool;
  is_staff : bool;
  is_authenticated : bool;
}.

(** [user.is_active] reads the [active] column. *)
Definition is_active (u : User) : bool := active u.

(** Model instances compare by primary key. *)
Definition user_eq (u v : User) : bool := bool_decide (pk u = pk v).

Record Race := {
  category : string;            (* slug of the category the room is in *)
  slug : string;
  state : string;
  version : Z;
  opened_by : nat;              (* primary key of the opening user *)
  opened_at : Z;                (* timestamp *)
  goal : option string;
  custom_goal : option string;
  info : string;
  streaming_required : bool;
  chat_message_delay : Z;       (* a duration, in seconds; zero is falsy *)
}.

(** Modelled from the spec: [Race.is_done] is a property of the model
    layer; a room is done once it is finished or cancelled. *)
Definition is_done (r : Race) : bool :=
  bool_decide (state r ∈ [RaceStates.finished; RaceStates.cancelled]).

(** Modelled from the spec: [Race.goal_str], the goal if there is one and
    the custom goal otherwise (the two are mutually exclusive). *)
Definition goal_str (r : Race) : string :=
  match goal r with
  | Some g => g
  | None => default "" (custom_goal r)
  end.

(** Modelled from the spec: [Race.get_absolute_url], the room's address
    below its category. *)
Definition get_absolute_url (r : Race) : string :=
  "/" +:+ category r +:+ "/" +:+ slug r.

(** [timedelta.seconds]: the seconds component of a non-negative
    duration that is kept in whole seconds. *)
Definition seconds (d : Z) : Z := d mod 86400.

Record Message := {
  posted_at : Z;
  user : option string;         (* author, when a person *)
  bot : option string;          (* author, when a bot *)
  message_plain : string;
  is_system : bool;
  deleted : bool;
}.

Record AuditLog := {
  actor : nat;
  action : string;
  audit_user : option nat;
  old_value : option nat;
  new_value : option nat;
}.

Record Category := {
  cat_slug : string;
  cat_name : string;
  cat_active : bool;            (* the [active] column *)
  owner : nat;                  (* primary key of the owning user *)
  max_moderators : nat;
}.

End models.
Import models.

(** ** Responses *)

Inductive Response :=
| HttpResponseRedirect (url : string)
| FormInvalid (errors : list string)
| PermissionDenied.

(** What a view that is a [UserPassesTestMixin] and does not set
    [raise_exception] answers when its [test_func] fails: a user who is
    signed in is refused, anyone else is sent to the login page.
    [login_url] is the address of that page for the request at hand. *)
Definition handle_no_permission (login_url : string) (u : User) : Response :=
  if is_authenticated u then PermissionDenied
  else HttpResponseRedirect login_url.

(** ** Request handlers as computations

    A handler runs against a [World]: the database [db], the number of
    snapshots pushed to subscribers (outside the database), a clock, and a
    [fuse].  Every call into the model layer can raise; [fuse = Some n] makes
    the call number [n] (counting from zero) raise, [None] lets all calls
    return.  [atomic] is the transaction block: when its body raises, the
    database is put back to what it was on entry and the exception goes on
    to the caller. *)
Module Eff.

Record World (St : Type) := mkWorld {
  db : St;
  broadcasts : nat;
  clock : Z;
  fuse : option nat;
}.
Arguments mkWorld {St}.
Arguments db {St}.
Arguments broadcasts {St}.
Arguments clock {St}.
Arguments fuse {St}.

Inductive Outcome (A : Type) :=
| Returned (a : A)
| Raised.
Arguments Returned {A}.
Arguments Raised {A}.

Definition M (St A : Type) : Type := World St -> Outcome A * World St.

Definition ret {St A} (a : A) : M St A := fun w => (Returned a, w).

Definition bind {St A B} (m : M St A) (k : A -> M St B) : M St B :=
  fun w =>
    match m w with
    | (Returned a, w') => k a w'
    | (Raised, w') => (Raised, w')
    end.

(** A call into the model layer or the database: raises when the fuse
    has burnt down, otherwise runs [f] on the database at the current
    time and lets one unit of time pass. *)
Definition call {St A} (f : Z -> St -> A * St) : M St A :=
  fun w =>
    match fuse w with
    | Some O => (Raised, mkWorld (db w) (broadcasts w) (clock w) None)
    | other =>
        let (a, s) := f (clock w) (db w) in
        (Returned a,
         mkWorld s (broadcasts w) (clock w + 1)
                 (match other with Some (S n) => Some n | _ => None end))
    end.

(** Pushing a snapshot to the subscribers: not a database write. *)
Definition push {St} : M St unit :=
  fun w =>
    match fuse w with
    | Some O => (Raised, mkWorld (db w) (broadcasts w) (clock w) None)
    | other =>
        (Returned tt,
         mkWorld (db w) (S (broadcasts w)) (clock w + 1)
                 (match other with Some (S n) => Some n | _ => None end))
    end.

Definition atomic {St A} (m : M St A) : M St A :=
  fun w =>
    match m w with
    | (Returned a, w') => (Returned a, w')
    | (Raised, w') =>
        (Raised, mkWorld (db w) (broadcasts w') (clock w') (fuse w'))
    end.

(** A world in which no call fails. *)
Definition calm {St} (s : St) (now : Z) : World St := mkWorld s O now None.

(** A world in which call number [n] fails. *)
Definition faulty {St} (s : St) (now : Z) (n : nat) : World St :=
  mkWorld s O now (Some n).

End Eff.
Import Eff.

Declare Scope eff_scope.
Delimit Scope eff_scope with eff.
Notation "x <- m ;; k" := (bind m (fun x => k))
  (at level 100, m at next level, right associativity) : eff_scope.
Notation "m ;;; k" := (bind m (fun _ => k))
  (at level 100, right associativity) : eff_scope.


(** ** [views/race.py]: editing a room *)

Module EditRace.

(** What the handler sees of the database: the room's row, its messages in
    insertion order, and how often the ratings of its entrants have been
    recomputed. *)
Record Room := {
  race_row : Race;
  message_set : list Message;
  rating_updates : nat;
}.

(** The submitted, validated values of the editable columns. *)
Record CleanedData := {
  new_goal : option string;
  new_custom_goal : option string;
  new_info : string;
  new_streaming_required : bool;
  new_chat_message_delay : Z;
}.

(** A bound model form: the instance it was built on, the columns the form
    class exposes, and the cleaned values. *)
Record Form := {
  instance : Race;
  fields : list string;
  cleaned_data : CleanedData;
}.

Definition has_changed (form : Form) (field : string) : bool :=
  let r := instance form in
  let d := cleaned_data form in
  if String.eqb field "goal" then bool_decide (new_goal d ≠ goal r)
  else if String.eqb field "custom_goal"
       then bool_decide (new_custom_goal d ≠ custom_goal r)
  else if String.eqb field "info" then bool_decide (new_info d ≠ info r)
  else if String.eqb field "streaming_required"
       then bool_decide (new_streaming_required d ≠ streaming_required r)
  else if String.eqb field "chat_message_delay"
       then bool_decide (new_chat_message_delay d ≠ chat_message_delay r)
  else false.

(** [form.changed_data]: the exposed columns whose value differs from the
    instance's. *)
Definition changed_data (form : Form) : list string :=
  filter (fun f => has_changed form f = true) (fields form).

(** [form.save(commit=False)]: the instance with every exposed column set
    to its cleaned value; nothing is written. *)
Definition save_commit_false (form : Form) : Race :=
  let r := instance form in
  let d := cleaned_data form in
  let has f := bool_decide (f ∈ fields form) in
  {| category := category r;
     slug := slug r;
     state := state r;
     version := version r;
     opened_by := opened_by r;
     opened_at := opened_at r;
     goal := if has "goal" then new_goal d else goal r;
     custom_goal :=
       if has "custom_goal" then new_custom_goal d else custom_goal r;
     info := if has "info" then new_info d else info r;
     streaming_required :=
       if has "streaming_required" then new_streaming_required d
       else streaming_required r;
     chat_message_delay :=
       if has "chat_message_delay" then new_chat_message_delay d
       else chat_message_delay r |}.

(** The instance [race] as a row whose version column holds [v]. *)
Definition with_version (race : Race) (v : Z) : Race :=
  {| category := category race;
     slug := slug race;
     state := state race;
     version := v;
     opened_by := opened_by race;
     opened_at := opened_at race;
     goal := goal race;
     custom_goal := custom_goal race;
     info := info race;
     streaming_required := streaming_required race;
     chat_message_delay := chat_message_delay race |}.

(** [race.save()] after [race.version = F('version') + 1]: every column of
    the instance is written, except that the database computes the version
    from the version it holds. *)
Definition save (race : Race) : M Room unit :=
  call (fun _ s =>
    (tt,
     {| race_row := with_version race (version (race_row s) + 1);
        message_set := message_set s;
        rating_updates := rating_updates s |})).

(** Modelled from the spec: [Race.update_entrant_ratings] belongs to the
    model layer; the handler only triggers the recalculation, which is
    counted here. *)
Definition update_entrant_ratings (race : Race) : M Room unit :=
  call (fun _ s =>
    (tt,
     {| race_row := race_row s;
        message_set := message_set s;
        rating_updates := S (rating_updates s) |})).

(** Modelled from the spec: [Race.add_message] belongs to the model layer;
    it appends a system message, authored by the room itself, to the room's
    message sequence. *)
Definition add_message (race : Race) (body : string) : M Room unit :=
  call (fun now s =>
    (tt,
     {| race_row := race_row s;
        message_set :=
          message_set s ++
          [ {| posted_at := now; user := None; bot := None;
               message_plain := body; is_system := true;
               deleted := false |} ];
        rating_updates := rating_updates s |})).

Definition broadcast_data (race : Race) : M Room unit := push.

Definition get_object : M Room Race := call (fun _ s => (race_row s, s)).

Definition form_valid (self_user : User) (form : Form) : M Room Response :=
  (let race := save_commit_false form in
   let changed f := bool_decide (f ∈ changed_data form) in
   atomic (
     save race ;;;
     if changed "goal" || changed "custom_goal"
     then update_entrant_ratings race
     else ret tt) ;;;
   messaged <- ret false ;;
   messaged <-
     (if changed "goal" || changed "custom_goal"
      then add_message race
             (name self_user +:+ " set a new goal: " +:+ goal_str race +:+ ".")
           ;;; ret true
      else ret messaged) ;;
   messaged <-
     (if changed "info"
      then add_message race
             (name self_user +:+ " updated the race information.")
           ;;; ret true
      else ret messaged) ;;
   messaged <-
     (if changed "streaming_required"
      then (if streaming_required race
            then add_message race "Streaming is now required for this race."
            else add_message race
                   "Streaming is now NOT required for this race.")
           ;;; ret true
      else ret messaged) ;;
   messaged <-
     (if changed "chat_message_delay"
      then (if bool_decide (chat_message_delay race ≠ 0)
            then add_message race
                   ("Chat delay is now "
                    +:+ pretty (seconds (chat_message_delay race))
                    +:+ " seconds.")
            else add_message race "Chat delay has been removed.")
           ;;; ret true
      else ret messaged) ;;
   (if negb messaged then broadcast_data race else ret tt) ;;;
   ret (HttpResponseRedirect (get_absolute_url race)))%eff.

(** The bodies of the system messages an edit announces, in the order the
    handler emits them. *)
Definition notices (self_user : User) (form : Form) : list string :=
  let race := save_commit_false form in
  let changed f := bool_decide (f ∈ changed_data form) in
  (if changed "goal" || changed "custom_goal"
   then [name self_user +:+ " set a new goal: " +:+ goal_str race +:+ "."]
   else [])
  ++ (if changed "info"
      then [name self_user +:+ " updated the race information."]
      else [])
  ++ (if changed "streaming_required"
      then [if streaming_required race
            then "Streaming is now required for this race."
            else "Streaming is now NOT required for this race."]
      else [])
  ++ (if changed "chat_message_delay"
      then [if bool_decide (chat_message_delay race ≠ 0)
            then "Chat delay is now "
                 +:+ pretty (seconds (chat_message_delay race))
                 +:+ " seconds."
            else "Chat delay has been removed."]
      else []).

(** Whether the edit touches the goal or the custom goal. *)
Definition goal_edited (form : Form) : bool :=
  bool_decide ("goal" ∈ changed_data form)
  || bool_decide ("custom_goal" ∈ changed_data form).

Section permission.

(** [CanMonitorRaceMixin.test_func] lives in [views/base.py], outside the
    sources at hand: whether the user may monitor the room. *)
Variable can_monitor : Race -> User -> bool.

Definition test_func (self_user : User) (object : Race) : bool :=
  can_monitor object self_user && negb (is_done object).

(** The request as the framework dispatches it: the permission test is run
    on the stored room first; only when it passes is the form bound to the
    stored room and handed to [form_valid]. *)
Definition post (self_user : User) (exposed : list string)
    (data : CleanedData) : M Room Response :=
  (object <- get_object ;;
   if negb (test_func self_user object) then ret PermissionDenied
   else
     object <- get_object ;;
     form_valid self_user
       {| instance := object; fields := exposed; cleaned_data := data |})%eff.

End permission.

End EditRace.


(** ** Query sets *)

(** [queryset.order_by(...)]: rows sorted by a total preorder [le]; rows
    that compare equal keep the order the query set had. *)
Module QuerySet.

Section order_by.
Context {A : Type} (le : A -> A -> bool).

Fixpoint insert_row (x : A) (rows : list A) : list A :=
  match rows with
  | [] => [x]
  | y :: rest => if le x y then x :: y :: rest else y :: insert_row x rest
  end.

Fixpoint order_by (rows : list A) : list A :=
  match rows with
  | [] => []
  | x :: rest => insert_row x (order_by rest)
  end.

(** Two rows tie when each is below the other. *)
Definition ties (e r : A) : Prop := le e r = true ∧ le r e = true.

#[global] Instance ties_dec e r : Decision (ties e r).
Proof. unfold ties. apply _. Defined.

End order_by.

End QuerySet.
Import QuerySet.

(** ** [views/category.py]: the category page *)

Module CategoryPage.

(** The [state_sort] annotation of [current_races]. *)
Definition state_sort (r : Race) : Z :=
  if bool_decide (state r ∈ [RaceStates.open; RaceStates.invitational])
  then 1
  else if bool_decide (state r = RaceStates.pending) then 2
  else if bool_decide (state r = RaceStates.in_progress) then 2
  else 0.

(** [order_by('state_sort', 'opened_at')], both ascending. *)
Definition listing_le (a b : Race) : bool :=
  (state_sort a <? state_sort b)
  || ((state_sort a =? state_sort b) && (opened_at a <=? opened_at b)).

(** [category.race_set]: the rooms of the category. *)
Definition race_set (object : Category) (race_table : list Race) : list Race :=
  filter (fun r => category r = cat_slug object) race_table.

Definition current_races (object : Category) (race_table : list Race)
  : list Race :=
  order_by listing_le
    (filter
       (fun r => state r ∉ [RaceStates.finished; RaceStates.cancelled])
       (race_set object race_table)).

(** The order the specification words give: open and invitational rooms
    first, pending and in-progress rooms next, every other state last. *)
Definition spec_group (r : Race) : Z :=
  if bool_decide (state r ∈ [RaceStates.open; RaceStates.invitational])
  then 0
  else if bool_decide (state r ∈ [RaceStates.pending; RaceStates.in_progress])
  then 1
  else 2.

Definition spec_le (a b : Race) : bool :=
  (spec_group a <? spec_group b)
  || ((spec_group a =? spec_group b) && (opened_at a <=? opened_at b)).

End CategoryPage.

(** ** [views/race.py]: the chat log of a room *)

Module RaceChatLog.

Record HttpResponse := {
  content : string;
  content_type : string;
  content_disposition : string;
}.

Section rendering.

(** [str(datetime)] is the interpreter's; timestamps count microseconds. *)
Variable str_datetime : Z -> string.

(** [posted_at.replace(microsecond=0)]. *)
Definition replace_microsecond_0 (t : Z) : Z := t - t mod 1000000.

(** [m.user or m.bot], as [%s] prints it. *)
Definition author (m : Message) : string :=
  match user m with
  | Some u => u
  | None => default "None" (bot m)
  end.

Definition line (m : Message) : string :=
  if is_system m
  then "[" +:+ str_datetime (replace_microsecond_0 (posted_at m)) +:+ "] "
       +:+ message_plain m
  else "[" +:+ str_datetime (replace_microsecond_0 (posted_at m)) +:+ "] "
       +:+ author m +:+ ": " +:+ message_plain m.

(** [message_set.filter(deleted=False).order_by('posted_at')]. *)
Definition messages (message_set : list Message) : list Message :=
  order_by (fun a b => posted_at a <=? posted_at b)
    (filter (fun m => deleted m = false) message_set).

Definition newline : string := String (Ascii.ascii_of_nat 10) "".
Definition dquote : string := String (Ascii.ascii_of_nat 34) "".

Definition get (object : Race) (message_set : list Message) : HttpResponse :=
  {| content := String.concat newline (map line (messages message_set));
     content_type := "text/plain";
     content_disposition :=
       "attachment; filename=" +:+ dquote +:+ category object +:+ "_"
       +:+ slug object +:+ "_chatlog.txt" +:+ dquote |}.

End rendering.

(** Modelled from the spec: deleting a message is done by the model layer,
    outside the view sources; it is a logical delete that sets the
    [deleted] flag of the message at a position of the stored sequence and
    removes nothing. *)
Definition mark_deleted (m : Message) : Message :=
  {| posted_at := posted_at m; user := user m; bot := bot m;
     message_plain := message_plain m; is_system := is_system m;
     deleted := true |}.

Definition delete_message (position : nat) (message_set : list Message)
  : list Message :=
  alter mark_deleted position message_set.

End RaceChatLog.


(** ** [views/category.py]: who may manage a category *)

Module AdministrateCategory.

Definition test_func (self_user : User) : bool :=
  is_active self_user && is_staff self_user.

End AdministrateCategory.

Module ManageCategory.

Section permission.

(** [Category.can_edit] lives in the model layer, outside the sources at
    hand. *)
Variable can_edit : Category -> User -> bool.

(** Active categories can be edited.  Inactive categories are only
    available to staff. *)
Definition test_func (self_category : Category) (self_user : User) : bool :=
  if cat_active self_category then can_edit self_category self_user
  else is_active self_user && is_staff self_user.

End permission.

(** Modelled from the spec: [Category.can_edit] is not in the view sources.
    Owners hold the edit action; staff act additionally where the category
    is deactivated. *)
Definition owner_can_edit (c : Category) (u : User) : bool :=
  is_active u && bool_decide (pk u = owner c).

End ManageCategory.

(** ** [views/category.py]: moderators and ownership *)

Module ModPageMixin.

(** What the moderator pages see of the database.  The flash messages of
    the request are kept alongside; no handler emits one inside a
    transaction. *)
Record Site := {
  category_row : Category;
  moderator_rel : gset nat;     (* the many-to-many relation, by user key *)
  user_table : list User;
  auditlog_set : list AuditLog;
  flash : list (string * string);
}.

(** The URL configuration is outside the sources at hand: a reversed
    address is the route name with its argument. *)
Definition reverse (route arg : string) : string := route +:+ ":" +:+ arg.

Definition success_url (c : Category) : string :=
  reverse "category_mods" (cat_slug c).

Definition category_url (c : Category) : string :=
  reverse "category" (cat_slug c).

(** [self.moderators]: the active moderators, by name. *)
Definition moderators : M Site (list User) :=
  call (fun _ s =>
    (order_by (fun a b => String.leb (name a) (name b))
       (filter (fun u => pk u ∈ moderator_rel s ∧ active u = true)
          (user_table s)),
     s)).

(** [category.moderators.all()]. *)
Definition moderators_all : M Site (gset nat) :=
  call (fun _ s => (moderator_rel s, s)).

Definition moderators_add (u : User) : M Site unit :=
  call (fun _ s =>
    (tt,
     {| category_row := category_row s;
        moderator_rel := {[pk u]} ∪ moderator_rel s;
        user_table := user_table s;
        auditlog_set := auditlog_set s;
        flash := flash s |})).

Definition moderators_remove (u : User) : M Site unit :=
  call (fun _ s =>
    (tt,
     {| category_row := category_row s;
        moderator_rel := moderator_rel s ∖ {[pk u]};
        user_table := user_table s;
        auditlog_set := auditlog_set s;
        flash := flash s |})).

Definition AuditLog_create (entry : AuditLog) : M Site unit :=
  call (fun _ s =>
    (tt,
     {| category_row := category_row s;
        moderator_rel := moderator_rel s;
        user_table := user_table s;
        auditlog_set := auditlog_set s ++ [entry];
        flash := flash s |})).

(** [category.save()]: the columns of the instance are written; the
    many-to-many relation is not part of the row. *)
Definition category_save (c : Category) : M Site unit :=
  call (fun _ s =>
    (tt,
     {| category_row := c;
        moderator_rel := moderator_rel s;
        user_table := user_table s;
        auditlog_set := auditlog_set s;
        flash := flash s |})).

Definition messages_add (level text : string) : M Site unit :=
  call (fun _ s =>
    (tt,
     {| category_row := category_row s;
        moderator_rel := moderator_rel s;
        user_table := user_table s;
        auditlog_set := auditlog_set s;
        flash := flash s ++ [(level, text)] |})).

(** [self.category], fetched once per request. *)
Definition get_category : M Site Category :=
  call (fun _ s => (category_row s, s)).

(** [str(category.owner)], resolved through the user table. *)
Definition str_user (key : nat) : M Site string :=
  call (fun _ s =>
    (match filter (fun u => pk u = key) (user_table s) with
     | u :: _ => name u
     | [] => "None"
     end, s)).

End ModPageMixin.
Import ModPageMixin.

Module AddModerator.

Definition form_valid (self_user : User) (self_category : Category)
    (user : User) : M Site Response :=
  (known <-
     (if bool_decide (pk user = owner self_category) then ret true
      else mods <- moderators ;; ret (existsb (user_eq user) mods)) ;;
   if (known : bool) then
     messages_add "error" (name user +:+ " is already a moderator.") ;;;
     ret (HttpResponseRedirect (success_url self_category))
   else
     mods <- moderators ;;
     if (max_moderators self_category <=? length mods)%nat then
       messages_add "error"
         "You cannot add any more moderators to this category." ;;;
       ret (HttpResponseRedirect (success_url self_category))
     else
       moderators_add user ;;;
       AuditLog_create
         {| actor := pk self_user; action := "moderator_add";
            audit_user := Some (pk user);
            old_value := None; new_value := None |} ;;;
       messages_add "success"
         (name user +:+ " added as a category moderator.") ;;;
       ret (HttpResponseRedirect (success_url self_category)))%eff.

End AddModerator.

Module RemoveModerator.

Definition form_valid (self_user : User) (self_category : Category)
    (user : User) : M Site Response :=
  (mods <- moderators ;;
   if negb (existsb (user_eq user) mods) then
     messages_add "error"
       (name user +:+ " is not a moderator for this category.") ;;;
     ret (HttpResponseRedirect (success_url self_category))
   else
     moderators_remove user ;;;
     AuditLog_create
       {| actor := pk self_user; action := "moderator_remove";
          audit_user := Some (pk user);
          old_value := None; new_value := None |} ;;;
     messages_add "success"
       (name user +:+ " removed from category moderators.") ;;;
     ret (HttpResponseRedirect (success_url self_category)))%eff.

End RemoveModerator.

Module TransferOwner.

Definition form_valid (self_user : User) (self_category : Category)
    (user : User) : M Site Response :=
  (let old_owner := owner self_category in
   let category :=
     {| cat_slug := cat_slug self_category;
        cat_name := cat_name self_category;
        cat_active := cat_active self_category;
        owner := pk user;
        max_moderators := max_moderators self_category |} in
   atomic (
     category_save category ;;;
     mods <- moderators_all ;;
     (if bool_decide (pk user ∈ mods) then moderators_remove user
      else ret tt) ;;;
     AuditLog_create
       {| actor := pk self_user; action := "owner_change";
          audit_user := None;
          old_value := Some old_owner; new_value := Some (pk user) |}) ;;;
   if bool_decide (old_owner = pk self_user) then
     messages_add "success"
       ("Ownership of " +:+ cat_name category
        +:+ " has been transferred to " +:+ name user
        +:+ ". You are no longer the owner of this category.") ;;;
     ret (HttpResponseRedirect (category_url category))
   else
     old_name <- str_user old_owner ;;
     messages_add "success"
       ("Ownership of " +:+ cat_name category
        +:+ " has been transferred to " +:+ name user +:+ ". "
        +:+ old_name +:+ " is no longer the owner of this category.") ;;;
     ret (HttpResponseRedirect (success_url category)))%eff.

End TransferOwner.

(** The three form views as the framework dispatches them: the category is
    fetched, [ManageCategory.test_func] decides, and only then is the
    selected user handed to [form_valid]. *)
Module ModeratorViews.

Inductive View := Add | Remove | Transfer.

Section dispatch.
Variable can_edit : Category -> User -> bool.
Variable login_url : string.

Definition post (view : View) (self_user : User) (user : User)
  : M Site Response :=
  (self_category <- get_category ;;
   if negb (ManageCategory.test_func can_edit self_category self_user)
   then ret (handle_no_permission login_url self_user)
   else
     match view with
     | Add => AddModerator.form_valid self_user self_category user
     | Remove => RemoveModerator.form_valid self_user self_category user
     | Transfer => TransferOwner.form_valid self_user self_category user
     end)%eff.

End dispatch.

End ModeratorViews.


(** ** [views/race.py]: opening a room *)

Module CreateRace.

Record Store := {
  category_row : Category;
  race_table : list Race;
  userlog : list (nat * string);    (* [user.log_action] entries *)
}.

(** The validated values of the creation form. *)
Record CleanedData := {
  form_goal : option string;
  form_custom_goal : option string;
  form_invitational : bool;
  form_info : string;
  form_streaming_required : bool;
  form_chat_message_delay : Z;
}.

(** [user.opened_races.exclude(state__in=[finished, cancelled])]: the rooms
    a user has opened that are neither finished nor cancelled. *)
Definition open_rooms_of (u : User) (table : list Race) : list Race :=
  filter (fun r => state r ∉ [RaceStates.finished; RaceStates.cancelled])
    (filter (fun r => opened_by r = pk u) table).

Section view.

(** [Category.can_moderate], [Category.can_start_race] and
    [Category.generate_race_slug] live in the model layer, outside the
    sources at hand; so does the version a new row starts from. *)
Variable can_moderate : Category -> User -> bool.
Variable can_start_race : Category -> User -> bool.
Variable generate_race_slug : Category -> list Race -> string.
Variable initial_version : Z.

Definition get_category : M Store Category :=
  call (fun _ s => (category_row s, s)).

(** [....exists()] on those rooms. *)
Definition has_open_race (u : User) : M Store bool :=
  call (fun _ s => (bool_decide (open_rooms_of u (race_table s) ≠ []), s)).

Definition new_slug (c : Category) : M Store string :=
  call (fun _ s => (generate_race_slug c (race_table s), s)).

(** [race.save()] of a new instance: a row is inserted; [opened_at] is
    stamped with the time of the insert. *)
Definition save (race : Race) : M Store unit :=
  call (fun now s =>
    (tt,
     {| category_row := category_row s;
        race_table :=
          race_table s ++
          [ {| category := category race;
               slug := slug race;
               state := state race;
               version := version race;
               opened_by := opened_by race;
               opened_at := now;
               goal := goal race;
               custom_goal := custom_goal race;
               info := info race;
               streaming_required := streaming_required race;
               chat_message_delay := chat_message_delay race |} ];
        userlog := userlog s |})).

Definition log_action (u : User) (what : string) : M Store unit :=
  call (fun _ s =>
    (tt,
     {| category_row := category_row s;
        race_table := race_table s;
        userlog := userlog s ++ [(pk u, what)] |})).

Definition form_valid (self_user : User) (form : CleanedData)
  : M Store Response :=
  (category <- get_category ;;
   refused <-
     (if negb (can_moderate category self_user)
      then has_open_race self_user
      else ret false) ;;
   if (refused : bool) then
     ret (FormInvalid ["You can only have one open race room at a time."])
   else
     race_slug <- new_slug category ;;
     let race :=
       {| category := cat_slug category;
          slug := race_slug;
          state :=
            if form_invitational form then RaceStates.invitational
            else RaceStates.open;
          version := initial_version;
          opened_by := pk self_user;
          opened_at := 0;
          goal := form_goal form;
          custom_goal := form_custom_goal form;
          info := form_info form;
          streaming_required := form_streaming_required form;
          chat_message_delay := form_chat_message_delay form |} in
     save race ;;;
     log_action self_user "race_create" ;;;
     ret (HttpResponseRedirect (get_absolute_url race)))%eff.

Definition test_func (self_user : User) : M Store bool :=
  (if negb (is_authenticated self_user) then ret false
   else category <- get_category ;; ret (can_start_race category self_user))%eff.

End view.

End CreateRace.


(** ** [views/category.py]: activating and deactivating a category *)

Module DeactivateCategory.

Definition action (self_user : User) (category : Category) : M Site unit :=
  (if negb (cat_active category) then ret tt
   else
     atomic (
       category_save
         {| cat_slug := cat_slug category;
            cat_name := cat_name category;
            cat_active := false;
            owner := owner category;
            max_moderators := max_moderators category |} ;;;
       AuditLog_create
         {| actor := pk self_user; action := "deactivate";
            audit_user := None; old_value := None; new_value := None |}) ;;;
     messages_add "info" "Category deactivated. It is now hidden.")%eff.

End DeactivateCategory.

Module ReactivateCategory.

Definition action (self_user : User) (category : Category) : M Site unit :=
  (if cat_active category then ret tt
   else
     atomic (
       category_save
         {| cat_slug := cat_slug category;
            cat_name := cat_name category;
            cat_active := true;
            owner := owner category;
            max_moderators := max_moderators category |} ;;;
       AuditLog_create
         {| actor := pk self_user; action := "activate";
            audit_user := None; old_value := None; new_value := None |}) ;;;
     messages_add "info"
       "Category re-activated. It is now publicly available again.")%eff.

End ReactivateCategory.

(** [AdministrateCategory.post] as the framework dispatches it: the staff
    test comes first and reads no category, and a user who fails it is
    refused or, when not signed in, sent to the login page; then the
    category is fetched, the action of the view is run on it, and the
    answer is the redirect to the edit page. *)
Module AdministrateCategoryPost.

Inductive View := Deactivate | Reactivate.

Definition action (view : View) : User -> Category -> M Site unit :=
  match view with
  | Deactivate => DeactivateCategory.action
  | Reactivate => ReactivateCategory.action
  end.

Definition post (login_url : string) (view : View) (self_user : User)
  : M Site Response :=
  (if negb (AdministrateCategory.test_func self_user)
   then ret (handle_no_permission login_url self_user)
   else
     category <- get_category ;;
     action view self_user category ;;;
     ret (HttpResponseRedirect (reverse "edit_category" (cat_slug category)))
  )%eff.

End AdministrateCategoryPost.

(** ** [views/category.py]: the past rooms of a category *)

Module CategoryHistory.

Section past.

(** The [ended_at] column of a room, which the row record above does not
    carry. *)
Variable ended_at : Race -> Z.

(** [race_set.filter(state__in=[finished]).order_by('-ended_at')]. *)
Definition past_races (object : Category) (race_table : list Race)
  : list Race :=
  order_by (fun a b => ended_at b <=? ended_at a)
    (filter (fun r => state r ∈ [RaceStates.finished])
       (CategoryPage.race_set object race_table)).

End past.

End CategoryHistory.

(** ** [views/race.py]: the list of current rooms *)

Module RaceListData.

Section view.

(** [Race.api_dict_summary(include_category=True)] lives in the model
    layer, outside the sources at hand. *)
Context {J : Type} (api_dict_summary : Race -> J).

(** The rooms of [Race.objects.filter(category__active=True).exclude(
    state__in=[finished, cancelled])]: the join goes through the category
    the room points to. *)
Definition listed_rooms (category_table : list Category)
    (race_table : list Race) : list Race :=
  filter (fun r => state r ∉ [RaceStates.finished; RaceStates.cancelled])
    (filter
       (fun r =>
          Exists (fun c => cat_slug c = category r ∧ cat_active c = true)
            category_table)
       race_table).

Definition current_races (category_table : list Category)
    (race_table : list Race) : list J :=
  map api_dict_summary (listed_rooms category_table race_table).

End view.

End RaceListData.

(** ** [views/race.py]: the room page *)

Module RacePage.

Record Entrant := {
  entrant_user : nat;           (* primary key of the entrant's user *)
  ready : bool;
}.

(** The [user] entry of [js_vars]. *)
Record UserVars := {
  var_id : option string;
  var_can_moderate : bool;
  var_can_monitor : bool;
  var_name : option string;
  var_in_race : bool;
  var_ready : bool;
  var_unready : bool;
}.

Section view.

(** [Category.can_moderate] (reached through [race.category]),
    [Race.can_monitor] and [User.hashid] live in the model layer, outside
    the sources at hand. *)
Variable category_can_moderate : Race -> User -> bool.
Variable race_can_monitor : Race -> User -> bool.
Variable hashid : User -> string.

(** [race.entrant_set.filter(user=self.user).first()] for a user who is
    signed in, [None] otherwise. *)
Definition entrant_of (self_user : User) (entrant_set : list Entrant)
  : option Entrant :=
  if is_authenticated self_user
  then head (filter (fun e => entrant_user e = pk self_user) entrant_set)
  else None.

Definition user_vars (self_user : User) (race : Race)
    (entrant_set : list Entrant) : UserVars :=
  let can_moderate := category_can_moderate race self_user in
  let can_monitor := can_moderate || race_can_monitor race self_user in
  let entrant := entrant_of self_user entrant_set in
  {| var_id :=
       if is_authenticated self_user then Some (hashid self_user) else None;
     var_can_moderate := can_moderate;
     var_can_monitor := can_monitor;
     var_name :=
       if is_authenticated self_user then Some (name self_user) else None;
     var_in_race := bool_decide (entrant ≠ None);
     var_ready :=
       match entrant with Some e => ready e | None => false end;
     var_unready :=
       match entrant with Some e => negb (ready e) | None => false end |}.

End view.

End RacePage.

(** ** [views/category.py]: requesting a category *)

(** A loop over a query set: the body is run on each row in turn, and the
    first call that raises ends the loop. *)
Fixpoint for_each {St A} (rows : list A) (body : A -> M St unit)
  : M St unit :=
  match rows with
  | [] => ret tt
  | row :: rest => bind (body row) (fun _ => for_each rest body)
  end.

Module RequestCategory.

Record CategoryRequest := {
  request_name : string;
  requested_by : option nat;    (* primary key of the requesting user *)
  reviewed_at : option Z;
}.

(** A user row with the columns this view reads besides. *)
Record Account := {
  account : User;
  is_superuser : bool;
  email : string;
}.

Record Mail := {
  mail_subject : string;
  mail_message : string;
  from_email : string;
  recipient_list : list string;
}.

(** The requests and accounts on record, with the flash messages of the
    request and the mail that has been handed over for delivery. *)
Record Store := {
  request_table : list CategoryRequest;
  account_table : list Account;
  flash : list (string * string);
  outbox : list Mail;
}.

Section view.

(** The two mail templates and the sender address of the settings are
    outside the sources at hand. *)
Variable render_subject : CategoryRequest -> string.
Variable render_email : CategoryRequest -> string.
Variable EMAIL_FROM : string.

(** [CategoryRequest.objects.filter(requested_by=user,
    reviewed_at__isnull=True)]. *)
Definition open_requests (u : User) (table : list CategoryRequest)
  : list CategoryRequest :=
  filter (fun q => requested_by q = Some (pk u) ∧ reviewed_at q = None) table.

Definition has_open_request (u : User) : M Store bool :=
  call (fun _ s =>
    (bool_decide (open_requests u (request_table s) ≠ []), s)).

Definition save (object : CategoryRequest) : M Store unit :=
  call (fun _ s =>
    (tt,
     {| request_table := request_table s ++ [object];
        account_table := account_table s;
        flash := flash s;
        outbox := outbox s |})).

Definition messages_info (text : string) : M Store unit :=
  call (fun _ s =>
    (tt,
     {| request_table := request_table s;
        account_table := account_table s;
        flash := flash s ++ [("info", text)];
        outbox := outbox s |})).

(** [User.objects.filter(active=True, is_superuser=True)]. *)
Definition superusers : M Store (list Account) :=
  call (fun _ s =>
    (filter (fun a => active (account a) = true ∧ is_superuser a = true)
       (account_table s),
     s)).

Definition send_mail (mail : Mail) : M Store unit :=
  call (fun _ s =>
    (tt,
     {| request_table := request_table s;
        account_table := account_table s;
        flash := flash s;
        outbox := outbox s ++ [mail] |})).

(** [form.save(commit=False)] gives the request as the form describes it;
    the handler then sets who requested it. *)
Definition form_valid (self_user : User) (form : CategoryRequest)
  : M Store Response :=
  (refused <- has_open_request self_user ;;
   if (refused : bool) then
     ret (FormInvalid
            ["You already have a category request open. You may not submit "
             +:+ "another until that request is reviewed."])
   else
     let object :=
       {| request_name := request_name form;
          requested_by := Some (pk self_user);
          reviewed_at := reviewed_at form |} in
     save object ;;;
     messages_info
       ("Your category request has been submitted for review. If "
        +:+ "accepted, it will appear on the site within 24-48 hours. You "
        +:+ "will be able to edit the category further once it is live.") ;;;
     staff <- superusers ;;
     for_each staff (fun user =>
       send_mail
         {| mail_subject := render_subject object;
            mail_message := render_email object;
            from_email := EMAIL_FROM;
            recipient_list := [email user] |}) ;;;
     ret (HttpResponseRedirect "home"))%eff.

End view.

End RequestCategory.

(** ** [views/category.py]: the leaderboards of a category *)

Module CategoryLeaderboards.

Record Goal := {
  goal_category : string;       (* slug of the category *)
  goal_name : string;
  goal_active : bool;
}.

Record UserRanking := {
  ranking_category : string;
  ranking_goal : string;        (* name of the goal *)
  ranking_user : nat;
  score : Z;
}.

(** The annotation [num_races=Count('race__id')]: the rooms that point to
    the goal. *)
Definition num_races (race_table : list Race) (g : Goal) : nat :=
  length
    (filter
       (fun r => category r = goal_category g ∧ goal r = Some (goal_name g))
       race_table).

(** [order_by('-num_races', 'name')]. *)
Definition goal_le (race_table : list Race) (a b : Goal) : bool :=
  (num_races race_table b <? num_races race_table a)%nat
  || ((num_races race_table a =? num_races race_table b)%nat
      && String.leb (goal_name a) (goal_name b)).

(** [UserRanking.objects.filter(category=category, goal=goal)
    .order_by('-score')[:1000]]. *)
Definition rankings_of (category : Category) (g : Goal)
    (ranking_table : list UserRanking) : list UserRanking :=
  take 1000
    (order_by (fun a b => score b <=? score a)
       (filter
          (fun k => ranking_category k = cat_slug category
                    ∧ ranking_goal k = goal_name g)
          ranking_table)).

(** The pairs the generator yields, in the order it yields them. *)
Definition leaderboards (category : Category) (goal_table : list Goal)
    (race_table : list Race) (ranking_table : list UserRanking)
  : list (Goal * list UserRanking) :=
  map (fun g => (g, rankings_of category g ranking_table))
    (order_by (goal_le race_table)
       (filter
          (fun g => goal_category g = cat_slug category
                    ∧ goal_active g = true)
          goal_table)).

End CategoryLeaderboards.

(** ** [views/category.py]: editing a category *)

Module EditCategory.

(** The category row with the columns this view reads and writes. *)
Record CategoryRow := {
  slug : string;
  name : string;
  short_name : string;
  image : string;               (* path of the image file, empty when none *)
  info : string;
  slug_words : string;
  streaming_required : bool;
}.

(** The value of a column. *)
Inductive Value :=
| Text (s : string)
| Flag (b : bool).

(** A goal of the category being edited. *)
Record Goal := {
  goal_id : nat;
  goal_name : string;
  goal_active : bool;
}.

(** Two model instances are equal when their primary keys are. *)
Definition goal_eq (a b : Goal) : bool :=
  bool_decide (goal_id a = goal_id b).

(** [goal in rows]. *)
Definition contains (rows : list Goal) (g : Goal) : bool :=
  existsb (goal_eq g) rows.

(** An audit row as this view writes it: the value columns hold column
    values, and the goal column is set by the goal actions. *)
Record AuditLog := {
  actor : nat;
  action : string;
  goal : option nat;
  old_value : option Value;
  new_value : option Value;
}.

(** What the view sees of the database: the row of the category, the
    goals of the category in table order, and its audit log.  The flash
    messages of the request are kept alongside; they are no part of the
    database. *)
Record Store := {
  category_row : CategoryRow;
  goal_set : list Goal;
  auditlog_set : list AuditLog;
  flash : list (string * string);
}.

(** The bound form: the names of the fields whose submitted value differs
    from the initial one, the instance that [form.save(commit=False)]
    returns, and the two goal fields of the cleaned data. *)
Record Form := {
  changed_data : list string;
  instance : CategoryRow;
  active_goals : list Goal;
  add_new_goals : list string;
}.

(** [getattr(category, field)]; the view asks for the six audited columns
    only. *)
Definition getattr (c : CategoryRow) (field : string) : Value :=
  if String.eqb field "name" then Text (name c)
  else if String.eqb field "short_name" then Text (short_name c)
  else if String.eqb field "image" then Text (image c)
  else if String.eqb field "info" then Text (info c)
  else if String.eqb field "slug_words" then Text (slug_words c)
  else if String.eqb field "streaming_required"
       then Flag (streaming_required c)
  else Text (slug c).

Definition audited_fields : gset string :=
  list_to_set
    ["name"; "short_name"; "image"; "info"; "slug_words";
     "streaming_required"].

Definition set_active (g : Goal) (flag : bool) : Goal :=
  {| goal_id := goal_id g; goal_name := goal_name g; goal_active := flag |}.

Definition get_object : M Store CategoryRow :=
  call (fun _ s => (category_row s, s)).

Definition save (object : CategoryRow) : M Store unit :=
  call (fun _ s =>
    (tt,
     {| category_row := object;
        goal_set := goal_set s;
        auditlog_set := auditlog_set s;
        flash := flash s |})).

Definition bulk_create (entries : list AuditLog) : M Store unit :=
  call (fun _ s =>
    (tt,
     {| category_row := category_row s;
        goal_set := goal_set s;
        auditlog_set := auditlog_set s ++ entries;
        flash := flash s |})).

Definition AuditLog_create (entry : AuditLog) : M Store unit :=
  bulk_create [entry].

Definition messages_info (text : string) : M Store unit :=
  call (fun _ s =>
    (tt,
     {| category_row := category_row s;
        goal_set := goal_set s;
        auditlog_set := auditlog_set s;
        flash := flash s ++ [("info", text)] |})).

(** The transaction of this view: when its body raises, the three tables
    are put back to what they were on entry; the flash messages queued on
    the request by then stay queued. *)
Definition atomic {A} (m : M Store A) : M Store A :=
  fun w =>
    match m w with
    | (Returned a, w') => (Returned a, w')
    | (Raised, w') =>
        (Raised,
         mkWorld
           {| category_row := category_row (db w);
              goal_set := goal_set (db w);
              auditlog_set := auditlog_set (db w);
              flash := flash (db w') |}
           (broadcasts w') (clock w') (fuse w'))
    end.

(** [self.object.goal_set.all()], fetched when the loop starts. *)
Definition goal_set_all : M Store (list Goal) :=
  call (fun _ s => (goal_set s, s)).

(** [goal.save()]: the row with the key of the instance is written. *)
Definition goal_save (g : Goal) : M Store unit :=
  call (fun _ s =>
    (tt,
     {| category_row := category_row s;
        goal_set :=
          map (fun row => if goal_eq row g then g else row) (goal_set s);
        auditlog_set := auditlog_set s;
        flash := flash s |})).

Section view.

(** Outside the sources at hand: the lower-cased label of a form field,
    the order in which a set of field names is iterated, and, for a goal
    that is created, the default of its [active] column and the key the
    database gives it. *)
Variable label_lower : string -> string.
Variable iter : gset string -> list string.
Variable default_active : bool.
Variable assign_id : list Goal -> nat.

(** [self.object.goal_set.create(name=goal_name)]. *)
Definition goal_set_create (goal_name : string) : M Store Goal :=
  call (fun _ s =>
    let g :=
      {| goal_id := assign_id (goal_set s);
         goal_name := goal_name;
         goal_active := default_active |} in
    (g,
     {| category_row := category_row s;
        goal_set := goal_set s ++ [g];
        auditlog_set := auditlog_set s;
        flash := flash s |})).

Definition changed_fields (form : Form) : list string :=
  iter (audited_fields ∩ list_to_set (changed_data form)).

(** The body of the first goal loop. *)
Definition review_goal (self_user : User) (form : Form) (goal : Goal)
  : M Store unit :=
  (if goal_active goal && negb (contains (active_goals form) goal) then
     goal_save (set_active goal false) ;;;
     AuditLog_create
       {| actor := pk self_user; action := "goal_deactivate";
          goal := Some (goal_id goal);
          old_value := None; new_value := None |} ;;;
     messages_info
       (RaceChatLog.dquote +:+ goal_name goal +:+ RaceChatLog.dquote
        +:+ " can no longer be used for races.")
   else if negb (goal_active goal) && contains (active_goals form) goal then
     goal_save (set_active goal true) ;;;
     AuditLog_create
       {| actor := pk self_user; action := "goal_activate";
          goal := Some (goal_id goal);
          old_value := None; new_value := None |} ;;;
     messages_info
       (RaceChatLog.dquote +:+ goal_name goal +:+ RaceChatLog.dquote
        +:+ " may now be used for races.")
   else ret tt)%eff.

(** The body of the second goal loop. *)
Definition add_goal (self_user : User) (goal_name : string)
  : M Store unit :=
  (goal <- goal_set_create goal_name ;;
   AuditLog_create
     {| actor := pk self_user; action := "goal_add";
        goal := Some (goal_id goal);
        old_value := None; new_value := None |} ;;;
   messages_info
     ("New category goal added: " +:+ RaceChatLog.dquote +:+ goal_name
      +:+ RaceChatLog.dquote))%eff.

(** The handler runs in one transaction.  Its last step is the
    [form_valid] of the update view: the form is saved, which writes the
    row once more, and the answer is the redirect to the edit page. *)
Definition form_valid (self_user : User) (form : Form) : M Store Response :=
  atomic (
    category <- get_object ;;
    let object := instance form in
    let fields := changed_fields form in
    let audit :=
      map (fun field =>
             {| actor := pk self_user;
                action := field +:+ "_change";
                goal := None;
                old_value := Some (getattr category field);
                new_value := Some (getattr object field) |})
        fields in
    save object ;;;
    bulk_create audit ;;;
    messages_info
      ("Category details updated ("
       +:+ String.concat ", " (map label_lower fields) +:+ ").") ;;;
    goals <- goal_set_all ;;
    for_each goals (review_goal self_user form) ;;;
    for_each (add_new_goals form) (add_goal self_user) ;;;
    save object ;;;
    ret (HttpResponseRedirect (reverse "edit_category" (slug object)))
  )%eff.

End view.

End EditCategory.

(** ** Notions used in the statements *)

(** A computation [announces] a list of bodies when, however it ends, it
    leaves the row and the ratings alone and appends system messages whose
    bodies are a prefix of the list - the whole list unless it raised. *)
Definition announces {A} (bodies : list string) (m : M EditRace.Room A)
  : Prop :=
  ∀ w, ∃ new,
    db (m w).2
    = {| EditRace.race_row := EditRace.race_row (db w);
         EditRace.message_set := EditRace.message_set (db w) ++ new;
         EditRace.rating_updates := EditRace.rating_updates (db w) |}
    ∧ Forall (fun m => is_system m = true ∧ deleted m = false) new
    ∧ map message_plain new `prefix_of` bodies
    ∧ ((m w).1 ≠ Raised → map message_plain new = bodies).

(** The owner of the category is not among its moderators. *)
Definition owner_apart (s : Site) : Prop :=
  owner (category_row s) ∉ moderator_rel s.

(** The rows behind [self.moderators], before they are put in order: the
    active users that are in the moderator relation. *)
Definition listed_moderators (s : Site) : list User :=
  filter (fun u => pk u ∈ moderator_rel s ∧ active u = true) (user_table s).

(** A computation is [steady] when a fuse that does not go off makes no
    difference: a run that returns although some later call was to fail
    returns what the run without failure returns, in the same database,
    with as many snapshots pushed and at the same time. *)
Definition steady {St A} (m : M St A) : Prop :=
  ∀ s b c n,
    match m (mkWorld s b c (Some n)) with
    | (Raised, _) => True
    | (Returned a, w') =>
        (∃ n', fuse w' = Some n')
        ∧ m (mkWorld s b c None)
          = (Returned a, mkWorld (db w') (broadcasts w') (clock w') None)
    end.


(** ** A sample site *)

Module Scenario.

Definition alice : User :=
  {| pk := 1; name := "alice"; active := true; is_staff := false;
     is_authenticated := true |}.

Definition bob : User :=
  {| pk := 2; name := "bob"; active := true; is_staff := true;
     is_authenticated := true |}.

Definition carol : User :=
  {| pk := 3; name := "carol"; active := false; is_staff := false;
     is_authenticated := true |}.

Definition room : Race :=
  {| category := "sm64"; slug := "clever-yoshi-1234";
     state := RaceStates.open; version := 5;
     opened_by := 1; opened_at := 1000;
     goal := Some "16 Star"; custom_goal := None; info := "";
     streaming_required := false; chat_message_delay := 0 |}.

Definition stored : EditRace.Room :=
  {| EditRace.race_row := room;
     EditRace.message_set := [];
     EditRace.rating_updates := 0 |}.

Definition edit_fields : list string :=
  ["goal"; "custom_goal"; "info"; "streaming_required";
   "chat_message_delay"].

(** Alice rewrites the information of the room. *)
Definition info_edit : EditRace.Form :=
  {| EditRace.instance := room;
     EditRace.fields := edit_fields;
     EditRace.cleaned_data :=
       {| EditRace.new_goal := Some "16 Star";
          EditRace.new_custom_goal := None;
          EditRace.new_info := "Bring a timer";
          EditRace.new_streaming_required := false;
          EditRace.new_chat_message_delay := 0 |} |}.

(** Bob, from the same reading of the room, requires streaming. *)
Definition streaming_edit : EditRace.Form :=
  {| EditRace.instance := room;
     EditRace.fields := edit_fields;
     EditRace.cleaned_data :=
       {| EditRace.new_goal := Some "16 Star";
          EditRace.new_custom_goal := None;
          EditRace.new_info := "";
          EditRace.new_streaming_required := true;
          EditRace.new_chat_message_delay := 0 |} |}.

Definition sm64 : Category :=
  {| cat_slug := "sm64"; cat_name := "Super Mario 64"; cat_active := true;
     owner := 1; max_moderators := 2 |}.

Definition sm64_hidden : Category :=
  {| cat_slug := "sm64"; cat_name := "Super Mario 64"; cat_active := false;
     owner := 1; max_moderators := 2 |}.

Definition sm64_closed : Category :=
  {| cat_slug := "sm64"; cat_name := "Super Mario 64"; cat_active := true;
     owner := 1; max_moderators := 0 |}.

(** A later room of the category, in a state that is none of the six. *)
Definition suspended_room : Race :=
  {| category := "sm64"; slug := "brave-toad-5678";
     state := "suspended"; version := 0;
     opened_by := 2; opened_at := 2000;
     goal := Some "70 Star"; custom_goal := None; info := "";
     streaming_required := false; chat_message_delay := 0 |}.

(** A room of the same category that is under way and was opened before
    the sample room. *)
Definition started_room : Race :=
  {| category := "sm64"; slug := "silly-boo-9012";
     state := RaceStates.in_progress; version := 12;
     opened_by := 2; opened_at := 500;
     goal := Some "16 Star"; custom_goal := None; info := "";
     streaming_required := false; chat_message_delay := 0 |}.

(** The stored chat of the room: a system notice, and two lines by alice
    of which the second was stored with the earlier time. *)
Definition chat : list Message :=
  [ {| posted_at := 3000000; user := None; bot := None;
       message_plain := "alice joins the race."; is_system := true;
       deleted := false |};
    {| posted_at := 9000000; user := Some "alice"; bot := None;
       message_plain := "glhf"; is_system := false; deleted := false |};
    {| posted_at := 5000000; user := Some "alice"; bot := None;
       message_plain := "hello"; is_system := false; deleted := false |} ].

(** The rooms on record: alice's open room and bob's later one. *)
Definition rooms : CreateRace.Store :=
  {| CreateRace.category_row := sm64;
     CreateRace.race_table := [room; suspended_room];
     CreateRace.userlog := [] |}.

Definition race_form : CreateRace.CleanedData :=
  {| CreateRace.form_goal := Some "120 Star";
     CreateRace.form_custom_goal := None;
     CreateRace.form_invitational := false;
     CreateRace.form_info := "";
     CreateRace.form_streaming_required := false;
     CreateRace.form_chat_message_delay := 0 |}.

(** Only the owner moderates; slugs are numbered. *)
Definition owner_moderates (c : Category) (u : User) : bool :=
  bool_decide (pk u = owner c).

Definition numbered_slug (c : Category) (table : list Race) : string :=
  "room-" +:+ pretty (length table).

(** The moderator pages of the category: carol, whose account has been
    deactivated, is its one moderator. *)
Definition site : Site :=
  {| category_row := sm64;
     moderator_rel := {[3%nat]};
     user_table := [alice; bob; carol];
     auditlog_set := [];
     flash := [] |}.

(** Alice replaces the goal by a custom goal. *)
Definition goal_edit : EditRace.Form :=
  {| EditRace.instance := room;
     EditRace.fields := edit_fields;
     EditRace.cleaned_data :=
       {| EditRace.new_goal := None;
          EditRace.new_custom_goal := Some "Beat the game";
          EditRace.new_info := "";
          EditRace.new_streaming_required := false;
          EditRace.new_chat_message_delay := 0 |} |}.

(** Alice delays the chat by a day and an hour. *)
Definition delay_edit : EditRace.Form :=
  {| EditRace.instance := room;
     EditRace.fields := edit_fields;
     EditRace.cleaned_data :=
       {| EditRace.new_goal := Some "16 Star";
          EditRace.new_custom_goal := None;
          EditRace.new_info := "";
          EditRace.new_streaming_required := false;
          EditRace.new_chat_message_delay := 90000 |} |}.

(** The moderator pages of a category without moderators. *)
Definition bare_site : Site :=
  {| category_row := sm64;
     moderator_rel := ∅;
     user_table := [alice; bob; carol];
     auditlog_set := [];
     flash := [] |}.

(** Everybody who is signed in may monitor. *)
Definition anyone_monitors (r : Race) (u : User) : bool := is_authenticated u.

(** The accounts on record: bob and carol are superusers, carol's account
    is not active. *)
Definition accounts : list RequestCategory.Account :=
  [ {| RequestCategory.account := alice;
       RequestCategory.is_superuser := false;
       RequestCategory.email := "alice@example.org" |};
    {| RequestCategory.account := bob;
       RequestCategory.is_superuser := true;
       RequestCategory.email := "bob@example.org" |};
    {| RequestCategory.account := carol;
       RequestCategory.is_superuser := true;
       RequestCategory.email := "carol@example.org" |} ].

(** A request of alice awaits review. *)
Definition desk : RequestCategory.Store :=
  {| RequestCategory.request_table :=
       [ {| RequestCategory.request_name := "Celeste";
            RequestCategory.requested_by := Some 1%nat;
            RequestCategory.reviewed_at := None |} ];
     RequestCategory.account_table := accounts;
     RequestCategory.flash := [];
     RequestCategory.outbox := [] |}.

Definition request_form : RequestCategory.CategoryRequest :=
  {| RequestCategory.request_name := "Hollow Knight";
     RequestCategory.requested_by := None;
     RequestCategory.reviewed_at := None |}.

Definition subject_of (q : RequestCategory.CategoryRequest) : string :=
  "Category request: " +:+ RequestCategory.request_name q.

(** A category with three goals, the last of them not in use. *)
Definition sm64_row : EditCategory.CategoryRow :=
  {| EditCategory.slug := "sm64";
     EditCategory.name := "Super Mario 64";
     EditCategory.short_name := "SM64";
     EditCategory.image := "";
     EditCategory.info := "";
     EditCategory.slug_words := "";
     EditCategory.streaming_required := true |}.

Definition star16 : EditCategory.Goal :=
  {| EditCategory.goal_id := 1; EditCategory.goal_name := "16 Star";
     EditCategory.goal_active := true |}.

Definition star70 : EditCategory.Goal :=
  {| EditCategory.goal_id := 2; EditCategory.goal_name := "70 Star";
     EditCategory.goal_active := true |}.

Definition star120 : EditCategory.Goal :=
  {| EditCategory.goal_id := 3; EditCategory.goal_name := "120 Star";
     EditCategory.goal_active := false |}.

Definition listing : EditCategory.Store :=
  {| EditCategory.category_row := sm64_row;
     EditCategory.goal_set := [star16; star70; star120];
     EditCategory.auditlog_set := [];
     EditCategory.flash := [] |}.

(** An edit of the information text that takes the second goal out of
    use, brings the third back and adds a fourth. *)
Definition category_form : EditCategory.Form :=
  {| EditCategory.changed_data := ["info"; "active_goals"];
     EditCategory.instance :=
       {| EditCategory.slug := "sm64";
          EditCategory.name := "Super Mario 64";
          EditCategory.short_name := "SM64";
          EditCategory.image := "";
          EditCategory.info := "Rules: no backwards long jumps.";
          EditCategory.slug_words := "";
          EditCategory.streaming_required := true |};
     EditCategory.active_goals := [star16; star120];
     EditCategory.add_new_goals := ["0 Star"] |}.

(** A form sent back as it was served. *)
Definition idle_form : EditCategory.Form :=
  {| EditCategory.changed_data := [];
     EditCategory.instance := sm64_row;
     EditCategory.active_goals := [star16; star70];
     EditCategory.add_new_goals := [] |}.

(** A key above every key in use. *)
Definition next_key (rows : list EditCategory.Goal) : nat :=
  S (max_list (map EditCategory.goal_id rows)).

End Scenario.


(** * Properties of the handlers *)

(** ** Running computations *)

Lemma call_calm {St A} (f : Z -> St -> A * St) s b c :
  call f (mkWorld s b c None)
  = (Returned (f c s).1, mkWorld (f c s).2 b (c + 1) None).
Proof. unfold call; simpl. by destruct (f c s). Qed.

Lemma call_blown {St A} (f : Z -> St -> A * St) s b c :
  call f (mkWorld s b c (Some O)) = (Raised, mkWorld s b c None).
Proof. reflexivity. Qed.

Lemma call_armed {St A} (f : Z -> St -> A * St) s b c n :
  call f (mkWorld s b c (Some (S n)))
  = (Returned (f c s).1, mkWorld (f c s).2 b (c + 1) (Some n)).
Proof. unfold call; simpl. by destruct (f c s). Qed.

Lemma bind_run {St A B} (m : M St A) (k : A -> M St B) w :
  bind m k w
  = match m w with
    | (Returned a, w') => k a w'
    | (Raised, w') => (Raised, w')
    end.
Proof. reflexivity. Qed.

(** ** Editing a room *)

(** Without a failing call an edit saves the row under the next version,
    triggers the ratings when the goal was edited, appends its notices as
    system messages and redirects to the room. *)
Lemma EditRace_form_valid_calm u form s b c :
  ∃ new c',
    EditRace.form_valid u form (mkWorld s b c None)
    = (Returned (HttpResponseRedirect
                   (get_absolute_url (EditRace.save_commit_false form))),
       mkWorld
         {| EditRace.race_row :=
              EditRace.with_version (EditRace.save_commit_false form)
                (version (EditRace.race_row s) + 1);
            EditRace.message_set := EditRace.message_set s ++ new;
            EditRace.rating_updates :=
              if EditRace.goal_edited form
              then S (EditRace.rating_updates s)
              else EditRace.rating_updates s |}
         (match EditRace.notices u form with [] => S b | _ => b end)
         c' None)
    ∧ map message_plain new = EditRace.notices u form
    ∧ Forall (fun m => is_system m = true ∧ deleted m = false) new.
Proof.
  unfold EditRace.form_valid, EditRace.notices, EditRace.goal_edited.
  generalize (bool_decide ("goal" ∈ EditRace.changed_data form)).
  generalize (bool_decide ("custom_goal" ∈ EditRace.changed_data form)).
  generalize (bool_decide ("info" ∈ EditRace.changed_data form)).
  generalize (bool_decide ("streaming_required" ∈ EditRace.changed_data form)).
  generalize (bool_decide ("chat_message_delay" ∈ EditRace.changed_data form)).
  generalize (EditRace.save_commit_false form).
  intros race d r i cg g.
  unfold EditRace.save, EditRace.update_entrant_ratings, EditRace.add_message,
    EditRace.broadcast_data, bind, atomic, ret, push.
  destruct g, cg, i, r, d; cbn [orb negb];
    rewrite ?call_calm; cbn [negb orb fst snd fuse db broadcasts clock
      EditRace.race_row EditRace.message_set EditRace.rating_updates];
    repeat (match goal with |- context [if ?x then _ else _] =>
              match type of x with bool => destruct x end end;
            rewrite ?call_calm; cbn [negb orb fst snd fuse db broadcasts clock
      EditRace.race_row EditRace.message_set EditRace.rating_updates]);
    rewrite <- ?app_assoc; cbn [app].
  all: eexists _, _.
  all: split;
    [first [reflexivity
           | instantiate (2 := []); rewrite app_nil_r; reflexivity]|].
  all: split; [reflexivity | repeat constructor].
Qed.

Lemma room_eta (s : EditRace.Room) :
  s = {| EditRace.race_row := EditRace.race_row s;
         EditRace.message_set := EditRace.message_set s ++ [];
         EditRace.rating_updates := EditRace.rating_updates s |}.
Proof. destruct s; simpl. by rewrite app_nil_r. Qed.

Lemma announces_ret {A} (a : A) : announces [] (ret a).
Proof.
  intros w. exists []. simpl.
  split_and!; [apply room_eta | constructor | done | done].
Qed.

Lemma announces_push : announces [] push.
Proof.
  intros w. exists []. unfold push.
  destruct (fuse w) as [[|n]|]; simpl;
    (split_and!; [apply room_eta | constructor | done | done]).
Qed.

Lemma announces_add_message race body :
  announces [body] (EditRace.add_message race body).
Proof.
  intros w. unfold EditRace.add_message, call.
  destruct (fuse w) as [[|n]|]; simpl.
  - exists []. split_and!;
      [apply room_eta | constructor | apply prefix_nil | done].
  - eexists [_]. split_and!; [reflexivity | repeat constructor | done | done].
  - eexists [_]. split_and!; [reflexivity | repeat constructor | done | done].
Qed.

Lemma announces_bind {A B} b1 b2 (m : M EditRace.Room A)
    (k : A -> M EditRace.Room B) :
  announces b1 m → (∀ a, announces b2 (k a)) → announces (b1 ++ b2) (bind m k).
Proof.
  intros Hm Hk w. unfold bind.
  destruct (Hm w) as (n1 & E1 & F1 & P1 & R1).
  destruct (m w) as [[a|] w1]; simpl in *.
  - destruct (Hk a w1) as (n2 & E2 & F2 & P2 & R2).
    exists (n1 ++ n2). rewrite E2, E1. simpl.
    split; [by rewrite app_assoc|].
    split; [by apply Forall_app|].
    rewrite map_app, R1 by done.
    split; [by apply prefix_app|].
    intros Hr. by rewrite R2.
  - exists n1. repeat split; try done.
    by apply prefix_app_r.
Qed.

Lemma announces_nil_bind {A B} b (m : M EditRace.Room A)
    (k : A -> M EditRace.Room B) :
  announces [] m → (∀ a, announces b (k a)) → announces b (bind m k).
Proof. apply (announces_bind [] b). Qed.

Lemma announces_bind_nil {A B} b (m : M EditRace.Room A)
    (k : A -> M EditRace.Room B) :
  announces b m → (∀ a, announces [] (k a)) → announces b (bind m k).
Proof.
  intros Hm Hk. rewrite <- (app_nil_r b). by apply announces_bind.
Qed.

(** The part of [form_valid] that follows the transaction announces the
    notices of the edit. *)
Lemma EditRace_tail_announces u form :
  ∃ tail,
    EditRace.form_valid u form
    = bind
        (atomic
           (bind (EditRace.save (EditRace.save_commit_false form))
              (fun _ =>
                 if EditRace.goal_edited form
                 then EditRace.update_entrant_ratings
                        (EditRace.save_commit_false form)
                 else ret tt)))
        (fun _ => tail)
    ∧ announces (EditRace.notices u form) tail.
Proof.
  eexists. split; [reflexivity|].
  unfold EditRace.notices.
  apply announces_nil_bind; [apply announces_ret|]. intros m0.
  apply announces_bind.
  { destruct (_ || _); [|apply announces_ret].
    apply announces_bind_nil; [apply announces_add_message|].
    intros; apply announces_ret. }
  intros m1. apply announces_bind.
  { destruct (bool_decide _); [|apply announces_ret].
    apply announces_bind_nil; [apply announces_add_message|].
    intros; apply announces_ret. }
  intros m2. apply announces_bind.
  { destruct (bool_decide _); [|apply announces_ret].
    apply announces_bind_nil; [|intros; apply announces_ret].
    destruct (streaming_required _); apply announces_add_message. }
  intros m3. apply announces_bind_nil.
  { destruct (bool_decide ("chat_message_delay" ∈ _)); [|apply announces_ret].
    apply announces_bind_nil; [|intros; apply announces_ret].
    destruct (bool_decide (_ ≠ 0)); apply announces_add_message. }
  intros m4. apply announces_nil_bind; [|intros; apply announces_ret].
  destruct (negb m4); [apply announces_push | apply announces_ret].
Qed.

(** The transaction of [form_valid]: it either raises and leaves the
    database as it was, or returns with the row saved under the next
    version and the ratings triggered when the goal was edited. *)
Lemma EditRace_transaction race (g : bool) w :
  let r :=
    atomic
      (bind (EditRace.save race)
         (fun _ => if g then EditRace.update_entrant_ratings race else ret tt))
      w in
  (r.1 = Raised ∧ db r.2 = db w)
  ∨ (r.1 = Returned tt
     ∧ db r.2
       = {| EditRace.race_row :=
              EditRace.with_version race
                (version (EditRace.race_row (db w)) + 1);
            EditRace.message_set := EditRace.message_set (db w);
            EditRace.rating_updates :=
              if g then S (EditRace.rating_updates (db w))
              else EditRace.rating_updates (db w) |}).
Proof.
  unfold atomic, bind, EditRace.save, EditRace.update_entrant_ratings,
    call, ret.
  destruct w as [s b c [[|[|n]]|]]; destruct g; simpl; auto.
Qed.

Lemma is_done_spec r :
  is_done r = true
  ↔ state r = RaceStates.finished ∨ state r = RaceStates.cancelled.
Proof.
  unfold is_done. rewrite bool_decide_eq_true.
  rewrite !elem_of_cons, elem_of_nil. tauto.
Qed.

(** C1.  A room that is done (finished or cancelled) is refused by the
    permission test of EditRace before anything is written; a room that is
    not done is edited for a user who may monitor it; so an edit only ever
    succeeds on a room that is not done. *)
Theorem EditRace_only_rooms_not_done
    (can_monitor : Race -> User -> bool) (u : User)
    (exposed : list string) (data : EditRace.CleanedData) :
  (∀ r, is_done r = true
        ↔ state r = RaceStates.finished ∨ state r = RaceStates.cancelled)
  ∧ (∀ w, is_done (EditRace.race_row (db w)) = true →
       let r := EditRace.post can_monitor u exposed data w in
       (r.1 = Returned PermissionDenied ∨ r.1 = Raised)
       ∧ db r.2 = db w ∧ broadcasts r.2 = broadcasts w)
  ∧ (∀ s now,
       is_done (EditRace.race_row s) = false →
       can_monitor (EditRace.race_row s) u = true →
       let form :=
         {| EditRace.instance := EditRace.race_row s;
            EditRace.fields := exposed;
            EditRace.cleaned_data := data |} in
       let r := EditRace.post can_monitor u exposed data (calm s now) in
       r.1 = Returned (HttpResponseRedirect
                         (get_absolute_url (EditRace.race_row s)))
       ∧ EditRace.race_row (db r.2)
         = EditRace.with_version (EditRace.save_commit_false form)
             (version (EditRace.race_row s) + 1))
  ∧ (∀ w url,
       (EditRace.post can_monitor u exposed data w).1
       = Returned (HttpResponseRedirect url) →
       is_done (EditRace.race_row (db w)) = false).
Proof.
  assert (Hdone : ∀ w, is_done (EditRace.race_row (db w)) = true →
       let r := EditRace.post can_monitor u exposed data w in
       (r.1 = Returned PermissionDenied ∨ r.1 = Raised)
       ∧ db r.2 = db w ∧ broadcasts r.2 = broadcasts w).
  { intros w Hw. unfold EditRace.post, bind, EditRace.get_object, call,
      EditRace.test_func, ret.
    destruct w as [s b c [[|n]|]]; simpl in *; rewrite ?Hw, ?andb_false_r;
      simpl; auto. }
  split_and!; [apply is_done_spec | exact Hdone | |].
  - intros s now Hs Hm form.
    unfold EditRace.post, bind, EditRace.get_object, calm,
      EditRace.test_func.
    rewrite call_calm. cbn [fst snd]. rewrite Hs, Hm. cbn [andb negb].
    rewrite call_calm. cbn [fst snd].
    fold form.
    destruct (EditRace_form_valid_calm u form s 0 (now + 1 + 1))
      as (new & c' & -> & _). split; reflexivity.
  - intros w url Hr.
    destruct (is_done (EditRace.race_row (db w))) eqn:E; [|done].
    destruct (Hdone w E) as [[H|H] _]; rewrite Hr in H; discriminate.
Qed.

(** C1 on the sample room: alice's edit of the open room goes through, and
    the same request against the room once finished is refused. *)
Lemma EditRace_only_rooms_not_done_witness :
  (EditRace.post Scenario.anyone_monitors Scenario.alice Scenario.edit_fields
     (EditRace.cleaned_data Scenario.info_edit)
     (calm Scenario.stored 0)).1
  = Returned (HttpResponseRedirect "/sm64/clever-yoshi-1234").
Proof.
  exact (proj1
    (proj1 (proj2 (proj2
       (EditRace_only_rooms_not_done Scenario.anyone_monitors Scenario.alice
          Scenario.edit_fields (EditRace.cleaned_data Scenario.info_edit))))
       Scenario.stored 0 eq_refl eq_refl)).
Defined.

(** However an edit ends, it has either changed nothing (a call failed
    inside the transaction), or it has saved the row under the next
    version together with the rating trigger and appended a prefix of its
    notices - all of them unless it raised. *)
Lemma EditRace_form_valid_outcome u form w :
  let r := EditRace.form_valid u form w in
  (r.1 = Raised ∧ db r.2 = db w)
  ∨ (∃ new,
       db r.2
       = {| EditRace.race_row :=
              EditRace.with_version (EditRace.save_commit_false form)
                (version (EditRace.race_row (db w)) + 1);
            EditRace.message_set := EditRace.message_set (db w) ++ new;
            EditRace.rating_updates :=
              if EditRace.goal_edited form
              then S (EditRace.rating_updates (db w))
              else EditRace.rating_updates (db w) |}
       ∧ Forall (fun m => is_system m = true ∧ deleted m = false) new
       ∧ map message_plain new `prefix_of` EditRace.notices u form
       ∧ (r.1 ≠ Raised → map message_plain new = EditRace.notices u form)).
Proof.
  destruct (EditRace_tail_announces u form) as (tail & -> & Htail).
  cbv zeta. rewrite bind_run.
  destruct (EditRace_transaction (EditRace.save_commit_false form)
              (EditRace.goal_edited form) w) as [[Ho Hd]|[Ho Hd]];
    cbv zeta in Ho, Hd;
    destruct (atomic _ w) as [o w1]; simpl in Ho, Hd; subst o.
  - left. by split.
  - right. destruct (Htail w1) as (new & E & F & P & R).
    exists new. rewrite E, Hd. simpl. by split_and!.
Qed.

(** C4.  A successful edit triggers the rating recalculation exactly once
    when the goal or the custom goal is among the changed fields, and not
    at all when it is not. *)
Theorem EditRace_rating_trigger u form w response :
  (EditRace.form_valid u form w).1 = Returned response →
  let before := EditRace.rating_updates (db w) in
  let after :=
    EditRace.rating_updates (db (EditRace.form_valid u form w).2) in
  ("goal" ∈ EditRace.changed_data form
   ∨ "custom_goal" ∈ EditRace.changed_data form → after = S before)
  ∧ (¬ ("goal" ∈ EditRace.changed_data form
        ∨ "custom_goal" ∈ EditRace.changed_data form) → after = before).
Proof.
  intros Hr before after. subst before after.
  pose proof (EditRace_form_valid_outcome u form w) as H. cbv zeta in H.
  destruct H as [[Ho _]|(new & E & _)].
  { rewrite Hr in Ho. discriminate. }
  rewrite E. cbn [EditRace.rating_updates]. unfold EditRace.goal_edited.
  destruct (bool_decide_reflect ("goal" ∈ EditRace.changed_data form));
    destruct (bool_decide_reflect
                ("custom_goal" ∈ EditRace.changed_data form));
    cbn [orb]; split; intros; tauto.
Qed.

(** C4 on the sample room: an edit of the information alone leaves the
    ratings untouched. *)
Lemma EditRace_rating_trigger_witness :
  EditRace.rating_updates
    (db (EditRace.form_valid Scenario.alice Scenario.info_edit
           (calm Scenario.stored 0)).2)
  = EditRace.rating_updates Scenario.stored.
Proof.
  refine (proj2
    (EditRace_rating_trigger Scenario.alice Scenario.info_edit
       (calm Scenario.stored 0)
       (HttpResponseRedirect "/sm64/clever-yoshi-1234") _) _).
  - vm_compute. reflexivity.
  - refine (bool_decide_unpack _ _). vm_compute. exact I.
Defined.


Lemma changed_field_exposed form f :
  f ∈ EditRace.changed_data form →
  f ∈ EditRace.fields form ∧ EditRace.has_changed form f = true.
Proof.
  unfold EditRace.changed_data. rewrite list_elem_of_filter. tauto.
Qed.

(** C6.  A successful edit whose only changed field is the streaming flag
    appends exactly one system message - "Streaming is now required for
    this race." when the flag went from false to true, "Streaming is now
    NOT required for this race." when it went from true to false - and
    raises the version of the room by exactly one. *)
Theorem EditRace_streaming_notice u form w response :
  EditRace.changed_data form = ["streaming_required"] →
  (EditRace.form_valid u form w).1 = Returned response →
  let flag := EditRace.new_streaming_required (EditRace.cleaned_data form) in
  let after := db (EditRace.form_valid u form w).2 in
  streaming_required (EditRace.instance form) = negb flag
  ∧ streaming_required (EditRace.race_row after) = flag
  ∧ version (EditRace.race_row after)
    = version (EditRace.race_row (db w)) + 1
  ∧ ∃ m,
      EditRace.message_set after = EditRace.message_set (db w) ++ [m]
      ∧ is_system m = true
      ∧ message_plain m
        = if flag then "Streaming is now required for this race."
          else "Streaming is now NOT required for this race.".
Proof.
  intros Hcd Hr flag after. subst after.
  destruct (changed_field_exposed form "streaming_required") as [Hin Hch].
  { rewrite Hcd. apply list_elem_of_here. }
  assert (Hflag : streaming_required (EditRace.save_commit_false form) = flag).
  { unfold EditRace.save_commit_false. cbn [streaming_required].
    by rewrite (bool_decide_eq_true_2 _ Hin). }
  assert (Hn : EditRace.notices u form
               = [if flag then "Streaming is now required for this race."
                  else "Streaming is now NOT required for this race."]).
  { unfold EditRace.notices. rewrite Hcd, Hflag. reflexivity. }
  pose proof (EditRace_form_valid_outcome u form w) as H. cbv zeta in H.
  destruct H as [[Ho _]|(new & E & F & _ & R)].
  { rewrite Hr in Ho. discriminate. }
  rewrite E. cbn [EditRace.race_row EditRace.message_set].
  split_and!.
  - unfold EditRace.has_changed in Hch. cbn in Hch.
    apply bool_decide_eq_true_1 in Hch. fold flag in Hch.
    destruct flag, (streaming_required (EditRace.instance form)); done.
  - exact Hflag.
  - reflexivity.
  - rewrite Hn in R. specialize (R ltac:(rewrite Hr; discriminate)).
    destruct new as [|m [|m' rest]]; try discriminate.
    exists m. inversion R. apply Forall_inv in F as [F _].
    split_and!; [reflexivity | exact F | reflexivity].
Qed.

(** C6 on the sample room: bob requires streaming on the open room; one
    system message with the announcing text is appended. *)
Lemma EditRace_streaming_notice_witness :
  ∃ m,
    EditRace.message_set
      (db (EditRace.form_valid Scenario.bob Scenario.streaming_edit
             (calm Scenario.stored 0)).2)
    = [m]
    ∧ is_system m = true
    ∧ message_plain m = "Streaming is now required for this race.".
Proof.
  exact (proj2 (proj2 (proj2
    (EditRace_streaming_notice Scenario.bob Scenario.streaming_edit
       (calm Scenario.stored 0)
       (HttpResponseRedirect "/sm64/clever-yoshi-1234")
       eq_refl eq_refl)))).
Defined.


(** C3, as the handler has it.  The save of the row (with its version
    step) and the rating trigger form one transaction: they take effect
    together or not at all.  The system messages are appended after that
    transaction has committed: they never appear without the saved row,
    they come in the order goal, information, streaming, chat delay, all of
    them are there when the edit returns, and when a later call fails the
    row stays saved with only the messages appended so far.  With no
    failing call the edit returns. *)
Theorem EditRace_commit_then_notices u form :
  (∀ w,
     let r := EditRace.form_valid u form w in
     (r.1 = Raised ∧ db r.2 = db w)
     ∨ (∃ new,
          EditRace.race_row (db r.2)
          = EditRace.with_version (EditRace.save_commit_false form)
              (version (EditRace.race_row (db w)) + 1)
          ∧ EditRace.rating_updates (db r.2)
            = (if EditRace.goal_edited form
               then S (EditRace.rating_updates (db w))
               else EditRace.rating_updates (db w))
          ∧ EditRace.message_set (db r.2)
            = EditRace.message_set (db w) ++ new
          ∧ Forall (fun m => is_system m = true ∧ deleted m = false) new
          ∧ map message_plain new `prefix_of` EditRace.notices u form
          ∧ (r.1 ≠ Raised
             → map message_plain new = EditRace.notices u form)))
  ∧ (∀ s now,
       (EditRace.form_valid u form (calm s now)).1
       = Returned (HttpResponseRedirect
                     (get_absolute_url (EditRace.instance form)))).
Proof.
  split.
  - intros w. pose proof (EditRace_form_valid_outcome u form w) as H.
    cbv zeta in *. destruct H as [H|(new & E & F & P & R)]; [by left|].
    right. exists new. rewrite E. by split_and!.
  - intros s now.
    destruct (EditRace_form_valid_calm u form s 0 now) as (new & c' & E & _).
    unfold calm. by rewrite E.
Qed.

(** C3, refuted as stated: alice's edit of the information is saved (the
    row carries the new text under version 6), the call that appends the
    notice fails, and the room is left without the system message that
    belongs to the committed change. *)
Lemma EditRace_commit_without_message :
  let r :=
    EditRace.form_valid Scenario.alice Scenario.info_edit
      (faulty Scenario.stored 0 1) in
  EditRace.notices Scenario.alice Scenario.info_edit
  = ["alice updated the race information."]
  ∧ r.1 = Raised
  ∧ info (EditRace.race_row (db r.2)) = "Bring a timer"
  ∧ version (EditRace.race_row (db r.2)) = 6
  ∧ EditRace.message_set (db r.2) = [].
Proof. vm_compute. by split_and!. Qed.

(** C5, as the handler has it.  Two edits prepared from the same reading of
    a room and saved one after the other both commit: each save raises the
    stored version by exactly one, so the room ends two versions later, no
    edit is turned away, and the row holds the columns of the edit that was
    saved last. *)
Theorem EditRace_edits_from_one_reading u1 u2 exposed1 data1 exposed2 data2
    s now :
  let read := EditRace.race_row s in
  let form1 :=
    {| EditRace.instance := read; EditRace.fields := exposed1;
       EditRace.cleaned_data := data1 |} in
  let form2 :=
    {| EditRace.instance := read; EditRace.fields := exposed2;
       EditRace.cleaned_data := data2 |} in
  let r1 := EditRace.form_valid u1 form1 (calm s now) in
  let r2 := EditRace.form_valid u2 form2 r1.2 in
  r1.1 = Returned (HttpResponseRedirect (get_absolute_url read))
  ∧ r2.1 = Returned (HttpResponseRedirect (get_absolute_url read))
  ∧ version (EditRace.race_row (db r1.2)) = version read + 1
  ∧ version (EditRace.race_row (db r2.2)) = version read + 2
  ∧ EditRace.race_row (db r2.2)
    = EditRace.with_version (EditRace.save_commit_false form2)
        (version read + 2).
Proof.
  intros read form1 form2 r1 r2. subst r1 r2 read. unfold calm.
  destruct (EditRace_form_valid_calm u1 form1 s 0 now)
    as (new1 & c1 & -> & _). cbn [fst snd].
  destruct (EditRace_form_valid_calm u2 form2
              {| EditRace.race_row :=
                   EditRace.with_version (EditRace.save_commit_false form1)
                     (version (EditRace.race_row s) + 1);
                 EditRace.message_set := EditRace.message_set s ++ new1;
                 EditRace.rating_updates :=
                   if EditRace.goal_edited form1
                   then S (EditRace.rating_updates s)
                   else EditRace.rating_updates s |}
              (match EditRace.notices u1 form1 with
               | [] => 1%nat | _ => 0%nat end) c1)
    as (new2 & c2 & -> & _).
  cbn [fst snd db EditRace.race_row EditRace.with_version version].
  split_and!; [reflexivity | reflexivity | reflexivity | lia |].
  unfold EditRace.with_version. f_equal. lia.
Qed.

(** C5, refuted as stated: alice and bob both prepare an edit from the
    room at version 5; both saves go through, the room ends at version 7,
    and bob's save puts the old information back over alice's. *)
Lemma EditRace_both_edits_commit :
  let r1 :=
    EditRace.form_valid Scenario.alice Scenario.info_edit
      (calm Scenario.stored 0) in
  let r2 := EditRace.form_valid Scenario.bob Scenario.streaming_edit r1.2 in
  version (EditRace.instance Scenario.info_edit) = 5
  ∧ version (EditRace.instance Scenario.streaming_edit) = 5
  ∧ r1.1 = Returned (HttpResponseRedirect "/sm64/clever-yoshi-1234")
  ∧ r2.1 = Returned (HttpResponseRedirect "/sm64/clever-yoshi-1234")
  ∧ info (EditRace.race_row (db r1.2)) = "Bring a timer"
  ∧ version (EditRace.race_row (db r2.2)) = 7
  ∧ streaming_required (EditRace.race_row (db r2.2)) = true
  ∧ info (EditRace.race_row (db r2.2)) = "".
Proof. vm_compute. by split_and!. Qed.


(** ** Ordered query sets *)

Section order_by_facts.
Context {A : Type} (le : A -> A -> bool).
Hypothesis le_total : ∀ a b, le a b = true ∨ le b a = true.
Hypothesis le_trans : ∀ a b c, le a b = true → le b c = true → le a c = true.

Lemma insert_row_perm x rows : insert_row le x rows ≡ₚ x :: rows.
Proof.
  induction rows as [|y rest IH]; simpl; [done|].
  destruct (le x y); [done|].
  rewrite IH. apply Permutation_swap.
Qed.

Lemma order_by_perm (rows : list A) : order_by le rows ≡ₚ rows.
Proof.
  induction rows as [|x rest IH]; simpl; [done|].
  by rewrite insert_row_perm, IH.
Qed.

Lemma insert_row_sorted x rows :
  StronglySorted (fun a b => le a b = true) rows →
  StronglySorted (fun a b => le a b = true) (insert_row le x rows).
Proof.
  induction 1 as [|y rest Hs IH Hy]; simpl.
  - repeat constructor.
  - destruct (le x y) eqn:E.
    + constructor; [by constructor|].
      constructor; [done|].
      eapply Forall_impl; [exact Hy|]. intros z Hz. by eapply le_trans.
    + constructor; [done|].
      rewrite insert_row_perm. constructor; [|done].
      destruct (le_total x y); congruence.
Qed.

Lemma order_by_sorted (rows : list A) :
  StronglySorted (fun a b => le a b = true) (order_by le rows).
Proof.
  induction rows; simpl; [constructor | by apply insert_row_sorted].
Qed.

Lemma insert_row_ties e x rows :
  filter (ties le e) (insert_row le x rows) = filter (ties le e) (x :: rows).
Proof.
  induction rows as [|y rest IH]; simpl; [done|].
  destruct (le x y) eqn:E; [done|].
  rewrite !filter_cons in *.
  destruct (decide (ties le e x)) as [[H1 H2]|Hx];
    destruct (decide (ties le e y)) as [[H3 H4]|Hy]; try by rewrite IH.
  assert (le x y = true) by (eapply le_trans; eauto). congruence.
Qed.

Lemma order_by_stable e (rows : list A) :
  filter (ties le e) (order_by le rows) = filter (ties le e) rows.
Proof.
  induction rows as [|x rest IH]; simpl; [done|].
  rewrite insert_row_ties, !filter_cons. by rewrite IH.
Qed.

Lemma sorted_lookup (rows : list A) i j a b :
  StronglySorted (fun a b => le a b = true) rows →
  (i < j)%nat → rows !! i = Some a → rows !! j = Some b → le a b = true.
Proof.
  intros Hs. revert i j. induction Hs as [|x rest Hs IH Hx]; intros i j Hij Hi Hj.
  - by rewrite lookup_nil in Hi.
  - destruct j as [|j]; [lia|]. simpl in Hj.
    destruct i as [|i]; simpl in Hi.
    + injection Hi as ->. rewrite Forall_forall in Hx. apply Hx.
      by eapply list_elem_of_lookup_2.
    + apply (IH i j); [lia|done..].
Qed.

End order_by_facts.

(** ** The listing of current rooms *)

Lemma listing_le_spec a b :
  CategoryPage.listing_le a b = true
  ↔ CategoryPage.state_sort a < CategoryPage.state_sort b
    ∨ (CategoryPage.state_sort a = CategoryPage.state_sort b
       ∧ opened_at a ≤ opened_at b).
Proof.
  unfold CategoryPage.listing_le.
  rewrite orb_true_iff, andb_true_iff, Z.ltb_lt, Z.eqb_eq, Z.leb_le. tauto.
Qed.

Lemma listing_le_total a b :
  CategoryPage.listing_le a b = true ∨ CategoryPage.listing_le b a = true.
Proof. rewrite !listing_le_spec. lia. Qed.

Lemma listing_le_trans a b c :
  CategoryPage.listing_le a b = true → CategoryPage.listing_le b c = true →
  CategoryPage.listing_le a c = true.
Proof. rewrite !listing_le_spec. lia. Qed.

(** On the four states a listed room can be in, the annotation of the
    view and the groups of the specification number the rooms alike, one
    apart. *)
Lemma state_sort_group r :
  state r ∈ [RaceStates.open; RaceStates.invitational; RaceStates.pending;
             RaceStates.in_progress] →
  CategoryPage.state_sort r = CategoryPage.spec_group r + 1.
Proof.
  intros H. unfold CategoryPage.state_sort, CategoryPage.spec_group.
  repeat (apply elem_of_cons in H as [->|H]; [reflexivity|]).
  by apply elem_of_nil in H.
Qed.

Lemma lookup_sorted {A} (R : A → A → Prop) (rows : list A) :
  (∀ i j a b,
     (i < j)%nat → rows !! i = Some a → rows !! j = Some b → R a b) →
  StronglySorted R rows.
Proof.
  induction rows as [|x rows IH]; intros H; constructor.
  - apply IH. intros i j a b Hij Hi Hj. apply (H (S i) (S j)); [lia|done..].
  - apply Forall_forall. intros y Hy.
    apply list_elem_of_lookup in Hy as [j Hj].
    apply (H 0%nat (S j)); [lia|done..].
Qed.

(** C2.  With the states a room can be in, the listing holds exactly the
    rooms of the category that are neither finished nor cancelled: open
    and invitational rooms first, pending and in-progress rooms next -
    there is no other state left for a third group - and within a group
    the room opened earlier first.  The order is total: any two rooms
    compare.  It is stable in that the listing does not depend on how
    rooms that tie are delivered: every arrangement of the same rooms that
    follows the [ORDER BY] of the view shows the same sequence of groups
    and opening times. *)
Theorem current_races_order object race_table
    (Hstates : Forall
       (fun r =>
          state r ∈ [RaceStates.open; RaceStates.invitational;
                     RaceStates.pending; RaceStates.in_progress;
                     RaceStates.finished; RaceStates.cancelled])
       race_table) :
  let shown :=
    filter (fun r => state r ∉ [RaceStates.finished; RaceStates.cancelled])
      (CategoryPage.race_set object race_table) in
  let listing := CategoryPage.current_races object race_table in
  let key := fun r => (CategoryPage.spec_group r, opened_at r) in
  listing ≡ₚ shown
  ∧ (∀ r,
       r ∈ listing →
       (CategoryPage.spec_group r = 0
        ∧ state r ∈ [RaceStates.open; RaceStates.invitational])
       ∨ (CategoryPage.spec_group r = 1
          ∧ state r ∈ [RaceStates.pending; RaceStates.in_progress]))
  ∧ (∀ i j a b,
       (i < j)%nat → listing !! i = Some a → listing !! j = Some b →
       CategoryPage.spec_group a < CategoryPage.spec_group b
       ∨ (CategoryPage.spec_group a = CategoryPage.spec_group b
          ∧ opened_at a ≤ opened_at b))
  ∧ (∀ a b,
       CategoryPage.spec_le a b = true ∨ CategoryPage.spec_le b a = true)
  ∧ (∀ out,
       out ≡ₚ shown →
       (∀ i j a b,
          (i < j)%nat → out !! i = Some a → out !! j = Some b →
          CategoryPage.listing_le a b = true) →
       map key out = map key listing).
Proof.
  intros shown listing key.
  assert (Hperm : listing ≡ₚ shown) by apply order_by_perm.
  assert (Hfour : ∀ r,
    r ∈ shown →
    state r ∈ [RaceStates.open; RaceStates.invitational;
               RaceStates.pending; RaceStates.in_progress]).
  { intros r Hr. subst shown. apply list_elem_of_filter in Hr as [Hnot Hr].
    unfold CategoryPage.race_set in Hr.
    apply list_elem_of_filter in Hr as [_ Hr].
    rewrite Forall_forall in Hstates. specialize (Hstates r Hr).
    revert Hstates Hnot. rewrite !elem_of_cons, !elem_of_nil. tauto. }
  assert (Hle : ∀ a b,
    a ∈ shown → b ∈ shown →
    (CategoryPage.listing_le a b = true
     ↔ CategoryPage.spec_group a < CategoryPage.spec_group b
       ∨ (CategoryPage.spec_group a = CategoryPage.spec_group b
          ∧ opened_at a ≤ opened_at b))).
  { intros a b Ha Hb. rewrite listing_le_spec.
    rewrite (state_sort_group a), (state_sort_group b) by auto. lia. }
  assert (Hsorted : ∀ i j a b,
    (i < j)%nat → listing !! i = Some a → listing !! j = Some b →
    CategoryPage.listing_le a b = true).
  { intros i j a b Hij Hi Hj.
    eapply sorted_lookup; [|exact Hij|exact Hi|exact Hj].
    apply order_by_sorted; [apply listing_le_total | apply listing_le_trans]. }
  assert (Hkeys : ∀ rows,
    rows ≡ₚ shown →
    (∀ i j a b,
       (i < j)%nat → rows !! i = Some a → rows !! j = Some b →
       CategoryPage.listing_le a b = true) →
    StronglySorted
      (fun k1 k2 : Z * Z => k1.1 < k2.1 ∨ (k1.1 = k2.1 ∧ k1.2 ≤ k2.2))
      (map key rows)).
  { intros rows Hrows Hord. apply lookup_sorted. intros i j ka kb Hij Hi Hj.
    apply list_lookup_fmap_Some in Hi as (a & -> & Hi).
    apply list_lookup_fmap_Some in Hj as (b & -> & Hj).
    subst key. cbn [fst snd]. apply Hle.
    - rewrite <- Hrows. by eapply list_elem_of_lookup_2.
    - rewrite <- Hrows. by eapply list_elem_of_lookup_2.
    - by eapply Hord. }
  split_and!.
  - exact Hperm.
  - intros r Hr. rewrite Hperm in Hr. specialize (Hfour r Hr).
    unfold CategoryPage.spec_group.
    apply elem_of_cons in Hfour as [E|Hfour];
      [left; rewrite E; split; [reflexivity|set_solver]|].
    apply elem_of_cons in Hfour as [E|Hfour];
      [left; rewrite E; split; [reflexivity|set_solver]|].
    apply elem_of_cons in Hfour as [E|Hfour];
      [right; rewrite E; split; [reflexivity|set_solver]|].
    apply elem_of_cons in Hfour as [E|Hfour];
      [right; rewrite E; split; [reflexivity|set_solver]|].
    by apply elem_of_nil in Hfour.
  - intros i j a b Hij Hi Hj. apply Hle.
    + rewrite <- Hperm. by eapply list_elem_of_lookup_2.
    + rewrite <- Hperm. by eapply list_elem_of_lookup_2.
    + by eapply Hsorted.
  - intros a b. unfold CategoryPage.spec_le.
    rewrite !orb_true_iff, !andb_true_iff, !Z.ltb_lt, !Z.eqb_eq, !Z.leb_le.
    lia.
  - intros out Hout Hord.
    apply (StronglySorted_unique_strong
             (fun k1 k2 : Z * Z =>
                k1.1 < k2.1 ∨ (k1.1 = k2.1 ∧ k1.2 ≤ k2.2))).
    + intros [g1 t1] [g2 t2] _ _. cbn [fst snd]. intros H1 H2.
      f_equal; lia.
    + by apply Hkeys.
    + by apply Hkeys.
    + apply Permutation_map. by rewrite Hout, Hperm.
Qed.

(** C2 on the sample category: the open room is listed before the room
    that is under way, although it was opened later and is stored
    second. *)
Lemma current_races_order_witness :
  CategoryPage.current_races Scenario.sm64
    [Scenario.started_room; Scenario.room]
  ≡ₚ [Scenario.started_room; Scenario.room]
  ∧ (CategoryPage.spec_group Scenario.room
     < CategoryPage.spec_group Scenario.started_room
     ∨ (CategoryPage.spec_group Scenario.room
        = CategoryPage.spec_group Scenario.started_room
        ∧ opened_at Scenario.room ≤ opened_at Scenario.started_room)).
Proof.
  assert (Hstates : Forall
    (fun r =>
       state r ∈ [RaceStates.open; RaceStates.invitational;
                  RaceStates.pending; RaceStates.in_progress;
                  RaceStates.finished; RaceStates.cancelled])
    [Scenario.started_room; Scenario.room]).
  { refine (bool_decide_unpack _ _). vm_compute. exact I. }
  pose proof (current_races_order Scenario.sm64
                [Scenario.started_room; Scenario.room] Hstates) as H.
  cbv zeta in H. destruct H as (Hperm & _ & Hord & _).
  split; [exact Hperm|].
  exact (Hord 0%nat 1%nat Scenario.room Scenario.started_room
           (le_n 1) eq_refl eq_refl).
Defined.

(** ** The chat log *)

Lemma posted_le_total (a b : Message) :
  (posted_at a <=? posted_at b) = true ∨ (posted_at b <=? posted_at a) = true.
Proof. rewrite !Z.leb_le. lia. Qed.

Lemma posted_le_trans (a b c : Message) :
  (posted_at a <=? posted_at b) = true →
  (posted_at b <=? posted_at c) = true →
  (posted_at a <=? posted_at c) = true.
Proof. rewrite !Z.leb_le. lia. Qed.

(** Marking the message at a position deleted takes just that message out
    of the rows the export reads. *)
Lemma filter_delete_message position (message_set : list Message) :
  filter (fun m => deleted m = false)
    (RaceChatLog.delete_message position message_set)
  = filter (fun m => deleted m = false) (delete position message_set).
Proof.
  unfold RaceChatLog.delete_message.
  revert position. induction message_set as [|m rest IH]; intros [|p];
    try done.
  change (alter RaceChatLog.mark_deleted (S p) (m :: rest))
      with (m :: alter RaceChatLog.mark_deleted p rest).
    change (delete (S p) (m :: rest)) with (m :: delete p rest).
  rewrite !filter_cons. by rewrite IH.
Qed.

(** C7.  The export of the chat log holds exactly the stored messages that
    are not marked deleted, in the order of their posting times; marking a
    message deleted keeps every stored message at its position, changes
    nothing but the flag of the one message, and takes just that message
    out of the export. *)
Theorem chat_log_logical_delete (str_datetime : Z -> string)
    (object : Race) (message_set : list Message) (position : nat) :
  let exported := RaceChatLog.messages message_set in
  let after := RaceChatLog.delete_message position message_set in
  exported ≡ₚ filter (fun m => deleted m = false) message_set
  ∧ (∀ m, m ∈ exported ↔ m ∈ message_set ∧ deleted m = false)
  ∧ (∀ i j a b,
       (i < j)%nat → exported !! i = Some a → exported !! j = Some b →
       posted_at a ≤ posted_at b)
  ∧ RaceChatLog.content (RaceChatLog.get str_datetime object message_set)
    = String.concat RaceChatLog.newline
        (map (RaceChatLog.line str_datetime) exported)
  ∧ length after = length message_set
  ∧ (∀ j, j ≠ position → after !! j = message_set !! j)
  ∧ after !! position = RaceChatLog.mark_deleted <$> message_set !! position
  ∧ (∀ m,
       posted_at (RaceChatLog.mark_deleted m) = posted_at m
       ∧ models.user (RaceChatLog.mark_deleted m) = models.user m
       ∧ bot (RaceChatLog.mark_deleted m) = bot m
       ∧ message_plain (RaceChatLog.mark_deleted m) = message_plain m
       ∧ is_system (RaceChatLog.mark_deleted m) = is_system m
       ∧ deleted (RaceChatLog.mark_deleted m) = true)
  ∧ RaceChatLog.messages after
    = RaceChatLog.messages (delete position message_set).
Proof.
  intros exported after. subst exported after.
  unfold RaceChatLog.messages, RaceChatLog.delete_message.
  split_and!.
  - apply order_by_perm.
  - intros m. rewrite order_by_perm, list_elem_of_filter. tauto.
  - intros i j a b Hij Hi Hj. apply Z.leb_le.
    eapply (sorted_lookup (fun a b => posted_at a <=? posted_at b));
      [|exact Hij|exact Hi|exact Hj].
    apply order_by_sorted; [apply posted_le_total | apply posted_le_trans].
  - reflexivity.
  - apply length_alter.
  - intros j Hj. by apply list_lookup_alter_ne.
  - apply list_lookup_alter_eq.
  - done.
  - f_equal. apply filter_delete_message.
Qed.

(** C7 on the sample chat: after the second message is marked deleted the
    first one is still stored at its position. *)
Lemma chat_log_logical_delete_witness :
  RaceChatLog.delete_message 1 Scenario.chat !! 0%nat
  = Scenario.chat !! 0%nat.
Proof.
  exact (proj1 (proj2 (proj2 (proj2 (proj2 (proj2
    (chat_log_logical_delete (fun t => pretty t) Scenario.room
       Scenario.chat 1))))))
    0%nat (O_S 0)).
Defined.

(** ** Who may manage a category *)

(** C8, as the view has it.  Access to a view guarded by ManageCategory is
    granted exactly when the category is active and the user passes its
    [can_edit] check, or the category is deactivated and the user is an
    active staff member; on a deactivated category this is the test of
    AdministrateCategory, whatever [can_edit] says. *)
Theorem ManageCategory_access (can_edit : Category -> User -> bool)
    (c : Category) (u : User) :
  (ManageCategory.test_func can_edit c u = true
   ↔ (cat_active c = true ∧ can_edit c u = true)
     ∨ (cat_active c = false ∧ is_active u = true ∧ is_staff u = true))
  ∧ (cat_active c = false →
     ManageCategory.test_func can_edit c u
     = AdministrateCategory.test_func u).
Proof.
  unfold ManageCategory.test_func, AdministrateCategory.test_func.
  destruct (cat_active c); rewrite ?andb_true_iff; split;
    try done; intuition congruence.
Qed.

(** C8 on the sample category once deactivated: bob, staff and active,
    gets in although he is not the owner. *)
Lemma ManageCategory_access_witness :
  ManageCategory.test_func ManageCategory.owner_can_edit
    Scenario.sm64_hidden Scenario.bob
  = AdministrateCategory.test_func Scenario.bob.
Proof.
  exact (proj2
    (ManageCategory_access ManageCategory.owner_can_edit
       Scenario.sm64_hidden Scenario.bob) eq_refl).
Defined.

(** C8, refuted as stated: on the active category bob is an active staff
    member, so the disjunction of the wording holds, yet the view asks
    [can_edit] only and turns him away. *)
Lemma ManageCategory_active_staff_refused :
  cat_active Scenario.sm64 = true
  ∧ is_active Scenario.bob = true
  ∧ is_staff Scenario.bob = true
  ∧ AdministrateCategory.test_func Scenario.bob = true
  ∧ ManageCategory.owner_can_edit Scenario.sm64 Scenario.bob = false
  ∧ ManageCategory.test_func ManageCategory.owner_can_edit
      Scenario.sm64 Scenario.bob = false.
Proof. vm_compute. by split_and!. Qed.

(** ** Opening a room *)

Lemma open_rooms_of_app u table extra :
  CreateRace.open_rooms_of u (table ++ extra)
  = CreateRace.open_rooms_of u table ++ CreateRace.open_rooms_of u extra.
Proof. unfold CreateRace.open_rooms_of. by rewrite !filter_app. Qed.

Lemma open_rooms_of_one u race :
  (length (CreateRace.open_rooms_of u [race]) ≤ 1)%nat.
Proof.
  unfold CreateRace.open_rooms_of.
  etransitivity; [apply length_filter|].
  etransitivity; [apply length_filter|]. done.
Qed.

Arguments CreateRace.open_rooms_of : simpl never.

Ltac burn w :=
  destruct w as [?s ?b ?c [[|[|[|[|[|[|[|?n]]]]]]]|]].

(** C9.  For a user who cannot moderate the category, CreateRace answers
    with the form error and writes nothing whenever the user has opened a
    room that is neither finished nor cancelled, so such a user never gets
    from at most one open room to more; a user who can moderate the
    category, or who has no such room, gets the room created. *)
Theorem CreateRace_one_open_room
    (can_moderate : Category -> User -> bool)
    (generate_race_slug : Category -> list Race -> string)
    (initial_version : Z) (u : User) (form : CreateRace.CleanedData) :
  let run :=
    CreateRace.form_valid can_moderate generate_race_slug initial_version
      u form in
  let refusal :=
    FormInvalid ["You can only have one open race room at a time."] in
  (∀ w,
     can_moderate (CreateRace.category_row (db w)) u = false →
     CreateRace.open_rooms_of u (CreateRace.race_table (db w)) ≠ [] →
     db (run w).2 = db w
     ∧ ((run w).1 = Returned refusal ∨ (run w).1 = Raised))
  ∧ (∀ s now,
       can_moderate (CreateRace.category_row s) u = false →
       CreateRace.open_rooms_of u (CreateRace.race_table s) ≠ [] →
       (run (calm s now)).1 = Returned refusal)
  ∧ (∀ s now,
       can_moderate (CreateRace.category_row s) u = true
       ∨ CreateRace.open_rooms_of u (CreateRace.race_table s) = [] →
       ∃ race,
         (run (calm s now)).1
         = Returned (HttpResponseRedirect (get_absolute_url race))
         ∧ CreateRace.race_table (db (run (calm s now)).2)
           = CreateRace.race_table s ++ [race]
         ∧ opened_by race = pk u
         ∧ category race = cat_slug (CreateRace.category_row s)
         ∧ state race
           = if CreateRace.form_invitational form
             then RaceStates.invitational else RaceStates.open)
  ∧ (∀ w,
       can_moderate (CreateRace.category_row (db w)) u = false →
       (length (CreateRace.open_rooms_of u
                  (CreateRace.race_table (db (run w).2)))
        ≤ Nat.max 1
            (length (CreateRace.open_rooms_of u
                       (CreateRace.race_table (db w)))))%nat).
Proof.
  intros run refusal. subst run refusal.
  unfold CreateRace.form_valid, CreateRace.get_category,
    CreateRace.has_open_race, CreateRace.new_slug, CreateRace.save,
    CreateRace.log_action.
  split_and!.
  - intros w Hm Ho. burn w; cbn in Hm, Ho;
      unfold bind, call, ret; cbn; rewrite ?Hm; cbn;
      rewrite ?(bool_decide_eq_true_2 _ Ho); cbn; auto.
  - intros s now Hm Ho. unfold bind, call, ret, calm; cbn.
    rewrite Hm; cbn. by rewrite (bool_decide_eq_true_2 _ Ho).
  - intros s now H. unfold bind, call, ret, calm; cbn.
    destruct (can_moderate (CreateRace.category_row s) u) eqn:Hm; cbn.
    + refine (ex_intro _ _ (conj _ (conj eq_refl _)));
        [reflexivity | split_and!; reflexivity].
    + destruct H as [H|H]; [done|].
      rewrite bool_decide_eq_false_2 by (by intros ?); cbn.
      refine (ex_intro _ _ (conj _ (conj eq_refl _)));
        [reflexivity | split_and!; reflexivity].
  - intros w Hm. burn w; cbn in Hm;
      unfold bind, call, ret; cbn; rewrite ?Hm; cbn;
      try lia;
      destruct (bool_decide_reflect
                  (CreateRace.open_rooms_of u (CreateRace.race_table s)
                   ≠ [])) as [Ho|Ho]; cbn; try lia;
      apply dec_stable in Ho;
      rewrite ?open_rooms_of_app, ?Ho; cbn [app];
      try (etransitivity; [apply open_rooms_of_one|lia]).
Qed.

(** C9 on the sample rooms: bob, who does not moderate the category and
    has a room that is not over, is refused. *)
Lemma CreateRace_one_open_room_witness :
  (CreateRace.form_valid Scenario.owner_moderates Scenario.numbered_slug 0
     Scenario.bob Scenario.race_form (calm Scenario.rooms 0)).1
  = Returned
      (FormInvalid ["You can only have one open race room at a time."]).
Proof.
  refine (proj1 (proj2
    (CreateRace_one_open_room Scenario.owner_moderates
       Scenario.numbered_slug 0 Scenario.bob Scenario.race_form))
    Scenario.rooms 0 eq_refl _).
  vm_compute. discriminate.
Defined.

(** ** Moderators and ownership *)

Ltac run_site :=
  repeat first
    [ rewrite bind_run
    | rewrite call_calm
    | rewrite call_armed
    | rewrite call_blown
    | progress unfold ret, atomic
    | progress cbn [fst snd db broadcasts clock fuse category_row
                    moderator_rel user_table auditlog_set flash owner] ].

Ltac case_site :=
  match goal with
  | |- context [if bool_decide ?P then _ else _] =>
      destruct (bool_decide_reflect P)
  | |- context [if ?x then _ else _] =>
      match type of x with bool => let E := fresh "E" in destruct x eqn:E end
  end.

Lemma ModeratorViews_keep_owner_apart can_edit login_url view self_user
    user w :
  owner_apart (db w) →
  owner_apart
    (db (ModeratorViews.post can_edit login_url view self_user user w).2).
Proof.
  unfold owner_apart. intros H.
  unfold ModeratorViews.post, get_category, handle_no_permission.
  burn w; cbn [db] in H; destruct view;
    unfold AddModerator.form_valid, RemoveModerator.form_valid,
      TransferOwner.form_valid, moderators, moderators_all, moderators_add,
      moderators_remove, AuditLog_create, category_save, messages_add,
      str_user;
    run_site; repeat (case_site; run_site); try done; set_solver.
Qed.

(** A user who is stored as active and belongs to the relation is among
    the moderators the page lists. *)
Lemma listed_moderator (user : User) (s : Site) :
  pk user ∈ moderator_rel s →
  (∃ row, row ∈ user_table s ∧ pk row = pk user ∧ active row = true) →
  existsb (user_eq user)
    (order_by (fun a b => String.leb (name a) (name b))
       (filter (fun u => pk u ∈ moderator_rel s ∧ active u = true)
          (user_table s)))
  = true.
Proof.
  intros Hrel (row & Hrow & Hpk & Hact).
  apply existsb_exists. exists row. split.
  - apply list_elem_of_In. rewrite order_by_perm.
    apply list_elem_of_filter. rewrite Hpk. by split_and!.
  - unfold user_eq. by apply bool_decide_eq_true_2.
Qed.

Ltac open_views :=
  unfold AddModerator.form_valid, RemoveModerator.form_valid,
    TransferOwner.form_valid, moderators, moderators_all, moderators_add,
    moderators_remove, AuditLog_create, category_save, messages_add,
    str_user.

Lemma AddModerator_refuses_known self_user c (user : User) w :
  pk user = owner c
  ∨ (pk user ∈ moderator_rel (db w)
     ∧ ∃ row, row ∈ user_table (db w) ∧ pk row = pk user
              ∧ active row = true) →
  let r := AddModerator.form_valid self_user c user w in
  moderator_rel (db r.2) = moderator_rel (db w)
  ∧ category_row (db r.2) = category_row (db w)
  ∧ auditlog_set (db r.2) = auditlog_set (db w)
  ∧ (fuse w = None →
     r.1 = Returned (HttpResponseRedirect (success_url c))
     ∧ flash (db r.2)
       = flash (db w) ++ [("error", name user +:+ " is already a moderator.")]).
Proof.
  intros H r. subst r. open_views.
  destruct (bool_decide_reflect (pk user = owner c)) as [Ho|Ho].
  - burn w; run_site; split_and!; try done.
  - destruct H as [H|[Hrel Hrow]]; [done|].
    pose proof (listed_moderator user (db w) Hrel Hrow) as Hl.
    burn w; cbn [db] in Hl; run_site; rewrite ?Hl; run_site;
      split_and!; try done.
Qed.

Lemma AddModerator_member_keeps_set self_user c (user : User) w :
  pk user ∈ moderator_rel (db w) →
  moderator_rel (db (AddModerator.form_valid self_user c user w).2)
  = moderator_rel (db w).
Proof.
  intros H. open_views.
  burn w; cbn [db] in H; run_site; repeat (case_site; run_site);
    try done; set_solver.
Qed.

Lemma TransferOwner_transaction self_user c (user : User) w :
  let r := TransferOwner.form_valid self_user c user w in
  (r.1 = Raised ∧ db r.2 = db w)
  ∨ (category_row (db r.2)
     = {| cat_slug := cat_slug c; cat_name := cat_name c;
          cat_active := cat_active c; owner := pk user;
          max_moderators := max_moderators c |}
     ∧ (pk user ∉ moderator_rel (db r.2))
     ∧ moderator_rel (db r.2) = moderator_rel (db w) ∖ {[pk user]}
     ∧ auditlog_set (db r.2)
       = auditlog_set (db w)
         ++ [ {| actor := pk self_user; action := "owner_change";
                 audit_user := None; old_value := Some (owner c);
                 new_value := Some (pk user) |} ]).
Proof.
  intros r. subst r. open_views.
  burn w; run_site; repeat (case_site; run_site);
    first [ left; split; [reflexivity | by destruct s]
          | right; split_and!; [reflexivity | set_solver | set_solver
                               | reflexivity] ].
Qed.

(** X29.  No moderator or ownership request ever puts the owner among
    the moderators, whoever sends it and whichever call fails.
    AddModerator turns down the current owner and every moderator the
    page lists, leaving relation, category and audit log as they were,
    and a request for a user who is in the relation already leaves the
    relation as it is.  TransferOwner writes the new owner, takes the new
    owner out of the relation and records the change in one transaction:
    all of it takes effect or none of it. *)
Theorem moderators_exclude_owner
    (can_edit : Category -> User -> bool) (login_url : string)
    (self_user user : User) :
  (∀ view w,
     owner_apart (db w) →
     owner_apart
       (db (ModeratorViews.post can_edit login_url view self_user user
              w).2))
  ∧ (∀ c w,
       pk user = owner c
       ∨ (pk user ∈ moderator_rel (db w)
          ∧ ∃ row, row ∈ user_table (db w) ∧ pk row = pk user
                   ∧ active row = true) →
       let r := AddModerator.form_valid self_user c user w in
       moderator_rel (db r.2) = moderator_rel (db w)
       ∧ category_row (db r.2) = category_row (db w)
       ∧ auditlog_set (db r.2) = auditlog_set (db w)
       ∧ (fuse w = None →
          r.1 = Returned (HttpResponseRedirect (success_url c))
          ∧ flash (db r.2)
            = flash (db w)
              ++ [("error", name user +:+ " is already a moderator.")]))
  ∧ (∀ c w,
       pk user ∈ moderator_rel (db w) →
       moderator_rel (db (AddModerator.form_valid self_user c user w).2)
       = moderator_rel (db w))
  ∧ (∀ c w,
       let r := TransferOwner.form_valid self_user c user w in
       (r.1 = Raised ∧ db r.2 = db w)
       ∨ (category_row (db r.2)
          = {| cat_slug := cat_slug c; cat_name := cat_name c;
               cat_active := cat_active c; owner := pk user;
               max_moderators := max_moderators c |}
          ∧ (pk user ∉ moderator_rel (db r.2))
          ∧ moderator_rel (db r.2) = moderator_rel (db w) ∖ {[pk user]}
          ∧ auditlog_set (db r.2)
            = auditlog_set (db w)
              ++ [ {| actor := pk self_user; action := "owner_change";
                      audit_user := None; old_value := Some (owner c);
                      new_value := Some (pk user) |} ])).
Proof.
  split_and!.
  - intros view w. apply ModeratorViews_keep_owner_apart.
  - intros c w. apply AddModerator_refuses_known.
  - intros c w. apply AddModerator_member_keeps_set.
  - intros c w. apply TransferOwner_transaction.
Qed.

(** X29 on the sample site: alice, the owner, proposes herself; the
    relation stays as it was. *)
Lemma moderators_exclude_owner_witness :
  moderator_rel
    (db (AddModerator.form_valid Scenario.alice Scenario.sm64
           Scenario.alice (calm Scenario.site 0)).2)
  = moderator_rel Scenario.site.
Proof.
  exact (proj1
    (proj1 (proj2
       (moderators_exclude_owner ManageCategory.owner_can_edit "/login"
          Scenario.alice Scenario.alice))
       Scenario.sm64 (calm Scenario.site 0) (or_introl eq_refl))).
Defined.

(** C10.  AddModerator at a user who is a moderator already: carol is in
    the moderator relation of the category, but her account is inactive,
    so [self.moderators] does not list her.  The request to add her is
    not turned down with the message that she is a moderator already: it
    is answered with the success message and writes a [moderator_add]
    audit entry, while the relation stays as it was. *)
Lemma AddModerator_unlisted_moderator_accepted :
  let r :=
    AddModerator.form_valid Scenario.alice Scenario.sm64 Scenario.carol
      (calm Scenario.site 0) in
  elements (moderator_rel Scenario.site) = [pk Scenario.carol]
  ∧ active Scenario.carol = false
  ∧ r.1 = Returned (HttpResponseRedirect "category_mods:sm64")
  ∧ flash (db r.2) = [("success", "carol added as a category moderator.")]
  ∧ map action (auditlog_set (db r.2)) = ["moderator_add"]
  ∧ elements (moderator_rel (db r.2)) = [pk Scenario.carol].
Proof. vm_compute. by split_and!. Qed.

(** ** More on editing a room *)

(** X1.  An edit that returns always moves the room to the next version.
    When none of the five announced columns changed it appends no message
    and pushes one snapshot to the subscribers; when one of them changed
    it appends between one and four system messages and pushes no snapshot
    of its own. *)
Theorem EditRace_broadcast_or_notice u form s b c :
  let r := EditRace.form_valid u form (mkWorld s b c None) in
  let cd := EditRace.changed_data form in
  let touched :=
    "goal" ∈ cd ∨ "custom_goal" ∈ cd ∨ "info" ∈ cd
    ∨ "streaming_required" ∈ cd ∨ "chat_message_delay" ∈ cd in
  version (EditRace.race_row (db r.2)) = version (EditRace.race_row s) + 1
  ∧ (¬ touched →
     broadcasts r.2 = S b
     ∧ EditRace.message_set (db r.2) = EditRace.message_set s)
  ∧ (touched →
     broadcasts r.2 = b
     ∧ ∃ new,
         EditRace.message_set (db r.2) = EditRace.message_set s ++ new
         ∧ (1 ≤ length new ≤ 4)%nat
         ∧ Forall (fun m => is_system m = true) new).
Proof.
  intros r cd touched. subst r touched cd.
  destruct (EditRace_form_valid_calm u form s b c)
    as (new & c' & -> & Hn & Hs).
  cbn [fst snd db broadcasts EditRace.race_row EditRace.message_set
       EditRace.with_version version].
  assert (Hlen : length new = length (EditRace.notices u form))
    by (by rewrite <- Hn, length_map).
  assert (Hsys : Forall (fun m => is_system m = true) new)
    by (eapply Forall_impl; [exact Hs|]; by intros m [? _]).
  revert Hn Hlen. unfold EditRace.notices.
  destruct (bool_decide_reflect ("goal" ∈ EditRace.changed_data form));
    destruct (bool_decide_reflect
                ("custom_goal" ∈ EditRace.changed_data form));
    destruct (bool_decide_reflect ("info" ∈ EditRace.changed_data form));
    destruct (bool_decide_reflect
                ("streaming_required" ∈ EditRace.changed_data form));
    destruct (bool_decide_reflect
                ("chat_message_delay" ∈ EditRace.changed_data form));
    cbn [orb app length]; intros Hn Hlen;
    (split_and!; [reflexivity | intros H | intros H]);
    try tauto;
    try (destruct new; [|discriminate]; split; [reflexivity|];
         by rewrite app_nil_r);
    (split; [reflexivity|]; exists new; split_and!; [done|lia|lia|done]).
Qed.

(** X2.  When the goal was edited and the rating recalculation fails, the
    save that preceded it is undone: the edit raises and the database is
    as it was - same row, same version, no message. *)
Theorem EditRace_failed_rating_rolls_back u form s b c :
  "goal" ∈ EditRace.changed_data form
  ∨ "custom_goal" ∈ EditRace.changed_data form →
  let r := EditRace.form_valid u form (mkWorld s b c (Some 1%nat)) in
  r.1 = Raised ∧ db r.2 = s.
Proof.
  intros H r. subst r.
  destruct (EditRace_tail_announces u form) as (tail & -> & _).
  assert (Hg : EditRace.goal_edited form = true).
  { unfold EditRace.goal_edited. apply orb_true_iff.
    rewrite !bool_decide_eq_true. exact H. }
  rewrite Hg. rewrite bind_run. unfold atomic. rewrite bind_run.
  unfold EditRace.save, EditRace.update_entrant_ratings.
  rewrite call_armed. cbn [fst snd]. rewrite call_blown. by split.
Qed.

(** X2 on the sample room: alice changes the goal, the recalculation
    fails, and the room is still at version 5. *)
Lemma EditRace_failed_rating_rolls_back_witness :
  db (EditRace.form_valid Scenario.alice Scenario.goal_edit
        (mkWorld Scenario.stored 0 0 (Some 1%nat))).2
  = Scenario.stored.
Proof.
  refine (proj2
    (EditRace_failed_rating_rolls_back Scenario.alice Scenario.goal_edit
       Scenario.stored 0 0 _)).
  left. refine (bool_decide_unpack _ _). vm_compute. exact I.
Defined.

(** A successful edit appends exactly its notices. *)
Lemma EditRace_returned_notices u form w response :
  (EditRace.form_valid u form w).1 = Returned response →
  ∃ new,
    db (EditRace.form_valid u form w).2
    = {| EditRace.race_row :=
           EditRace.with_version (EditRace.save_commit_false form)
             (version (EditRace.race_row (db w)) + 1);
         EditRace.message_set := EditRace.message_set (db w) ++ new;
         EditRace.rating_updates :=
           if EditRace.goal_edited form
           then S (EditRace.rating_updates (db w))
           else EditRace.rating_updates (db w) |}
    ∧ Forall (fun m => is_system m = true ∧ deleted m = false) new
    ∧ map message_plain new = EditRace.notices u form.
Proof.
  intros Hr.
  pose proof (EditRace_form_valid_outcome u form w) as H. cbv zeta in H.
  destruct H as [[Ho _]|(new & E & F & _ & R)].
  { rewrite Hr in Ho. discriminate. }
  exists new. split_and!; [done|done|].
  apply R. rewrite Hr. discriminate.
Qed.

(** X3.  A successful edit that touches the goal, the custom goal or both,
    and none of the other announced columns, appends one system message -
    the editor's name and the new goal - and triggers the ratings once:
    changing both goal columns at once is still one announcement. *)
Theorem EditRace_goal_notice u form w response :
  "goal" ∈ EditRace.changed_data form
  ∨ "custom_goal" ∈ EditRace.changed_data form →
  "info" ∉ EditRace.changed_data form →
  "streaming_required" ∉ EditRace.changed_data form →
  "chat_message_delay" ∉ EditRace.changed_data form →
  (EditRace.form_valid u form w).1 = Returned response →
  let after := db (EditRace.form_valid u form w).2 in
  EditRace.rating_updates after = S (EditRace.rating_updates (db w))
  ∧ ∃ m,
      EditRace.message_set after = EditRace.message_set (db w) ++ [m]
      ∧ is_system m = true
      ∧ message_plain m
        = name u +:+ " set a new goal: "
          +:+ goal_str (EditRace.save_commit_false form) +:+ ".".
Proof.
  intros Hg Hi Hs Hc Hr after. subst after.
  destruct (EditRace_returned_notices u form w response Hr)
    as (new & -> & F & Hn).
  cbn [EditRace.rating_updates EditRace.message_set].
  assert (Hge : EditRace.goal_edited form = true).
  { unfold EditRace.goal_edited. apply orb_true_iff.
    rewrite !bool_decide_eq_true. exact Hg. }
  rewrite Hge. split; [reflexivity|].
  revert Hn. unfold EditRace.notices. fold (EditRace.goal_edited form).
  rewrite Hge, !bool_decide_eq_false_2 by done. cbn [app].
  intros Hn. destruct new as [|m [|m' rest]]; try discriminate.
  exists m. inversion Hn. apply Forall_inv in F as [F _].
  split_and!; [reflexivity | exact F | reflexivity].
Qed.

(** X3 on the sample room. *)
Lemma EditRace_goal_notice_witness :
  ∃ m,
    EditRace.message_set
      (db (EditRace.form_valid Scenario.alice Scenario.goal_edit
             (calm Scenario.stored 0)).2)
    = [m]
    ∧ is_system m = true
    ∧ message_plain m = "alice set a new goal: Beat the game.".
Proof.
  refine (proj2
    (EditRace_goal_notice Scenario.alice Scenario.goal_edit
       (calm Scenario.stored 0)
       (HttpResponseRedirect "/sm64/clever-yoshi-1234") _ _ _ _ eq_refl)).
  - left. refine (bool_decide_unpack _ _). vm_compute. exact I.
  - refine (bool_decide_unpack _ _). vm_compute. exact I.
  - refine (bool_decide_unpack _ _). vm_compute. exact I.
  - refine (bool_decide_unpack _ _). vm_compute. exact I.
Defined.

(** X4.  A successful edit whose only changed column is the chat delay
    appends one system message: the new delay in seconds - the seconds
    component of the duration, so whole days are not counted - or, for a
    delay of zero, the note that the delay has been removed. *)
Theorem EditRace_chat_delay_notice u form w response :
  EditRace.changed_data form = ["chat_message_delay"] →
  (EditRace.form_valid u form w).1 = Returned response →
  let delay :=
    EditRace.new_chat_message_delay (EditRace.cleaned_data form) in
  let after := db (EditRace.form_valid u form w).2 in
  chat_message_delay (EditRace.race_row after) = delay
  ∧ EditRace.rating_updates after = EditRace.rating_updates (db w)
  ∧ ∃ m,
      EditRace.message_set after = EditRace.message_set (db w) ++ [m]
      ∧ is_system m = true
      ∧ (delay = 0 → message_plain m = "Chat delay has been removed.")
      ∧ (delay ≠ 0 →
         message_plain m
         = "Chat delay is now " +:+ pretty (delay mod 86400)
           +:+ " seconds.").
Proof.
  intros Hcd Hr delay after. subst after.
  destruct (changed_field_exposed form "chat_message_delay") as [Hin _].
  { rewrite Hcd. apply list_elem_of_here. }
  assert (Hd : chat_message_delay (EditRace.save_commit_false form) = delay).
  { unfold EditRace.save_commit_false. cbn [chat_message_delay].
    by rewrite (bool_decide_eq_true_2 _ Hin). }
  destruct (EditRace_returned_notices u form w response Hr)
    as (new & -> & F & Hn).
  cbn [EditRace.rating_updates EditRace.message_set EditRace.race_row
       EditRace.with_version chat_message_delay].
  split; [exact Hd|].
  assert (Hge : EditRace.goal_edited form = false).
  { unfold EditRace.goal_edited. by rewrite Hcd. }
  rewrite Hge. split; [reflexivity|].
  revert Hn. unfold EditRace.notices. rewrite Hcd, Hd.
  change (bool_decide ("goal" ∈ ["chat_message_delay"])) with false.
  change (bool_decide ("custom_goal" ∈ ["chat_message_delay"])) with false.
  change (bool_decide ("info" ∈ ["chat_message_delay"])) with false.
  change (bool_decide ("streaming_required" ∈ ["chat_message_delay"]))
    with false.
  change (bool_decide ("chat_message_delay" ∈ ["chat_message_delay"]))
    with true.
  cbn [orb app]. intros Hn.
  destruct new as [|m [|m' rest]]; try discriminate.
  exists m. inversion Hn as [Hm]. apply Forall_inv in F as [F _].
  split_and!; [reflexivity | exact F | |].
  - intros H0. rewrite Hm.
    by rewrite bool_decide_eq_false_2 by (by intros ?).
  - intros H0. rewrite Hm. by rewrite bool_decide_eq_true_2.
Qed.

(** X4 on the sample room: a delay of a day and an hour is announced as
    3600 seconds. *)
Lemma EditRace_chat_delay_notice_witness :
  ∃ m,
    EditRace.message_set
      (db (EditRace.form_valid Scenario.alice Scenario.delay_edit
             (calm Scenario.stored 0)).2)
    = [] ++ [m]
    ∧ is_system m = true
    ∧ (90000 = 0 → message_plain m = "Chat delay has been removed.")
    ∧ (90000 ≠ 0 →
       message_plain m
       = "Chat delay is now " +:+ pretty (90000 mod 86400) +:+ " seconds.").
Proof.
  exact (proj2 (proj2
    (EditRace_chat_delay_notice Scenario.alice Scenario.delay_edit
       (calm Scenario.stored 0)
       (HttpResponseRedirect "/sm64/clever-yoshi-1234") eq_refl eq_refl))).
Defined.

(** X5.  A user who may not monitor the room is refused by the permission
    test whatever the state of the room, and nothing is written. *)
Theorem EditRace_refuses_non_monitor
    (can_monitor : Race -> User -> bool) u exposed data w :
  can_monitor (EditRace.race_row (db w)) u = false →
  let r := EditRace.post can_monitor u exposed data w in
  (r.1 = Returned PermissionDenied ∨ r.1 = Raised)
  ∧ db r.2 = db w ∧ broadcasts r.2 = broadcasts w.
Proof.
  intros Hm r. subst r.
  unfold EditRace.post, bind, EditRace.get_object, call,
    EditRace.test_func, ret.
  destruct w as [s b c [[|n]|]]; simpl in *; rewrite ?Hm; simpl; auto.
Qed.

(** X5 on the sample room, when nobody may monitor. *)
Lemma EditRace_refuses_non_monitor_witness :
  db (EditRace.post (fun _ _ => false) Scenario.alice Scenario.edit_fields
        (EditRace.cleaned_data Scenario.info_edit)
        (calm Scenario.stored 0)).2
  = Scenario.stored.
Proof.
  exact (proj1 (proj2
    (EditRace_refuses_non_monitor (fun _ _ => false) Scenario.alice
       Scenario.edit_fields (EditRace.cleaned_data Scenario.info_edit)
       (calm Scenario.stored 0) eq_refl))).
Defined.

(** ** More on opening a room *)

(** X6.  Opening a room logs the action [race_create] for the user exactly
    when the request is answered with the redirect to the new room, and by
    then the room is stored; a request that is refused or that fails logs
    nothing.  The category row is never written. *)
Theorem CreateRace_logs_after_save
    (can_moderate : Category -> User -> bool)
    (generate_race_slug : Category -> list Race -> string)
    (initial_version : Z) (u : User) (form : CreateRace.CleanedData) w :
  let r :=
    CreateRace.form_valid can_moderate generate_race_slug initial_version
      u form w in
  CreateRace.category_row (db r.2) = CreateRace.category_row (db w)
  ∧ ((∃ race,
        r.1 = Returned (HttpResponseRedirect (get_absolute_url race))
        ∧ CreateRace.race_table (db r.2)
          = CreateRace.race_table (db w) ++ [race]
        ∧ CreateRace.userlog (db r.2)
          = CreateRace.userlog (db w) ++ [(pk u, "race_create")])
     ∨ (CreateRace.userlog (db r.2) = CreateRace.userlog (db w)
        ∧ ∀ url, r.1 ≠ Returned (HttpResponseRedirect url))).
Proof.
  intros r. subst r.
  unfold CreateRace.form_valid, CreateRace.get_category,
    CreateRace.has_open_race, CreateRace.new_slug, CreateRace.save,
    CreateRace.log_action.
  burn w; unfold bind, call, ret; cbn;
    destruct (can_moderate (CreateRace.category_row s) u); cbn;
    try destruct (bool_decide
                    (CreateRace.open_rooms_of u (CreateRace.race_table s)
                     ≠ [])); cbn;
    (split; [reflexivity|]);
    first [ right; split; [reflexivity | by intros url]
          | left;
            refine (ex_intro _ _ (conj _ (conj eq_refl _))); reflexivity ].
Qed.

(** ** More on moderators and ownership *)

Lemma moderators_calm s b c :
  moderators (mkWorld s b c None)
  = (Returned
       (order_by (fun a b => String.leb (name a) (name b))
          (listed_moderators s)),
     mkWorld s b (c + 1) None).
Proof. unfold moderators. by rewrite call_calm. Qed.

Lemma listed_existsb (user : User) (s : Site) :
  existsb (user_eq user)
    (order_by (fun a b => String.leb (name a) (name b))
       (listed_moderators s))
  = true
  ↔ pk user ∈ moderator_rel s
    ∧ ∃ row, row ∈ user_table s ∧ pk row = pk user ∧ active row = true.
Proof.
  rewrite existsb_exists. unfold listed_moderators, user_eq. split.
  - intros (row & Hin & Heq). apply bool_decide_eq_true_1 in Heq.
    apply list_elem_of_In in Hin. rewrite order_by_perm in Hin.
    apply list_elem_of_filter in Hin as [[Hrel Hact] Hrow].
    rewrite Heq. split; [done|]. by exists row.
  - intros (Hrel & row & Hrow & Hpk & Hact). exists row. split.
    + apply list_elem_of_In. rewrite order_by_perm.
      apply list_elem_of_filter. rewrite Hpk. by split_and!.
    + by apply bool_decide_eq_true_2.
Qed.

(** X7.  RemoveModerator turns down a user the page does not list - one
    who is not in the relation, or whose account is not active: relation,
    category and audit log stay as they are, and the answer is the error
    message.  A moderator whose account is inactive can therefore not be
    removed through this view. *)
Theorem RemoveModerator_refuses_unlisted self_user c (user : User) w :
  pk user ∉ moderator_rel (db w)
  ∨ (∀ row, row ∈ user_table (db w) → pk row = pk user →
            active row = false) →
  let r := RemoveModerator.form_valid self_user c user w in
  moderator_rel (db r.2) = moderator_rel (db w)
  ∧ category_row (db r.2) = category_row (db w)
  ∧ auditlog_set (db r.2) = auditlog_set (db w)
  ∧ (fuse w = None →
     r.1 = Returned (HttpResponseRedirect (success_url c))
     ∧ flash (db r.2)
       = flash (db w)
         ++ [("error",
              name user +:+ " is not a moderator for this category.")]).
Proof.
  intros H r. subst r.
  assert (Hl : existsb (user_eq user)
                 (order_by (fun a b => String.leb (name a) (name b))
                    (listed_moderators (db w))) = false).
  { apply not_true_is_false. rewrite listed_existsb.
    intros (Hrel & row & Hrow & Hpk & Hact).
    destruct H as [H|H]; [done|]. specialize (H row Hrow Hpk). congruence. }
  unfold listed_moderators in Hl. open_views.
  burn w; cbn [db] in Hl; run_site; rewrite ?Hl; run_site;
    split_and!; try done.
Qed.

(** X7 on the sample site: removing carol, the inactive moderator, leaves
    her in the relation. *)
Lemma RemoveModerator_refuses_unlisted_witness :
  moderator_rel
    (db (RemoveModerator.form_valid Scenario.alice Scenario.sm64
           Scenario.carol (calm Scenario.site 0)).2)
  = moderator_rel Scenario.site.
Proof.
  refine (proj1
    (RemoveModerator_refuses_unlisted Scenario.alice Scenario.sm64
       Scenario.carol (calm Scenario.site 0) (or_intror _))).
  refine (proj1 (Forall_forall
    (fun row => pk row = pk Scenario.carol → active row = false) _) _).
  repeat constructor; intros Hpk;
    first [reflexivity | vm_compute in Hpk; discriminate].
Defined.

Lemma order_by_length {A} (le : A -> A -> bool) (rows : list A) :
  length (order_by le rows) = length rows.
Proof. apply Permutation_length, order_by_perm. Qed.

(** X8.  Adding a moderator and removing that moderator again is a round
    trip on the relation: for an active user who is neither the owner nor
    a moderator, on a category with room for one more, both requests are
    accepted, the relation ends as it began, the category row is
    untouched, and the audit log has gained the two entries, first the
    add, then the remove. *)
Theorem AddModerator_then_RemoveModerator self_user c (user : User) s now :
  pk user ≠ owner c →
  pk user ∉ moderator_rel s →
  (∃ row, row ∈ user_table s ∧ pk row = pk user ∧ active row = true) →
  (length (listed_moderators s) < max_moderators c)%nat →
  let r1 := AddModerator.form_valid self_user c user (calm s now) in
  let r2 := RemoveModerator.form_valid self_user c user r1.2 in
  r1.1 = Returned (HttpResponseRedirect (success_url c))
  ∧ moderator_rel (db r1.2) = {[pk user]} ∪ moderator_rel s
  ∧ r2.1 = Returned (HttpResponseRedirect (success_url c))
  ∧ moderator_rel (db r2.2) = moderator_rel s
  ∧ category_row (db r2.2) = category_row s
  ∧ map action (auditlog_set (db r2.2))
    = map action (auditlog_set s) ++ ["moderator_add"; "moderator_remove"].
Proof.
  intros Ho Hrel Hrow Hcap r1 r2. subst r2 r1.
  assert (H1 : existsb (user_eq user)
                 (order_by (fun a b => String.leb (name a) (name b))
                    (listed_moderators s)) = false).
  { apply not_true_is_false. rewrite listed_existsb. tauto. }
  assert (H2 : (max_moderators c
                <=? length (order_by
                              (fun a b => String.leb (name a) (name b))
                              (listed_moderators s)))%nat = false).
  { apply Nat.leb_gt. by rewrite order_by_length. }
  set (s1 :=
    {| category_row := category_row s;
       moderator_rel := {[pk user]} ∪ moderator_rel s;
       user_table := user_table s;
       auditlog_set :=
         auditlog_set s
         ++ [ {| actor := pk self_user; action := "moderator_add";
                 audit_user := Some (pk user);
                 old_value := None; new_value := None |} ];
       flash :=
         flash s
         ++ [("success", name user +:+ " added as a category moderator.")]
    |}).
  assert (H3 : existsb (user_eq user)
                 (order_by (fun a b => String.leb (name a) (name b))
                    (listed_moderators s1)) = true).
  { apply listed_existsb. split; [|exact Hrow]. subst s1. cbn. set_solver. }
  unfold listed_moderators in H1, H2, H3. subst s1.
  cbn [moderator_rel user_table] in H3.
  unfold calm. open_views.
  rewrite (bool_decide_eq_false_2 _ Ho).
  run_site. rewrite H1. run_site. rewrite H2. run_site.
  rewrite H3. cbn [negb]. run_site.
  split_and!; try reflexivity.
  - set_solver.
  - rewrite !map_app. cbn. by rewrite <- app_assoc.
Qed.

(** X8 on the sample site without moderators: bob is added and removed. *)
Lemma AddModerator_then_RemoveModerator_witness :
  moderator_rel
    (db (RemoveModerator.form_valid Scenario.alice Scenario.sm64
           Scenario.bob
           (AddModerator.form_valid Scenario.alice Scenario.sm64
              Scenario.bob (calm Scenario.bare_site 0)).2).2)
  = moderator_rel Scenario.bare_site.
Proof.
  refine (proj1 (proj2 (proj2 (proj2
    (AddModerator_then_RemoveModerator Scenario.alice Scenario.sm64
       Scenario.bob Scenario.bare_site 0 _ _ _ _))))).
  - vm_compute. discriminate.
  - apply not_elem_of_empty.
  - exists Scenario.bob. split_and!; [|reflexivity..].
    apply list_elem_of_further, list_elem_of_here.
  - vm_compute. lia.
Defined.

Lemma filter_add_absent (k : nat) (rel : gset nat) (l : list User) :
  k ∉ map pk l →
  filter (fun u => pk u ∈ {[k]} ∪ rel ∧ active u = true) l
  = filter (fun u => pk u ∈ rel ∧ active u = true) l.
Proof.
  induction l as [|u l IH]; intros Hk; [done|].
  cbn [map] in Hk. apply not_elem_of_cons in Hk as [Hu Hk].
  rewrite !filter_cons, (IH Hk).
  repeat case_decide; try done; set_solver.
Qed.

Lemma filter_add_length (k : nat) (rel : gset nat) (l : list User) :
  NoDup (map pk l) →
  (length (filter (fun u => pk u ∈ {[k]} ∪ rel ∧ active u = true) l)
   ≤ S (length (filter (fun u => pk u ∈ rel ∧ active u = true) l)))%nat.
Proof.
  induction l as [|u l IH]; intros Hnd; [cbn; lia|].
  apply NoDup_cons in Hnd as [Hu Hnd].
  destruct (decide (pk u = k)) as [<-|Hne].
  - rewrite !filter_cons, (filter_add_absent _ _ _ Hu).
    repeat case_decide; cbn; lia.
  - specialize (IH Hnd). rewrite !filter_cons.
    repeat case_decide; cbn; try lia; set_solver.
Qed.

(** X9.  On a category whose page already lists as many moderators as the
    category allows, AddModerator adds nobody: relation, category and
    audit log stay as they are, whoever is proposed. *)
Theorem AddModerator_full_category self_user c (user : User) w :
  (max_moderators c ≤ length (listed_moderators (db w)))%nat →
  let r := AddModerator.form_valid self_user c user w in
  moderator_rel (db r.2) = moderator_rel (db w)
  ∧ category_row (db r.2) = category_row (db w)
  ∧ auditlog_set (db r.2) = auditlog_set (db w).
Proof.
  intros Hfull r. subst r.
  assert (H2 : (max_moderators c
                <=? length (order_by
                              (fun a b => String.leb (name a) (name b))
                              (listed_moderators (db w))))%nat = true).
  { apply Nat.leb_le. by rewrite order_by_length. }
  unfold listed_moderators in H2. open_views.
  burn w; cbn [db] in H2; run_site; repeat (case_site; run_site);
    rewrite ?H2; run_site; by split_and!.
Qed.

(** X9 on the sample category with room for no moderator at all. *)
Lemma AddModerator_full_category_witness :
  moderator_rel
    (db (AddModerator.form_valid Scenario.alice Scenario.sm64_closed
           Scenario.bob (calm Scenario.bare_site 0)).2)
  = moderator_rel Scenario.bare_site.
Proof.
  refine (proj1
    (AddModerator_full_category Scenario.alice Scenario.sm64_closed
       Scenario.bob (calm Scenario.bare_site 0) _)).
  vm_compute. lia.
Defined.

(** X10.  With primary keys that are unique, AddModerator never takes the
    number of moderators the page lists beyond the limit of the category:
    the number afterwards is at most the limit, or what it was. *)
Theorem AddModerator_listed_bound self_user c (user : User) w :
  NoDup (map pk (user_table (db w))) →
  let r := AddModerator.form_valid self_user c user w in
  (length (listed_moderators (db r.2))
   ≤ Nat.max (max_moderators c) (length (listed_moderators (db w))))%nat.
Proof.
  intros Hnd r. subst r. unfold listed_moderators. open_views.
  burn w; cbn [db] in Hnd; run_site; repeat (case_site; run_site);
    try lia;
    match goal with
    | E : (_ <=? _)%nat = false |- _ =>
        apply Nat.leb_gt in E; rewrite order_by_length in E
    end;
    pose proof (filter_add_length (pk user) (moderator_rel s)
                  (user_table s) Hnd);
    lia.
Qed.

(** X10 on the sample site. *)
Lemma AddModerator_listed_bound_witness :
  (length
     (listed_moderators
        (db (AddModerator.form_valid Scenario.alice Scenario.sm64
               Scenario.bob (calm Scenario.bare_site 0)).2))
   ≤ Nat.max (max_moderators Scenario.sm64)
       (length (listed_moderators Scenario.bare_site)))%nat.
Proof.
  refine (AddModerator_listed_bound Scenario.alice Scenario.sm64
            Scenario.bob (calm Scenario.bare_site 0) _).
  refine (bool_decide_unpack _ _). vm_compute. exact I.
Defined.

(** X11.  A transfer of ownership to another user never enlarges the
    moderator relation, so, the owner not having been a moderator, the
    previous owner is left as neither owner nor moderator. *)
Theorem TransferOwner_previous_owner self_user (user : User) s now :
  owner_apart s →
  pk user ≠ owner (category_row s) →
  let r :=
    TransferOwner.form_valid self_user (category_row s) user (calm s now) in
  (∃ url, r.1 = Returned (HttpResponseRedirect url))
  ∧ owner (category_row (db r.2)) = pk user
  ∧ moderator_rel (db r.2) ⊆ moderator_rel s
  ∧ owner (category_row s) ∉ moderator_rel (db r.2).
Proof.
  intros Ha Hne r. subst r. unfold owner_apart in Ha. unfold calm.
  open_views.
  run_site; repeat (case_site; run_site);
    (split_and!; [by eexists | reflexivity | set_solver | set_solver]).
Qed.

(** X11 on the sample site: alice hands the category to bob. *)
Lemma TransferOwner_previous_owner_witness :
  owner
    (category_row
       (db (TransferOwner.form_valid Scenario.alice
              (category_row Scenario.site) Scenario.bob
              (calm Scenario.site 0)).2))
  = pk Scenario.bob.
Proof.
  refine (proj1 (proj2
    (TransferOwner_previous_owner Scenario.alice Scenario.bob
       Scenario.site 0 _ _))).
  - unfold owner_apart. refine (bool_decide_unpack _ _).
    vm_compute. exact I.
  - refine (bool_decide_unpack _ _). vm_compute. exact I.
Defined.

(** ** Activating and deactivating a category *)

Ltac open_admin :=
  unfold AdministrateCategoryPost.post, AdministrateCategoryPost.action,
    DeactivateCategory.action, ReactivateCategory.action, get_category,
    category_save, AuditLog_create, messages_add, handle_no_permission.

(** X12.  Deactivating and reactivating a category are reserved to active
    staff, and they write an audit entry exactly when the flag flips: a
    user who fails the staff test is turned away before anything is
    read - refused when signed in, sent to the login page otherwise; on
    a category that already is in the wanted state nothing is written;
    otherwise the new flag and its audit entry are stored together or
    not at all, and no other column of the category and no moderator
    changes. *)
Theorem AdministrateCategory_flips_once login_url view self_user w :
  let target :=
    match view with
    | AdministrateCategoryPost.Deactivate => false
    | AdministrateCategoryPost.Reactivate => true
    end in
  let entry :=
    {| actor := pk self_user;
       action :=
         match view with
         | AdministrateCategoryPost.Deactivate => "deactivate"
         | AdministrateCategoryPost.Reactivate => "activate"
         end;
       audit_user := None; old_value := None; new_value := None |} in
  let before := category_row (db w) in
  let r := AdministrateCategoryPost.post login_url view self_user w in
  (is_active self_user && is_staff self_user = false →
   r = (Returned
          (if is_authenticated self_user then PermissionDenied
           else HttpResponseRedirect login_url),
        w))
  ∧ moderator_rel (db r.2) = moderator_rel (db w)
  ∧ (cat_active before = target →
     category_row (db r.2) = before
     ∧ auditlog_set (db r.2) = auditlog_set (db w)
     ∧ flash (db r.2) = flash (db w))
  ∧ ((category_row (db r.2) = before
      ∧ auditlog_set (db r.2) = auditlog_set (db w))
     ∨ (category_row (db r.2)
        = {| cat_slug := cat_slug before; cat_name := cat_name before;
             cat_active := target; owner := owner before;
             max_moderators := max_moderators before |}
        ∧ cat_active before = negb target
        ∧ auditlog_set (db r.2) = auditlog_set (db w) ++ [entry])).
Proof.
  intros target entry before r. subst target entry before r.
  open_admin. unfold AdministrateCategory.test_func.
  destruct (is_active self_user && is_staff self_user) eqn:Hs; cbn [negb].
  - split; [done|].
    burn w; destruct view; run_site;
      destruct (cat_active (category_row s)) eqn:Ha; cbn [negb];
      run_site; cbn [negb];
      (split_and!;
       [ reflexivity
       | intros Ht; first [discriminate Ht | by split_and!]
       | first [ left; split; reflexivity
               | right; split_and!; reflexivity ] ]).
  - unfold ret. cbn [fst snd]. split_and!; auto.
Qed.

(** X13.  For an active staff member, deactivating an active category and
    reactivating it is a round trip: the category row ends as it began
    and the audit log has gained the two entries, first the deactivation,
    then the activation; and a second deactivation in a row changes
    neither the row nor the audit log. *)
Theorem Deactivate_then_Reactivate login_url self_user s now :
  is_active self_user && is_staff self_user = true →
  cat_active (category_row s) = true →
  let r1 :=
    AdministrateCategoryPost.post login_url
      AdministrateCategoryPost.Deactivate self_user (calm s now) in
  let r2 :=
    AdministrateCategoryPost.post login_url
      AdministrateCategoryPost.Reactivate self_user r1.2 in
  let again :=
    AdministrateCategoryPost.post login_url
      AdministrateCategoryPost.Deactivate self_user r1.2 in
  r1.1 = Returned (HttpResponseRedirect
                     (reverse "edit_category" (cat_slug (category_row s))))
  ∧ cat_active (category_row (db r1.2)) = false
  ∧ category_row (db r2.2) = category_row s
  ∧ map action (auditlog_set (db r2.2))
    = map action (auditlog_set s) ++ ["deactivate"; "activate"]
  ∧ category_row (db again.2) = category_row (db r1.2)
  ∧ auditlog_set (db again.2) = auditlog_set (db r1.2).
Proof.
  intros Hs Ha r1 r2 again. subst r1 r2 again. unfold calm.
  open_admin. unfold AdministrateCategory.test_func.
  rewrite Hs. cbn [negb]. run_site. rewrite Ha. cbn [negb]. run_site.
  cbn [cat_active negb]. run_site.
  split_and!; try reflexivity.
  - destruct (category_row s); cbn in *. by subst.
  - rewrite !map_app. cbn. by rewrite <- app_assoc.
Qed.

(** X13 on the sample site, with bob acting. *)
Lemma Deactivate_then_Reactivate_witness :
  category_row
    (db (AdministrateCategoryPost.post "/login"
           AdministrateCategoryPost.Reactivate Scenario.bob
           (AdministrateCategoryPost.post "/login"
              AdministrateCategoryPost.Deactivate Scenario.bob
              (calm Scenario.site 0)).2).2)
  = category_row Scenario.site.
Proof.
  exact (proj1 (proj2 (proj2
    (Deactivate_then_Reactivate "/login" Scenario.bob Scenario.site 0
       eq_refl eq_refl)))).
Defined.

(** ** Listings of rooms *)

(** X14.  The list of current rooms shows, in stored order, exactly the
    rooms that are neither finished nor cancelled and whose category is
    active; for an active category on record, the rooms it shows for that
    category are, up to order, the current rooms of the category page. *)
Theorem RaceListData_current_rooms
    (category_table : list Category) (race_table : list Race) :
  let listed := RaceListData.listed_rooms category_table race_table in
  listed `sublist_of` race_table
  ∧ (∀ r,
       r ∈ listed
       ↔ r ∈ race_table
         ∧ state r ≠ RaceStates.finished
         ∧ state r ≠ RaceStates.cancelled
         ∧ ∃ c, c ∈ category_table ∧ cat_slug c = category r
                ∧ cat_active c = true)
  ∧ (∀ J (api_dict_summary : Race -> J),
       length (RaceListData.current_races api_dict_summary category_table
                 race_table)
       = length listed)
  ∧ (∀ object,
       object ∈ category_table →
       cat_active object = true →
       CategoryPage.current_races object race_table
       ≡ₚ filter (fun r => category r = cat_slug object) listed).
Proof.
  intros listed. subst listed. unfold RaceListData.listed_rooms.
  split_and!.
  - etransitivity; apply sublist_filter.
  - intros r. rewrite !list_elem_of_filter, Exists_exists.
    rewrite !not_elem_of_cons, elem_of_nil. split.
    + intros ((Hf & Hc & _) & (c & Hin & Hs & Ha) & Hr).
      refine (conj Hr (conj Hf (conj Hc _))). by exists c.
    + intros (Hr & Hf & Hc & c & Hin & Hs & Ha).
      refine (conj (conj Hf (conj Hc _)) (conj _ Hr)); [tauto|].
      by exists c.
  - intros J api. unfold RaceListData.current_races,
      RaceListData.listed_rooms. apply length_map.
  - intros object Hin Ha. unfold CategoryPage.current_races,
      CategoryPage.race_set.
    rewrite order_by_perm, !list_filter_filter.
    apply reflexive_eq, list_filter_iff. intros r.
    rewrite Exists_exists. naive_solver.
Qed.

(** X15.  A room of a category is listed among its past rooms exactly when
    it is finished, and among its current rooms exactly when it is neither
    finished nor cancelled: no room is in both listings, and a cancelled
    room is in neither.  The past rooms come latest end first. *)
Theorem past_and_current_races (ended_at : Race -> Z)
    (object : Category) (race_table : list Race) :
  let past := CategoryHistory.past_races ended_at object race_table in
  let current := CategoryPage.current_races object race_table in
  (∀ r,
     r ∈ past
     ↔ r ∈ race_table ∧ category r = cat_slug object
       ∧ state r = RaceStates.finished)
  ∧ (∀ r,
       r ∈ current
       ↔ r ∈ race_table ∧ category r = cat_slug object
         ∧ state r ≠ RaceStates.finished
         ∧ state r ≠ RaceStates.cancelled)
  ∧ (∀ r, r ∈ past → r ∉ current)
  ∧ (∀ r, state r = RaceStates.cancelled → (r ∉ past) ∧ (r ∉ current))
  ∧ (∀ i j a b,
       (i < j)%nat → past !! i = Some a → past !! j = Some b →
       ended_at b ≤ ended_at a).
Proof.
  intros past current.
  assert (Hp : ∀ r,
     r ∈ past
     ↔ r ∈ race_table ∧ category r = cat_slug object
       ∧ state r = RaceStates.finished).
  { intros r. subst past. unfold CategoryHistory.past_races,
      CategoryPage.race_set.
    rewrite order_by_perm, !list_elem_of_filter, list_elem_of_singleton.
    tauto. }
  assert (Hc : ∀ r,
       r ∈ current
       ↔ r ∈ race_table ∧ category r = cat_slug object
         ∧ state r ≠ RaceStates.finished
         ∧ state r ≠ RaceStates.cancelled).
  { intros r. subst current. unfold CategoryPage.current_races,
      CategoryPage.race_set.
    rewrite order_by_perm, !list_elem_of_filter.
    rewrite !not_elem_of_cons, elem_of_nil. tauto. }
  split_and!; [exact Hp | exact Hc | | |].
  - intros r. rewrite Hp, Hc. tauto.
  - intros r Hr. rewrite Hp, Hc, Hr. split; [|tauto].
    intros (_ & _ & H). discriminate H.
  - intros i j a b Hij Hi Hj. apply Z.leb_le.
    eapply (sorted_lookup (fun a b => ended_at b <=? ended_at a));
      [|exact Hij|exact Hi|exact Hj].
    apply order_by_sorted.
    + intros x y. rewrite !Z.leb_le. lia.
    + intros x y z. rewrite !Z.leb_le. lia.
Qed.

(** ** The room page *)

(** X16.  The flags the room page hands to the client about its user are
    consistent: [ready] and [unready] are never both set, one of them is
    set exactly when the user is in the race, a user who is not signed in
    is in no race and has neither id nor name, and whoever can moderate
    the category can monitor the room. *)
Theorem RacePage_user_flags
    (category_can_moderate race_can_monitor : Race -> User -> bool)
    (hashid : User -> string) (self_user : User) (race : Race)
    (entrant_set : list RacePage.Entrant) :
  let v :=
    RacePage.user_vars category_can_moderate race_can_monitor hashid
      self_user race entrant_set in
  RacePage.var_ready v && RacePage.var_unready v = false
  ∧ RacePage.var_in_race v
    = RacePage.var_ready v || RacePage.var_unready v
  ∧ (RacePage.var_in_race v = true
     ↔ is_authenticated self_user = true
       ∧ ∃ e, e ∈ entrant_set ∧ RacePage.entrant_user e = pk self_user)
  ∧ (is_authenticated self_user = false →
     RacePage.var_id v = None ∧ RacePage.var_name v = None
     ∧ RacePage.var_in_race v = false)
  ∧ (RacePage.var_can_moderate v = true → RacePage.var_can_monitor v = true)
  ∧ (RacePage.var_can_monitor v = true
     ↔ category_can_moderate race self_user = true
       ∨ race_can_monitor race self_user = true).
Proof.
  intros v. subst v. unfold RacePage.user_vars, RacePage.entrant_of.
  cbn [RacePage.var_ready RacePage.var_unready RacePage.var_in_race
       RacePage.var_id RacePage.var_name RacePage.var_can_moderate
       RacePage.var_can_monitor].
  destruct (is_authenticated self_user).
  - destruct (filter _ entrant_set) as [|e rest] eqn:E; cbn [head].
    + split_and!; try done.
      * split; [done|]. intros (_ & e & He & Hpk).
        assert (e ∈ filter (fun e => RacePage.entrant_user e = pk self_user)
                  entrant_set) as Hin by (by apply list_elem_of_filter).
        rewrite E in Hin. by apply elem_of_nil in Hin.
      * intros ->. done.
      * apply orb_true_iff.
    + assert (He : e ∈ filter
                     (fun e => RacePage.entrant_user e = pk self_user)
                     entrant_set) by (rewrite E; apply list_elem_of_here).
      apply list_elem_of_filter in He as [Hpk He].
      split_and!; try done.
      * by destruct (RacePage.ready e).
      * by destruct (RacePage.ready e).
      * split; [|done]. intros _. split; [done|]. by exists e.
      * intros ->. done.
      * apply orb_true_iff.
  - split_and!; try done.
    + split; [done|]. by intros [? _].
    + intros ->. done.
    + apply orb_true_iff.
Qed.

(** ** Requesting a category *)

(** The mailing loop on its own: it touches nothing but the outbox, and
    hands over one mail per row until a call fails. *)
Lemma RequestCategory_mail_loop (subject message sender : string)
    (rows : list RequestCategory.Account) s b c fz :
  let mail_to := fun user =>
    {| RequestCategory.mail_subject := subject;
       RequestCategory.mail_message := message;
       RequestCategory.from_email := sender;
       RequestCategory.recipient_list := [RequestCategory.email user] |} in
  let r := for_each rows (fun user => RequestCategory.send_mail (mail_to user))
             (mkWorld s b c fz) in
  let sent :=
    match fz with Some n => take n rows | None => rows end in
  RequestCategory.request_table (db r.2) = RequestCategory.request_table s
  ∧ RequestCategory.account_table (db r.2) = RequestCategory.account_table s
  ∧ RequestCategory.flash (db r.2) = RequestCategory.flash s
  ∧ RequestCategory.outbox (db r.2)
    = RequestCategory.outbox s ++ map mail_to sent
  ∧ r.1 = match fz with
          | Some n => if (n <? length rows)%nat then Raised else Returned tt
          | None => Returned tt
          end
  ∧ (fz = None → fuse r.2 = None).
Proof.
  intros mail_to. cbv zeta.
  revert s c fz. induction rows as [|a rows IH]; intros s c fz.
  - cbn [for_each]. unfold ret. cbn [fst snd db].
    destruct fz as [n|]; cbn [map]; rewrite ?take_nil, ?app_nil_r;
      cbn [map length]; rewrite ?app_nil_r; done.
  - cbn [for_each]. rewrite bind_run.
    destruct fz as [[|n]|];
      remember (RequestCategory.send_mail (mail_to a) _) as first eqn:E;
      unfold RequestCategory.send_mail in E;
      rewrite ?call_blown, ?call_armed, ?call_calm in E; subst first.
    + cbn [fst snd db take map length].
      rewrite app_nil_r. done.
    + cbn [fst snd].
      specialize (IH
        {| RequestCategory.request_table := RequestCategory.request_table s;
           RequestCategory.account_table := RequestCategory.account_table s;
           RequestCategory.flash := RequestCategory.flash s;
           RequestCategory.outbox :=
             RequestCategory.outbox s ++ [mail_to a] |} (c + 1) (Some n)).
      cbn [RequestCategory.request_table RequestCategory.account_table
           RequestCategory.flash RequestCategory.outbox] in IH.
      destruct IH as (-> & -> & -> & -> & -> & IH).
      cbn [take map length]. rewrite <- app_assoc. cbn [app].
      split_and!; try done.
    + cbn [fst snd].
      specialize (IH
        {| RequestCategory.request_table := RequestCategory.request_table s;
           RequestCategory.account_table := RequestCategory.account_table s;
           RequestCategory.flash := RequestCategory.flash s;
           RequestCategory.outbox :=
             RequestCategory.outbox s ++ [mail_to a] |} (c + 1) None).
      cbn [RequestCategory.request_table RequestCategory.account_table
           RequestCategory.flash RequestCategory.outbox] in IH.
      destruct IH as (-> & -> & -> & -> & -> & IH).
      cbn [map]. rewrite <- app_assoc. cbn [app].
      split_and!; done.
Qed.

(** While a request of the user awaits review, the handler changes
    nothing. *)
Lemma RequestCategory_refusal_run
    (render_subject render_email : RequestCategory.CategoryRequest -> string)
    (EMAIL_FROM : string) (self_user : User)
    (form : RequestCategory.CategoryRequest) w :
  RequestCategory.open_requests self_user
    (RequestCategory.request_table (db w)) ≠ [] →
  let r :=
    RequestCategory.form_valid render_subject render_email EMAIL_FROM
      self_user form w in
  db r.2 = db w
  ∧ (r.1 = Raised
     ∨ r.1 = Returned
               (FormInvalid
                  ["You already have a category request open. You may not "
                   +:+ "submit another until that request is reviewed."])).
Proof.
  intros Hopen. cbv zeta. destruct w as [s b c fz]. cbn [db] in Hopen.
  unfold RequestCategory.form_valid. rewrite bind_run.
  unfold RequestCategory.has_open_request.
  destruct fz as [[|n]|];
    rewrite ?call_blown, ?call_armed, ?call_calm; cbn [fst snd db].
  - by split; [|left].
  - rewrite bool_decide_eq_true_2 by done. unfold ret. cbn [fst snd db].
    by split; [|right].
  - rewrite bool_decide_eq_true_2 by done. unfold ret. cbn [fst snd db].
    by split; [|right].
Qed.

(** Without such a request the handler stores the request, flashes its
    message, and mails the active superusers one by one; a call that
    fails ends it there. *)
Lemma RequestCategory_form_valid_run
    (render_subject render_email : RequestCategory.CategoryRequest -> string)
    (EMAIL_FROM : string) (self_user : User)
    (form : RequestCategory.CategoryRequest) s b c fz :
  RequestCategory.open_requests self_user
    (RequestCategory.request_table s) = [] →
  let object :=
    {| RequestCategory.request_name := RequestCategory.request_name form;
       RequestCategory.requested_by := Some (pk self_user);
       RequestCategory.reviewed_at := RequestCategory.reviewed_at form |} in
  let staff :=
    filter (fun a => active (RequestCategory.account a) = true
                     ∧ RequestCategory.is_superuser a = true)
      (RequestCategory.account_table s) in
  let mail_to := fun user =>
    {| RequestCategory.mail_subject := render_subject object;
       RequestCategory.mail_message := render_email object;
       RequestCategory.from_email := EMAIL_FROM;
       RequestCategory.recipient_list := [RequestCategory.email user] |} in
  let r :=
    RequestCategory.form_valid render_subject render_email EMAIL_FROM
      self_user form (mkWorld s b c fz) in
  RequestCategory.account_table (db r.2) = RequestCategory.account_table s
  ∧ match fz with
    | Some (S (S n)) =>
        RequestCategory.request_table (db r.2)
        = RequestCategory.request_table s ++ [object]
        ∧ RequestCategory.outbox (db r.2)
          = RequestCategory.outbox s ++ map mail_to (take (n - 2) staff)
        ∧ r.1 = (if (n <? 2 + length staff)%nat then Raised
                 else Returned (HttpResponseRedirect "home"))
    | Some _ => db r.2 = s ∧ r.1 = Raised
    | None =>
        RequestCategory.request_table (db r.2)
        = RequestCategory.request_table s ++ [object]
        ∧ RequestCategory.outbox (db r.2)
          = RequestCategory.outbox s ++ map mail_to staff
        ∧ length (RequestCategory.flash (db r.2))
          = S (length (RequestCategory.flash s))
        ∧ r.1 = Returned (HttpResponseRedirect "home")
        ∧ fuse r.2 = None
    end.
Proof.
  intros Hnone object staff mail_to. cbv zeta.
  unfold RequestCategory.form_valid. rewrite bind_run.
  unfold RequestCategory.has_open_request.
  destruct fz as [[|[|[|[|n]]]]|];
    rewrite ?call_blown, ?call_armed, ?call_calm; cbn [fst snd db];
    rewrite ?Hnone; rewrite ?bool_decide_eq_false_2 by (by intros []);
    fold object.
  - done.
  - rewrite bind_run. unfold RequestCategory.save.
    rewrite call_blown. done.
  - rewrite bind_run. unfold RequestCategory.save.
    rewrite call_armed. cbn [fst snd]. rewrite bind_run.
    unfold RequestCategory.messages_info. rewrite call_blown.
    cbn [fst snd db RequestCategory.request_table
         RequestCategory.account_table RequestCategory.outbox take map
         Nat.sub Nat.ltb Nat.leb].
    rewrite app_nil_r. done.
  - rewrite bind_run. unfold RequestCategory.save.
    rewrite call_armed. cbn [fst snd]. rewrite bind_run.
    unfold RequestCategory.messages_info. rewrite call_armed.
    cbn [fst snd]. rewrite bind_run.
    unfold RequestCategory.superusers. rewrite call_blown.
    cbn [fst snd db RequestCategory.request_table
         RequestCategory.account_table RequestCategory.outbox take map
         Nat.sub Nat.ltb Nat.leb].
    rewrite app_nil_r. done.
  - rewrite bind_run. unfold RequestCategory.save.
    rewrite call_armed. cbn [fst snd]. rewrite bind_run.
    unfold RequestCategory.messages_info. rewrite call_armed.
    cbn [fst snd]. rewrite bind_run.
    unfold RequestCategory.superusers. rewrite call_armed.
    cbn [fst snd RequestCategory.account_table]. fold staff.
    rewrite bind_run.
    match goal with
    | |- context [for_each staff ?body (mkWorld ?s' ?b' ?c' ?f')] =>
        pose proof (RequestCategory_mail_loop (render_subject object)
                      (render_email object) EMAIL_FROM staff s' b' c' f')
          as Hloop
    end.
    cbv beta zeta in Hloop.
    cbn [RequestCategory.request_table RequestCategory.account_table
         RequestCategory.flash RequestCategory.outbox] in Hloop.
    match goal with
    | |- context [for_each staff ?body ?w'] =>
        set (run := for_each staff body w')
    end.
    change (for_each _ _ _) with run in Hloop.
    destruct run as [o w'']. fold mail_to in Hloop.
    destruct Hloop as (H1 & H2 & H3 & H4 & H5 & H6).
    cbn [fst snd] in *. subst o.
    replace (S (S n) - 2)%nat with n by lia.
    replace (S (S n) <? 2 + length staff)%nat with (n <? length staff)%nat
      by (destruct (Nat.ltb_spec n (length staff));
          destruct (Nat.ltb_spec (S (S n)) (2 + length staff)); lia).
    destruct (n <? length staff)%nat; unfold ret; cbn [fst snd];
      by rewrite H1, H2, H4.
  - rewrite bind_run. unfold RequestCategory.save.
    rewrite call_calm. cbn [fst snd]. rewrite bind_run.
    unfold RequestCategory.messages_info. rewrite call_calm.
    cbn [fst snd]. rewrite bind_run.
    unfold RequestCategory.superusers. rewrite call_calm.
    cbn [fst snd RequestCategory.account_table]. fold staff.
    rewrite bind_run.
    match goal with
    | |- context [for_each staff ?body (mkWorld ?s' ?b' ?c' ?f')] =>
        pose proof (RequestCategory_mail_loop (render_subject object)
                      (render_email object) EMAIL_FROM staff s' b' c' f')
          as Hloop
    end.
    cbv beta zeta in Hloop.
    cbn [RequestCategory.request_table RequestCategory.account_table
         RequestCategory.flash RequestCategory.outbox] in Hloop.
    match goal with
    | |- context [for_each staff ?body ?w'] =>
        set (run := for_each staff body w')
    end.
    change (for_each _ _ _) with run in Hloop.
    destruct run as [o w'']. fold mail_to in Hloop.
    destruct Hloop as (H1 & H2 & H3 & H4 & H5 & H6).
    cbn [fst snd] in *. subst o. unfold ret. cbn [fst snd].
    rewrite H1, H2, H3, H4, length_app. cbn [length].
    split_and!; try done; [lia|by apply H6].
Qed.

(** X17.  A user with a category request that awaits review cannot file
    another: whatever the form holds and whichever call fails, the handler
    leaves requests, flash messages and outbox as they were, and when it
    returns it returns the form with the error. *)
Theorem RequestCategory_one_request_at_a_time
    (render_subject render_email : RequestCategory.CategoryRequest -> string)
    (EMAIL_FROM : string) (self_user : User)
    (form q : RequestCategory.CategoryRequest) w
    (Hq : q ∈ RequestCategory.request_table (db w))
    (Hby : RequestCategory.requested_by q = Some (pk self_user))
    (Hopen : RequestCategory.reviewed_at q = None) :
  let r :=
    RequestCategory.form_valid render_subject render_email EMAIL_FROM
      self_user form w in
  db r.2 = db w
  ∧ (r.1 = Raised
     ∨ r.1 = Returned
               (FormInvalid
                  ["You already have a category request open. You may not "
                   +:+ "submit another until that request is reviewed."])).
Proof.
  apply RequestCategory_refusal_run. intros Hnil.
  assert (q ∈ RequestCategory.open_requests self_user
                (RequestCategory.request_table (db w))) as Hin.
  { unfold RequestCategory.open_requests. by apply list_elem_of_filter. }
  rewrite Hnil in Hin. by apply elem_of_nil in Hin.
Qed.

Lemma RequestCategory_one_request_at_a_time_witness :
  let r :=
    RequestCategory.form_valid Scenario.subject_of Scenario.subject_of
      "noreply@example.org" Scenario.alice Scenario.request_form
      (calm Scenario.desk 0) in
  db r.2 = Scenario.desk
  ∧ (r.1 = Raised
     ∨ r.1 = Returned
               (FormInvalid
                  ["You already have a category request open. You may not "
                   +:+ "submit another until that request is reviewed."])).
Proof.
  refine (RequestCategory_one_request_at_a_time Scenario.subject_of
            Scenario.subject_of "noreply@example.org" Scenario.alice
            Scenario.request_form
            {| RequestCategory.request_name := "Celeste";
               RequestCategory.requested_by := Some 1%nat;
               RequestCategory.reviewed_at := None |}
            (calm Scenario.desk 0) _ eq_refl eq_refl).
  apply list_elem_of_here.
Defined.

(** X18.  When no call fails, a user without a request awaiting review
    gets the request stored at the end of the table with themselves as the
    requester, whatever requester the form named, and is sent home; one
    mail goes to each active superuser, in table order and addressed to
    that superuser alone, and to nobody else. *)
Theorem RequestCategory_submission
    (render_subject render_email : RequestCategory.CategoryRequest -> string)
    (EMAIL_FROM : string) (self_user : User)
    (form : RequestCategory.CategoryRequest) s b c
    (Hnone : RequestCategory.open_requests self_user
               (RequestCategory.request_table s) = []) :
  let object :=
    {| RequestCategory.request_name := RequestCategory.request_name form;
       RequestCategory.requested_by := Some (pk self_user);
       RequestCategory.reviewed_at := RequestCategory.reviewed_at form |} in
  let r :=
    RequestCategory.form_valid render_subject render_email EMAIL_FROM
      self_user form (mkWorld s b c None) in
  r.1 = Returned (HttpResponseRedirect "home")
  ∧ RequestCategory.request_table (db r.2)
    = RequestCategory.request_table s ++ [object]
  ∧ RequestCategory.account_table (db r.2) = RequestCategory.account_table s
  ∧ RequestCategory.outbox (db r.2)
    = RequestCategory.outbox s
      ++ map (fun user =>
                {| RequestCategory.mail_subject := render_subject object;
                   RequestCategory.mail_message := render_email object;
                   RequestCategory.from_email := EMAIL_FROM;
                   RequestCategory.recipient_list :=
                     [RequestCategory.email user] |})
           (filter (fun a => active (RequestCategory.account a) = true
                             ∧ RequestCategory.is_superuser a = true)
              (RequestCategory.account_table s)).
Proof.
  intros object r.
  pose proof (RequestCategory_form_valid_run render_subject render_email
                EMAIL_FROM self_user form s b c None Hnone) as H.
  cbv zeta in H. fold object in H. fold r in H.
  destruct H as (Ha & Ht & Ho & _ & Hr & _). by rewrite Hr, Ht, Ha, Ho.
Qed.

Lemma RequestCategory_submission_witness :
  let r :=
    RequestCategory.form_valid Scenario.subject_of Scenario.subject_of
      "noreply@example.org" Scenario.bob Scenario.request_form
      (calm Scenario.desk 0) in
  r.1 = Returned (HttpResponseRedirect "home")
  ∧ map RequestCategory.requested_by
      (RequestCategory.request_table (db r.2))
    = [Some 1%nat; Some 2%nat]
  ∧ map RequestCategory.recipient_list (RequestCategory.outbox (db r.2))
    = [["bob@example.org"]].
Proof.
  pose proof (RequestCategory_submission Scenario.subject_of
                Scenario.subject_of "noreply@example.org" Scenario.bob
                Scenario.request_form Scenario.desk O 0 eq_refl) as H.
  cbv zeta in H. destruct H as (Hr & Ht & _ & Ho).
  cbv zeta. unfold calm. rewrite Hr, Ht, Ho.
  split; [reflexivity|]. split; vm_compute; reflexivity.
Defined.

(** X19.  The handler runs outside a transaction: once the request is
    saved, a failing call does not take it back.  When call number [n]
    fails, [n] being at least 2, the request is on record, and of the
    active superusers the first [n - 4] and no others have been mailed;
    the handler raises when [n] is below 4 plus their number, and is not
    touched by the failure otherwise. *)
Theorem RequestCategory_failure_keeps_request
    (render_subject render_email : RequestCategory.CategoryRequest -> string)
    (EMAIL_FROM : string) (self_user : User)
    (form : RequestCategory.CategoryRequest) s b c (n : nat)
    (Hnone : RequestCategory.open_requests self_user
               (RequestCategory.request_table s) = [])
    (Hlate : (2 ≤ n)%nat) :
  let object :=
    {| RequestCategory.request_name := RequestCategory.request_name form;
       RequestCategory.requested_by := Some (pk self_user);
       RequestCategory.reviewed_at := RequestCategory.reviewed_at form |} in
  let staff :=
    filter (fun a => active (RequestCategory.account a) = true
                     ∧ RequestCategory.is_superuser a = true)
      (RequestCategory.account_table s) in
  let r :=
    RequestCategory.form_valid render_subject render_email EMAIL_FROM
      self_user form (mkWorld s b c (Some n)) in
  RequestCategory.request_table (db r.2)
  = RequestCategory.request_table s ++ [object]
  ∧ RequestCategory.outbox (db r.2)
    = RequestCategory.outbox s
      ++ map (fun user =>
                {| RequestCategory.mail_subject := render_subject object;
                   RequestCategory.mail_message := render_email object;
                   RequestCategory.from_email := EMAIL_FROM;
                   RequestCategory.recipient_list :=
                     [RequestCategory.email user] |})
           (take (n - 4) staff)
  ∧ ((n < 4 + length staff)%nat → r.1 = Raised)
  ∧ ((4 + length staff ≤ n)%nat →
     r.1 = Returned (HttpResponseRedirect "home")).
Proof.
  intros object staff r.
  pose proof (RequestCategory_form_valid_run render_subject render_email
                EMAIL_FROM self_user form s b c (Some n) Hnone) as H.
  cbv zeta in H. fold object in H. fold staff in H. fold r in H.
  destruct n as [|[|m]]; [lia|lia|].
  destruct H as (_ & Ht & Ho & Hr).
  replace (S (S m) - 4)%nat with (m - 2)%nat by lia.
  rewrite Ht, Ho, Hr. split_and!; try done.
  - intros Hlt. destruct (Nat.ltb_spec m (2 + length staff)); [done|lia].
  - intros Hge. destruct (Nat.ltb_spec m (2 + length staff)); [lia|done].
Qed.

Lemma RequestCategory_failure_keeps_request_witness :
  let r :=
    RequestCategory.form_valid Scenario.subject_of Scenario.subject_of
      "noreply@example.org" Scenario.bob Scenario.request_form
      (faulty Scenario.desk 0 4) in
  r.1 = Raised
  ∧ map RequestCategory.requested_by
      (RequestCategory.request_table (db r.2))
    = [Some 1%nat; Some 2%nat]
  ∧ RequestCategory.outbox (db r.2) = [].
Proof.
  pose proof (RequestCategory_failure_keeps_request Scenario.subject_of
                Scenario.subject_of "noreply@example.org" Scenario.bob
                Scenario.request_form Scenario.desk O 0 4%nat eq_refl
                ltac:(lia)) as H.
  cbv zeta in H. destruct H as (Ht & Ho & Hr & _).
  cbv zeta. unfold faulty. rewrite Ht, Ho, Hr.
  - split; [reflexivity|]. split; vm_compute; reflexivity.
  - vm_compute. lia.
Defined.

(** X20.  The handler keeps the table such that no user has more than one
    request awaiting review, whichever call fails. *)
Theorem RequestCategory_single_open_request
    (render_subject render_email : RequestCategory.CategoryRequest -> string)
    (EMAIL_FROM : string) (self_user : User)
    (form : RequestCategory.CategoryRequest) w
    (Hinv : ∀ v,
       (length (RequestCategory.open_requests v
                  (RequestCategory.request_table (db w))) ≤ 1)%nat) :
  let r :=
    RequestCategory.form_valid render_subject render_email EMAIL_FROM
      self_user form w in
  ∀ v,
    (length (RequestCategory.open_requests v
               (RequestCategory.request_table (db r.2))) ≤ 1)%nat.
Proof.
  intros r v. subst r.
  destruct (RequestCategory.open_requests self_user
              (RequestCategory.request_table (db w))) as [|q qs] eqn:E.
  - destruct w as [s b c fz]. cbn [db] in *.
    pose proof (RequestCategory_form_valid_run render_subject render_email
                  EMAIL_FROM self_user form s b c fz E) as H.
    cbv zeta in H. destruct H as [_ H].
    assert (Hadd : ∀ object,
      RequestCategory.requested_by object = Some (pk self_user) →
      (length (RequestCategory.open_requests v
                 (RequestCategory.request_table s ++ [object])) ≤ 1)%nat).
    { intros object Hby. unfold RequestCategory.open_requests.
      rewrite filter_app, length_app.
      destruct (decide (pk v = pk self_user)) as [Hv|Hv].
      - unfold RequestCategory.open_requests in E. rewrite Hv, E.
        cbn [length]. rewrite Nat.add_0_l.
        etransitivity; [apply length_filter|]. done.
      - rewrite filter_cons_False, filter_nil.
        + cbn [length]. rewrite Nat.add_0_r. apply Hinv.
        + rewrite Hby. intros [[=] _]. done. }
    destruct fz as [[|[|n]]|].
    + destruct H as [-> _]. apply Hinv.
    + destruct H as [-> _]. apply Hinv.
    + destruct H as (-> & _). by apply Hadd.
    + destruct H as (-> & _). by apply Hadd.
  - pose proof (RequestCategory_refusal_run render_subject render_email
                  EMAIL_FROM self_user form w) as H.
    rewrite E in H. specialize (H ltac:(done)). cbv zeta in H.
    destruct H as [-> _]. apply Hinv.
Qed.

Lemma RequestCategory_single_open_request_witness :
  let after :=
    RequestCategory.request_table
      (db (RequestCategory.form_valid Scenario.subject_of
             Scenario.subject_of "noreply@example.org" Scenario.bob
             Scenario.request_form (calm Scenario.desk 0)).2) in
  (length (RequestCategory.open_requests Scenario.alice after) ≤ 1)%nat
  ∧ (length (RequestCategory.open_requests Scenario.bob after) ≤ 1)%nat.
Proof.
  assert (Hinv : ∀ v,
    (length (RequestCategory.open_requests v
               (RequestCategory.request_table
                  (db (calm Scenario.desk 0)))) ≤ 1)%nat).
  { intros v. unfold RequestCategory.open_requests.
    etransitivity; [apply length_filter|]. vm_compute. lia. }
  pose proof (RequestCategory_single_open_request Scenario.subject_of
                Scenario.subject_of "noreply@example.org" Scenario.bob
                Scenario.request_form (calm Scenario.desk 0) Hinv) as H.
  cbv zeta in H. split; apply H.
Defined.

(** X21.  A request that has gone through blocks the next one: after a
    submission without failure, with a form that leaves the review date
    empty, a second submission by the same user is refused and changes
    nothing, whatever its form holds. *)
Theorem RequestCategory_resubmission_refused
    (render_subject render_email : RequestCategory.CategoryRequest -> string)
    (EMAIL_FROM : string) (self_user : User)
    (form again : RequestCategory.CategoryRequest) s now
    (Hnone : RequestCategory.open_requests self_user
               (RequestCategory.request_table s) = [])
    (Hfresh : RequestCategory.reviewed_at form = None) :
  let first :=
    RequestCategory.form_valid render_subject render_email EMAIL_FROM
      self_user form (calm s now) in
  let second :=
    RequestCategory.form_valid render_subject render_email EMAIL_FROM
      self_user again first.2 in
  first.1 = Returned (HttpResponseRedirect "home")
  ∧ second.1
    = Returned
        (FormInvalid
           ["You already have a category request open. You may not "
            +:+ "submit another until that request is reviewed."])
  ∧ db second.2 = db first.2.
Proof.
  intros first second.
  pose proof (RequestCategory_form_valid_run render_subject render_email
                EMAIL_FROM self_user form s O now None Hnone) as H.
  cbv zeta in H. change (mkWorld s O now None) with (calm s now) in H.
  fold first in H. destruct H as (_ & Ht & _ & _ & Hr & Hfuse).
  split; [exact Hr|].
  assert (Hopen : RequestCategory.open_requests self_user
                    (RequestCategory.request_table (db first.2)) ≠ []).
  { rewrite Ht. unfold RequestCategory.open_requests.
    rewrite filter_app, filter_cons_True by (by rewrite Hfresh).
    intros Hnil. apply app_eq_nil in Hnil as [_ [=]]. }
  pose proof (RequestCategory_refusal_run render_subject render_email
                EMAIL_FROM self_user again first.2 Hopen) as H.
  cbv zeta in H. fold second in H. destruct H as [Hdb Hout].
  split; [|exact Hdb].
  destruct Hout as [Hraised|Hret]; [|exact Hret].
  exfalso. revert Hraised. subst second.
  destruct first.2 as [s' b' c' fz']. cbn [fuse db] in *. subst fz'.
  unfold RequestCategory.form_valid. rewrite bind_run.
  unfold RequestCategory.has_open_request. rewrite call_calm.
  cbn [fst snd]. by rewrite bool_decide_eq_true_2.
Qed.

Lemma RequestCategory_resubmission_refused_witness :
  let first :=
    RequestCategory.form_valid Scenario.subject_of Scenario.subject_of
      "noreply@example.org" Scenario.bob Scenario.request_form
      (calm Scenario.desk 0) in
  let second :=
    RequestCategory.form_valid Scenario.subject_of Scenario.subject_of
      "noreply@example.org" Scenario.bob Scenario.request_form first.2 in
  first.1 = Returned (HttpResponseRedirect "home")
  ∧ second.1
    = Returned
        (FormInvalid
           ["You already have a category request open. You may not "
            +:+ "submit another until that request is reviewed."])
  ∧ db second.2 = db first.2.
Proof.
  exact (RequestCategory_resubmission_refused Scenario.subject_of
           Scenario.subject_of "noreply@example.org" Scenario.bob
           Scenario.request_form Scenario.request_form Scenario.desk 0
           eq_refl eq_refl).
Defined.

(** ** The leaderboards of a category *)

Lemma string_leb_trans (a b c : string) :
  String.leb a b = true → String.leb b c = true → String.leb a c = true.
Proof.
  unfold String.leb. revert b c.
  induction a as [|x a IH]; intros [|y b] [|z c]; cbn; try done.
  destruct (Ascii.compare x y) eqn:Exy; destruct (Ascii.compare y z) eqn:Eyz;
    try done.
  - apply Ascii.compare_eq_iff in Exy, Eyz. subst.
    assert (Ascii.compare z z = Eq) as ->
      by (unfold Ascii.compare; apply N.compare_refl).
    apply IH.
  - apply Ascii.compare_eq_iff in Exy. subst. by rewrite Eyz.
  - apply Ascii.compare_eq_iff in Eyz. subst. by rewrite Exy.
  - unfold Ascii.compare in *. apply N.compare_lt_iff in Exy, Eyz.
    by rewrite (proj2 (N.compare_lt_iff _ _) (N.lt_trans _ _ _ Exy Eyz)).
Qed.

Lemma goal_le_spec race_table (a b : CategoryLeaderboards.Goal) :
  CategoryLeaderboards.goal_le race_table a b = true
  ↔ (CategoryLeaderboards.num_races race_table b
     < CategoryLeaderboards.num_races race_table a)%nat
    ∨ (CategoryLeaderboards.num_races race_table a
       = CategoryLeaderboards.num_races race_table b
       ∧ String.leb (CategoryLeaderboards.goal_name a)
           (CategoryLeaderboards.goal_name b) = true).
Proof.
  unfold CategoryLeaderboards.goal_le.
  rewrite orb_true_iff, andb_true_iff, Nat.ltb_lt, Nat.eqb_eq. tauto.
Qed.

Lemma goal_le_total race_table (a b : CategoryLeaderboards.Goal) :
  CategoryLeaderboards.goal_le race_table a b = true
  ∨ CategoryLeaderboards.goal_le race_table b a = true.
Proof.
  rewrite !goal_le_spec.
  destruct (String.leb_total (CategoryLeaderboards.goal_name a)
              (CategoryLeaderboards.goal_name b));
    destruct (Nat.lt_total (CategoryLeaderboards.num_races race_table a)
                (CategoryLeaderboards.num_races race_table b))
      as [?|[?|?]]; auto.
Qed.

Lemma goal_le_trans race_table (a b c : CategoryLeaderboards.Goal) :
  CategoryLeaderboards.goal_le race_table a b = true →
  CategoryLeaderboards.goal_le race_table b c = true →
  CategoryLeaderboards.goal_le race_table a c = true.
Proof.
  rewrite !goal_le_spec. intros [?|[? ?]] [?|[? ?]]; try (left; lia).
  right. split; [lia|]. by eapply string_leb_trans.
Qed.

(** X22.  Every leaderboard belongs to an active goal of the category and
    shows at most 1000 rankings, all of that goal and category, highest
    score first; a ranking of the goal that is left out scores no higher
    than any ranking shown. *)
Theorem leaderboards_top_rankings (category : Category)
    (goal_table : list CategoryLeaderboards.Goal) (race_table : list Race)
    (ranking_table : list CategoryLeaderboards.UserRanking) :
  Forall
    (fun entry =>
       let g := entry.1 in
       let board := entry.2 in
       let of_goal := fun k =>
         k ∈ ranking_table
         ∧ CategoryLeaderboards.ranking_category k = cat_slug category
         ∧ CategoryLeaderboards.ranking_goal k
           = CategoryLeaderboards.goal_name g in
       g ∈ goal_table
       ∧ CategoryLeaderboards.goal_category g = cat_slug category
       ∧ CategoryLeaderboards.goal_active g = true
       ∧ (length board ≤ 1000)%nat
       ∧ (∀ k, k ∈ board → of_goal k)
       ∧ (∀ i j a b,
            (i < j)%nat → board !! i = Some a → board !! j = Some b →
            CategoryLeaderboards.score b ≤ CategoryLeaderboards.score a)
       ∧ (∀ k k',
            k ∈ board → of_goal k' → k' ∉ board →
            CategoryLeaderboards.score k' ≤ CategoryLeaderboards.score k))
    (CategoryLeaderboards.leaderboards category goal_table race_table
       ranking_table).
Proof.
  unfold CategoryLeaderboards.leaderboards. rewrite Forall_map.
  apply Forall_forall. intros g Hg. cbn [fst snd].
  rewrite order_by_perm, list_elem_of_filter in Hg.
  destruct Hg as [[Hcat Hact] Hin].
  unfold CategoryLeaderboards.rankings_of.
  set (rows := filter _ ranking_table).
  set (le := fun a b : CategoryLeaderboards.UserRanking =>
               CategoryLeaderboards.score b <=? CategoryLeaderboards.score a).
  assert (Hsorted : ∀ i j a b,
            (i < j)%nat → order_by le rows !! i = Some a →
            order_by le rows !! j = Some b →
            CategoryLeaderboards.score b ≤ CategoryLeaderboards.score a).
  { intros i j a b Hij Hi Hj. apply Z.leb_le.
    eapply (sorted_lookup le); [|exact Hij|exact Hi|exact Hj].
    apply order_by_sorted; subst le; cbn.
    - intros x y. rewrite !Z.leb_le. lia.
    - intros x y z. rewrite !Z.leb_le. lia. }
  assert (Hrows : ∀ k,
            k ∈ order_by le rows
            ↔ k ∈ ranking_table
              ∧ CategoryLeaderboards.ranking_category k = cat_slug category
              ∧ CategoryLeaderboards.ranking_goal k
                = CategoryLeaderboards.goal_name g).
  { intros k. rewrite order_by_perm. subst rows.
    rewrite list_elem_of_filter. tauto. }
  split_and!; try done.
  - rewrite length_take. lia.
  - intros k Hk. apply Hrows. apply elem_of_take in Hk as (i & Hi & _).
    apply list_elem_of_lookup. by exists i.
  - intros i j a b Hij Hi Hj.
    apply lookup_take_Some in Hi as [Hi _].
    apply lookup_take_Some in Hj as [Hj _]. eauto.
  - intros k k' Hk Hk' Hout. apply Hrows in Hk'.
    apply list_elem_of_lookup in Hk as [i Hi].
    apply lookup_take_Some in Hi as [Hi Hlt].
    apply list_elem_of_lookup in Hk' as [j Hj].
    destruct (decide (j < 1000)%nat) as [Hj'|Hj'].
    + exfalso. apply Hout. apply list_elem_of_lookup. exists j.
      by apply lookup_take_Some.
    + eapply (Hsorted i j); [lia|done|done].
Qed.

(** X23.  The leaderboards page lists each active goal of the category
    once per row it has in the goal table and no other goal, the goal
    with more rooms first and goals with equally many rooms by name. *)
Theorem leaderboards_goal_order (category : Category)
    (goal_table : list CategoryLeaderboards.Goal) (race_table : list Race)
    (ranking_table : list CategoryLeaderboards.UserRanking) :
  let goals :=
    map fst
      (CategoryLeaderboards.leaderboards category goal_table race_table
         ranking_table) in
  goals
  ≡ₚ filter
       (fun g => CategoryLeaderboards.goal_category g = cat_slug category
                 ∧ CategoryLeaderboards.goal_active g = true)
       goal_table
  ∧ (∀ i j a b,
       (i < j)%nat → goals !! i = Some a → goals !! j = Some b →
       (CategoryLeaderboards.num_races race_table b
        ≤ CategoryLeaderboards.num_races race_table a)%nat
       ∧ (CategoryLeaderboards.num_races race_table a
          = CategoryLeaderboards.num_races race_table b →
          String.leb (CategoryLeaderboards.goal_name a)
            (CategoryLeaderboards.goal_name b) = true)).
Proof.
  intros goals. subst goals. unfold CategoryLeaderboards.leaderboards.
  rewrite map_map. cbn [fst]. rewrite map_id. split.
  - apply order_by_perm.
  - intros i j a b Hij Hi Hj.
    assert (CategoryLeaderboards.goal_le race_table a b = true) as Hle.
    { eapply (sorted_lookup (CategoryLeaderboards.goal_le race_table));
        [|exact Hij|exact Hi|exact Hj].
      apply order_by_sorted.
      - apply goal_le_total.
      - apply goal_le_trans. }
    apply goal_le_spec in Hle. destruct Hle as [?|[? ?]]; split; try lia.
    done.
Qed.

(** ** Editing a category *)

(** A goal is reviewed in three calls when its flag differs from the
    form, and in none otherwise. *)
Lemma EditCategory_review_goal_calm (self_user : User)
    (form : EditCategory.Form) (g : EditCategory.Goal) s b c :
  let ticked := EditCategory.contains (EditCategory.active_goals form) g in
  let flips := xorb (EditCategory.goal_active g) ticked in
  EditCategory.review_goal self_user form g (mkWorld s b c None)
  = (Returned tt,
     mkWorld
       {| EditCategory.category_row := EditCategory.category_row s;
          EditCategory.goal_set :=
            if flips
            then map (fun row =>
                        if EditCategory.goal_eq row g
                        then EditCategory.set_active g ticked else row)
                   (EditCategory.goal_set s)
            else EditCategory.goal_set s;
          EditCategory.auditlog_set :=
            EditCategory.auditlog_set s
            ++ (if flips
                then [ {| EditCategory.actor := pk self_user;
                          EditCategory.action :=
                            if ticked then "goal_activate"
                            else "goal_deactivate";
                          EditCategory.goal := Some (EditCategory.goal_id g);
                          EditCategory.old_value := None;
                          EditCategory.new_value := None |} ]
                else []);
          EditCategory.flash :=
            EditCategory.flash s
            ++ (if flips
                then [ ("info",
                        RaceChatLog.dquote +:+ EditCategory.goal_name g
                        +:+ RaceChatLog.dquote
                        +:+ (if ticked then " may now be used for races."
                             else " can no longer be used for races.")) ]
                else []) |}
       b (if flips then c + 1 + 1 + 1 else c) None).
Proof.
  intros ticked flips. subst flips. unfold EditCategory.review_goal.
  fold ticked.
  destruct (EditCategory.goal_active g), ticked; cbn [andb negb xorb].
  - unfold ret. rewrite !app_nil_r. by destruct s.
  - rewrite bind_run. unfold EditCategory.goal_save.
    rewrite call_calm. cbn [fst snd]. rewrite bind_run.
    unfold EditCategory.AuditLog_create, EditCategory.bulk_create.
    rewrite call_calm. cbn [fst snd].
    unfold EditCategory.messages_info. rewrite call_calm. cbn [fst snd].
    reflexivity.
  - rewrite bind_run. unfold EditCategory.goal_save.
    rewrite call_calm. cbn [fst snd]. rewrite bind_run.
    unfold EditCategory.AuditLog_create, EditCategory.bulk_create.
    rewrite call_calm. cbn [fst snd].
    unfold EditCategory.messages_info. rewrite call_calm. cbn [fst snd].
    reflexivity.
  - unfold ret. rewrite !app_nil_r. by destruct s.
Qed.

Lemma EditCategory_replace_own_row (P L : list EditCategory.Goal)
    (g g' : EditCategory.Goal) :
  NoDup (map EditCategory.goal_id (P ++ g :: L)) →
  map (fun row => if EditCategory.goal_eq row g then g' else row)
    (P ++ g :: L)
  = P ++ g' :: L.
Proof.
  intros Hnd. rewrite map_app in Hnd. cbn [map] in Hnd.
  apply NoDup_app in Hnd as (_ & HP & Hg). apply NoDup_cons in Hg as [HL _].
  assert (Hother : ∀ rows,
    (∀ row, row ∈ rows → EditCategory.goal_id row ≠ EditCategory.goal_id g) →
    map (fun row => if EditCategory.goal_eq row g then g' else row) rows
    = rows).
  { intros rows Hrows. induction rows as [|row rows IH]; [done|].
    cbn [map]. rewrite IH by (intros; apply Hrows; by right).
    unfold EditCategory.goal_eq at 1. rewrite bool_decide_eq_false_2; [done|].
    apply Hrows. by left. }
  rewrite map_app. cbn [map]. rewrite !Hother.
  - unfold EditCategory.goal_eq. by rewrite bool_decide_eq_true_2.
  - intros row Hrow Heq. apply HL. rewrite <- Heq.
    by apply list_elem_of_fmap_2.
  - intros row Hrow Heq. apply (HP (EditCategory.goal_id row)).
    + by apply list_elem_of_fmap_2.
    + rewrite Heq. by left.
Qed.

(** The first loop without a failing call: one audit row and one flash
    message for every goal whose flag differs from the form, in table
    order, and every row of the table set to what the form says. *)
Lemma EditCategory_review_loop_calm (self_user : User)
    (form : EditCategory.Form) (goals : list EditCategory.Goal) s b c :
  let ticked := EditCategory.contains (EditCategory.active_goals form) in
  let changed :=
    filter (fun g => EditCategory.goal_active g ≠ ticked g) goals in
  let r :=
    for_each goals (EditCategory.review_goal self_user form)
      (mkWorld s b c None) in
  r.1 = Returned tt
  ∧ fuse r.2 = None
  ∧ EditCategory.category_row (db r.2) = EditCategory.category_row s
  ∧ EditCategory.auditlog_set (db r.2)
    = EditCategory.auditlog_set s
      ++ map (fun g =>
                {| EditCategory.actor := pk self_user;
                   EditCategory.action :=
                     if ticked g then "goal_activate"
                     else "goal_deactivate";
                   EditCategory.goal := Some (EditCategory.goal_id g);
                   EditCategory.old_value := None;
                   EditCategory.new_value := None |})
          changed
  ∧ EditCategory.flash (db r.2)
    = EditCategory.flash s
      ++ map (fun g =>
                ("info",
                 RaceChatLog.dquote +:+ EditCategory.goal_name g
                 +:+ RaceChatLog.dquote
                 +:+ (if ticked g then " may now be used for races."
                      else " can no longer be used for races.")))
          changed
  ∧ (∀ P,
       EditCategory.goal_set s = P ++ goals →
       NoDup (map EditCategory.goal_id (P ++ goals)) →
       EditCategory.goal_set (db r.2)
       = P ++ map (fun g => EditCategory.set_active g (ticked g)) goals).
Proof.
  intros ticked. cbv zeta. revert s c.
  induction goals as [|g goals IH]; intros s c.
  - cbn [for_each map filter]. unfold ret. cbn [fst snd db fuse].
    rewrite !app_nil_r. split_and!; try done;
      intros P ->; by rewrite app_nil_r.
  - cbn [for_each]. rewrite bind_run, EditCategory_review_goal_calm.
    fold ticked. cbn [fst snd].
    match goal with
    | |- context [for_each goals _ (mkWorld ?s' ?b' ?c' None)] =>
        specialize (IH s' c')
    end.
    destruct IH as (H1 & H2 & H3 & H4 & H5 & H6).
    rewrite H1, H2, H3, H4, H5.
    cbn [EditCategory.category_row EditCategory.auditlog_set
         EditCategory.flash EditCategory.goal_set].
    rewrite <- !app_assoc, filter_cons.
    split_and!; try done.
    + destruct (EditCategory.goal_active g) eqn:Ea, (ticked g) eqn:Et;
        cbn [xorb]; case_decide; try done; cbn [map app].
      all: by rewrite ?Et.
    + destruct (EditCategory.goal_active g) eqn:Ea, (ticked g) eqn:Et;
        cbn [xorb]; case_decide; try done; cbn [map app].
      all: by rewrite ?Et.
    + intros P HP Hnd. cbn [map].
      replace (P ++ EditCategory.set_active g (ticked g)
                 :: map (fun g0 => EditCategory.set_active g0 (ticked g0))
                      goals)
        with ((P ++ [EditCategory.set_active g (ticked g)])
                ++ map (fun g0 => EditCategory.set_active g0 (ticked g0))
                     goals)
        by (by rewrite <- app_assoc).
      apply H6.
      * cbn [EditCategory.goal_set]. rewrite HP, <- app_assoc. cbn [app].
        destruct (xorb (EditCategory.goal_active g) (ticked g)) eqn:Ex.
        -- by apply EditCategory_replace_own_row.
        -- apply xorb_eq in Ex. rewrite <- Ex. by destruct g.
      * rewrite <- app_assoc. cbn [app].
        rewrite map_app in *. exact Hnd.
Qed.

Lemma EditCategory_add_goal_calm (default_active : bool)
    (assign_id : list EditCategory.Goal -> nat) (self_user : User)
    (goal_name : string) s b c :
  let g :=
    {| EditCategory.goal_id := assign_id (EditCategory.goal_set s);
       EditCategory.goal_name := goal_name;
       EditCategory.goal_active := default_active |} in
  EditCategory.add_goal default_active assign_id self_user goal_name
    (mkWorld s b c None)
  = (Returned tt,
     mkWorld
       {| EditCategory.category_row := EditCategory.category_row s;
          EditCategory.goal_set := EditCategory.goal_set s ++ [g];
          EditCategory.auditlog_set :=
            EditCategory.auditlog_set s
            ++ [ {| EditCategory.actor := pk self_user;
                    EditCategory.action := "goal_add";
                    EditCategory.goal := Some (EditCategory.goal_id g);
                    EditCategory.old_value := None;
                    EditCategory.new_value := None |} ];
          EditCategory.flash :=
            EditCategory.flash s
            ++ [ ("info",
                  "New category goal added: " +:+ RaceChatLog.dquote
                  +:+ goal_name +:+ RaceChatLog.dquote) ] |}
       b (c + 1 + 1 + 1) None).
Proof.
  cbv zeta. unfold EditCategory.add_goal.
  rewrite bind_run. unfold EditCategory.goal_set_create.
  rewrite call_calm. cbn [fst snd]. rewrite bind_run.
  unfold EditCategory.AuditLog_create, EditCategory.bulk_create.
  rewrite call_calm. cbn [fst snd].
  unfold EditCategory.messages_info. rewrite call_calm. reflexivity.
Qed.

(** The second loop without a failing call: every name gives one goal at
    the end of the table, one audit row and one flash message. *)
Lemma EditCategory_add_loop_calm (default_active : bool)
    (assign_id : list EditCategory.Goal -> nat) (self_user : User)
    (names : list string) s b c :
  let r :=
    for_each names
      (EditCategory.add_goal default_active assign_id self_user)
      (mkWorld s b c None) in
  r.1 = Returned tt
  ∧ fuse r.2 = None
  ∧ EditCategory.category_row (db r.2) = EditCategory.category_row s
  ∧ EditCategory.flash (db r.2)
    = EditCategory.flash s
      ++ map (fun goal_name =>
                ("info",
                 "New category goal added: " +:+ RaceChatLog.dquote
                 +:+ goal_name +:+ RaceChatLog.dquote))
          names
  ∧ ∃ created,
      EditCategory.goal_set (db r.2) = EditCategory.goal_set s ++ created
      ∧ map EditCategory.goal_name created = names
      ∧ Forall (fun g => EditCategory.goal_active g = default_active) created
      ∧ EditCategory.auditlog_set (db r.2)
        = EditCategory.auditlog_set s
          ++ map (fun g =>
                    {| EditCategory.actor := pk self_user;
                       EditCategory.action := "goal_add";
                       EditCategory.goal := Some (EditCategory.goal_id g);
                       EditCategory.old_value := None;
                       EditCategory.new_value := None |})
              created
      ∧ ((∀ rows, assign_id rows ∉ map EditCategory.goal_id rows) →
         NoDup (map EditCategory.goal_id (EditCategory.goal_set s)) →
         NoDup (map EditCategory.goal_id
                  (EditCategory.goal_set s ++ created))).
Proof.
  cbv zeta. revert s c. induction names as [|goal_name names IH]; intros s c.
  - cbn [for_each map]. unfold ret. cbn [fst snd db fuse].
    rewrite app_nil_r. split_and!; try done.
    exists []. rewrite !app_nil_r. by split_and!.
  - cbn [for_each]. rewrite bind_run, EditCategory_add_goal_calm.
    cbn [fst snd EditCategory.category_row EditCategory.auditlog_set
         EditCategory.flash EditCategory.goal_set].
    match goal with
    | |- context [for_each names _ (mkWorld ?s' ?b' ?c' None)] =>
        specialize (IH s' c');
        set (run := for_each names _ (mkWorld s' b' c' None)) in *
    end.
    destruct IH as (H1 & H2 & H3 & H4 & created & H5 & H6 & H7 & H8 & H9).
    rewrite H1, H2, H3, H4.
    cbn [EditCategory.category_row EditCategory.auditlog_set
         EditCategory.flash EditCategory.goal_set] in *.
    rewrite <- !app_assoc. split_and!; try done.
    set (g := {| EditCategory.goal_id :=
                   assign_id (EditCategory.goal_set s);
                 EditCategory.goal_name := goal_name;
                 EditCategory.goal_active := default_active |}) in *.
    exists (g :: created). rewrite H5, H8, <- !app_assoc. cbn [app map].
    split_and!; try done.
    + by rewrite H6.
    + by constructor.
    + intros Hfresh Hnd.
      replace (EditCategory.goal_set s ++ g :: created)
        with ((EditCategory.goal_set s ++ [g]) ++ created)
        by (by rewrite <- app_assoc).
      apply H9; [done|]. rewrite map_app. cbn [map].
      apply NoDup_app. split_and!; [done| |apply NoDup_singleton].
      intros k Hk Hk'. apply list_elem_of_singleton in Hk'. subst k.
      by apply (Hfresh (EditCategory.goal_set s)).
Qed.

(** The whole handler without a failing call. *)
Lemma EditCategory_form_valid_calm (label_lower : string -> string)
    (iter : gset string -> list string) (default_active : bool)
    (assign_id : list EditCategory.Goal -> nat) (self_user : User)
    (form : EditCategory.Form) s b c :
  let ticked := EditCategory.contains (EditCategory.active_goals form) in
  let fields := EditCategory.changed_fields iter form in
  let changed :=
    filter (fun g => EditCategory.goal_active g ≠ ticked g)
      (EditCategory.goal_set s) in
  let r :=
    EditCategory.form_valid label_lower iter default_active assign_id
      self_user form (mkWorld s b c None) in
  r.1 = Returned
          (HttpResponseRedirect
             (reverse "edit_category"
                (EditCategory.slug (EditCategory.instance form))))
  ∧ fuse r.2 = None
  ∧ EditCategory.category_row (db r.2) = EditCategory.instance form
  ∧ EditCategory.flash (db r.2)
    = EditCategory.flash s
      ++ [("info",
           "Category details updated ("
           +:+ String.concat ", " (map label_lower fields) +:+ ").")]
      ++ map (fun g =>
                ("info",
                 RaceChatLog.dquote +:+ EditCategory.goal_name g
                 +:+ RaceChatLog.dquote
                 +:+ (if ticked g then " may now be used for races."
                      else " can no longer be used for races.")))
           changed
      ++ map (fun goal_name =>
                ("info",
                 "New category goal added: " +:+ RaceChatLog.dquote
                 +:+ goal_name +:+ RaceChatLog.dquote))
           (EditCategory.add_new_goals form)
  ∧ ∃ created,
      map EditCategory.goal_name created = EditCategory.add_new_goals form
      ∧ Forall (fun g => EditCategory.goal_active g = default_active) created
      ∧ EditCategory.auditlog_set (db r.2)
        = EditCategory.auditlog_set s
          ++ map (fun field =>
                    {| EditCategory.actor := pk self_user;
                       EditCategory.action := field +:+ "_change";
                       EditCategory.goal := None;
                       EditCategory.old_value :=
                         Some (EditCategory.getattr
                                 (EditCategory.category_row s) field);
                       EditCategory.new_value :=
                         Some (EditCategory.getattr
                                 (EditCategory.instance form) field) |})
              fields
          ++ map (fun g =>
                    {| EditCategory.actor := pk self_user;
                       EditCategory.action :=
                         if ticked g then "goal_activate"
                         else "goal_deactivate";
                       EditCategory.goal := Some (EditCategory.goal_id g);
                       EditCategory.old_value := None;
                       EditCategory.new_value := None |})
              changed
          ++ map (fun g =>
                    {| EditCategory.actor := pk self_user;
                       EditCategory.action := "goal_add";
                       EditCategory.goal := Some (EditCategory.goal_id g);
                       EditCategory.old_value := None;
                       EditCategory.new_value := None |})
              created
      ∧ (NoDup (map EditCategory.goal_id (EditCategory.goal_set s)) →
         EditCategory.goal_set (db r.2)
         = map (fun g => EditCategory.set_active g (ticked g))
             (EditCategory.goal_set s)
           ++ created
         ∧ ((∀ rows, assign_id rows ∉ map EditCategory.goal_id rows) →
            NoDup (map EditCategory.goal_id
                     (EditCategory.goal_set (db r.2))))).
Proof.
  intros ticked fields changed. cbv zeta.
  remember (EditCategory.form_valid label_lower iter default_active
              assign_id self_user form (mkWorld s b c None)) as r eqn:Er.
  unfold EditCategory.form_valid, EditCategory.atomic in Er.
  cbv zeta in Er.
  fold fields in Er.
  rewrite bind_run in Er. unfold EditCategory.get_object in Er.
  rewrite call_calm in Er. cbn [fst snd] in Er. rewrite bind_run in Er.
  unfold EditCategory.save at 1 in Er. rewrite call_calm in Er.
  cbn [fst snd] in Er. rewrite bind_run in Er.
  unfold EditCategory.bulk_create at 1 in Er. rewrite call_calm in Er.
  cbn [fst snd] in Er. rewrite bind_run in Er.
  unfold EditCategory.messages_info at 1 in Er. rewrite call_calm in Er.
  cbn [fst snd] in Er. rewrite bind_run in Er.
  unfold EditCategory.goal_set_all in Er. rewrite call_calm in Er.
  cbn [fst snd EditCategory.category_row EditCategory.goal_set
       EditCategory.auditlog_set EditCategory.flash] in Er.
  rewrite bind_run in Er.
  match type of Er with
  | context [for_each (EditCategory.goal_set s) _
               (mkWorld ?s' ?b' ?c' None)] =>
      pose proof (EditCategory_review_loop_calm self_user form
                    (EditCategory.goal_set s) s' b' c') as Hloop;
      set (run := for_each (EditCategory.goal_set s) _
                    (mkWorld s' b' c' None)) in *
  end.
  cbv zeta in Hloop. fold ticked in Hloop. fold changed in Hloop.
  change (for_each _ _ _) with run in Hloop.
  destruct run as [o [s1 b1 c1 f1]].
  cbn [fst snd db fuse EditCategory.category_row EditCategory.goal_set
       EditCategory.auditlog_set EditCategory.flash] in Hloop.
  destruct Hloop as (-> & -> & Hrow1 & Haud1 & Hfl1 & Hgoals1).
  rewrite bind_run in Er.
  pose proof (EditCategory_add_loop_calm default_active assign_id self_user
                (EditCategory.add_new_goals form) s1 b1 c1) as Hadd.
  cbv zeta in Hadd.
  destruct (for_each (EditCategory.add_new_goals form) _
              (mkWorld s1 b1 c1 None)) as [o [s2 b2 c2 f2]].
  cbn [fst snd db fuse] in Hadd.
  destruct Hadd as (-> & -> & Hrow2 & Hfl2 & created & Hg2 & Hn & Ha & Haud2
                    & Hnd).
  rewrite bind_run in Er. unfold EditCategory.save in Er.
  rewrite call_calm in Er. unfold ret in Er. subst r.
  cbn [fst snd db fuse EditCategory.category_row EditCategory.goal_set
       EditCategory.auditlog_set EditCategory.flash].
  split_and!; try done.
  - rewrite Hfl2, Hfl1. by rewrite <- !app_assoc.
  - exists created. split_and!; try done.
    + rewrite Haud2, Haud1. by rewrite <- !app_assoc.
    + intros Hnodup. specialize (Hgoals1 [] eq_refl Hnodup).
      cbn [app] in Hgoals1. rewrite Hg2, Hgoals1. split; [done|].
      intros Hfresh. rewrite <- Hgoals1. apply Hnd; [done|].
      rewrite Hgoals1, map_map. cbn [EditCategory.set_active
        EditCategory.goal_id]. done.
Qed.

(** *** Runs in which a later call was to fail *)

Lemma steady_ret {St A} (a : A) : steady (ret a : M St A).
Proof. intros s b c n. unfold ret. cbn. split; [by exists n|done]. Qed.

Lemma steady_call {St A} (f : Z -> St -> A * St) : steady (call f).
Proof.
  intros s b c [|n].
  - by rewrite call_blown.
  - rewrite call_armed, call_calm. cbn. split; [by exists n|done].
Qed.

Lemma steady_bind {St A B} (m : M St A) (k : A -> M St B) :
  steady m → (∀ a, steady (k a)) → steady (bind m k).
Proof.
  intros Hm Hk s b c n. rewrite !bind_run. specialize (Hm s b c n).
  destruct (m (mkWorld s b c (Some n))) as [[a|] [s' b' c' f']]; [|done].
  destruct Hm as [[n' Hn'] ->]. cbn [fuse db broadcasts clock] in *.
  subst f'. apply Hk.
Qed.

Lemma steady_for_each {St A} (rows : list A) (body : A -> M St unit) :
  (∀ row, steady (body row)) → steady (for_each rows body).
Proof.
  intros Hbody. induction rows as [|row rows IH]; cbn [for_each].
  - apply steady_ret.
  - apply steady_bind; [apply Hbody|]. intros _. exact IH.
Qed.

Lemma steady_atomic {St A} (m : M St A) : steady m → steady (atomic m).
Proof.
  intros Hm s b c n. unfold atomic. specialize (Hm s b c n).
  destruct (m (mkWorld s b c (Some n))) as [[a|] w']; [|done].
  destruct Hm as [Hn ->]. done.
Qed.

Lemma EditCategory_atomic_steady {A} (m : M EditCategory.Store A) :
  steady m → steady (EditCategory.atomic m).
Proof.
  intros Hm s b c n. unfold EditCategory.atomic. specialize (Hm s b c n).
  destruct (m (mkWorld s b c (Some n))) as [[a|] w']; [|done].
  destruct Hm as [Hn ->]. done.
Qed.

(** *** Flash messages are never taken back *)








Lemma EditCategory_form_valid_steady (label_lower : string -> string)
    (iter : gset string -> list string) (default_active : bool)
    (assign_id : list EditCategory.Goal -> nat) (self_user : User)
    (form : EditCategory.Form) :
  steady
    (EditCategory.form_valid label_lower iter default_active assign_id
       self_user form).
Proof.
  unfold EditCategory.form_valid. cbv zeta.
  apply EditCategory_atomic_steady.
  apply steady_bind; [apply steady_call|intros category].
  apply steady_bind; [apply steady_call|intros _].
  apply steady_bind; [apply steady_call|intros _].
  apply steady_bind; [apply steady_call|intros _].
  apply steady_bind; [apply steady_call|intros goals].
  apply steady_bind.
  { apply steady_for_each. intros g. unfold EditCategory.review_goal.
    destruct (_ && _).
    - repeat (apply steady_bind; [apply steady_call|intros _]).
      apply steady_call.
    - destruct (_ && _); [|apply steady_ret].
      repeat (apply steady_bind; [apply steady_call|intros _]).
      apply steady_call. }
  intros _. apply steady_bind.
  { apply steady_for_each. intros goal_name. unfold EditCategory.add_goal.
    apply steady_bind; [apply steady_call|intros g].
    apply steady_bind; [apply steady_call|intros _]. apply steady_call. }
  intros _. apply steady_bind; [apply steady_call|intros _].
  apply steady_ret.
Qed.

(** X24.  When no call fails, an edit of a category leaves its goals as
    the form says: the row is the one of the form, every goal on record
    is in use exactly when the form lists it among the active goals,
    whatever it was before, and the new goals follow at the end of the
    table, one per name and in the order of the names.  The answer is
    the redirect to the edit page under the slug of the form. *)
Theorem EditCategory_goals_follow_form (label_lower : string -> string)
    (iter : gset string -> list string) (default_active : bool)
    (assign_id : list EditCategory.Goal -> nat) (self_user : User)
    (form : EditCategory.Form) s b c
    (Hkeys : NoDup (map EditCategory.goal_id (EditCategory.goal_set s))) :
  let r :=
    EditCategory.form_valid label_lower iter default_active assign_id
      self_user form (mkWorld s b c None) in
  r.1 = Returned
          (HttpResponseRedirect
             (reverse "edit_category"
                (EditCategory.slug (EditCategory.instance form))))
  ∧ EditCategory.category_row (db r.2) = EditCategory.instance form
  ∧ ∃ created,
      EditCategory.goal_set (db r.2)
      = map (fun g =>
               EditCategory.set_active g
                 (EditCategory.contains (EditCategory.active_goals form) g))
          (EditCategory.goal_set s)
        ++ created
      ∧ map EditCategory.goal_name created = EditCategory.add_new_goals form
      ∧ Forall (fun g => EditCategory.goal_active g = default_active)
          created.
Proof.
  intros r.
  pose proof (EditCategory_form_valid_calm label_lower iter default_active
                assign_id self_user form s b c) as H.
  cbv zeta in H. fold r in H.
  destruct H as (Hr & _ & Hrow & _ & created & Hn & Ha & _ & Hg).
  destruct (Hg Hkeys) as [Hgoals _].
  split_and!; [done|done|]. by exists created.
Qed.

Lemma EditCategory_goals_follow_form_witness :
  let r :=
    EditCategory.form_valid id elements true Scenario.next_key
      Scenario.bob Scenario.category_form (calm Scenario.listing 0) in
  r.1 = Returned (HttpResponseRedirect "edit_category:sm64")
  ∧ map EditCategory.goal_name (EditCategory.goal_set (db r.2))
    = ["16 Star"; "70 Star"; "120 Star"; "0 Star"]
  ∧ map EditCategory.goal_active (EditCategory.goal_set (db r.2))
    = [true; false; true; true].
Proof.
  assert (Hkeys : NoDup (map EditCategory.goal_id
                           (EditCategory.goal_set Scenario.listing))).
  { refine (bool_decide_unpack _ _). vm_compute. exact I. }
  pose proof (EditCategory_goals_follow_form id elements true
                Scenario.next_key Scenario.bob Scenario.category_form
                Scenario.listing O 0 Hkeys) as H.
  cbv zeta in H. destruct H as (Hr & _ & created & Hg & Hn & Ha).
  cbv zeta. unfold calm. rewrite Hr, Hg, !map_app, Hn. clear Hr Hg.
  assert (map EditCategory.goal_active created = [true]) as ->.
  { assert (length created = 1%nat) as Hlen
      by (rewrite <- (length_map EditCategory.goal_name), Hn; reflexivity).
    destruct created as [|g [|? ?]]; try discriminate Hlen.
    apply Forall_cons in Ha as [Ha _]. cbn [map]. by rewrite Ha. }
  split; [reflexivity|]. split; reflexivity.
Defined.

(** The only list without repetition that holds one value and no other
    is the list of that value. *)
Lemma NoDup_only {A} (a : A) (l : list A) :
  NoDup l → (∀ x, x ∈ l ↔ x = a) → l = [a].
Proof.
  intros Hnd Hin.
  assert (l ≡ₚ [a]) as Hp.
  { apply NoDup_Permutation; [done|apply NoDup_singleton|].
    intros x. rewrite Hin. by rewrite list_elem_of_singleton. }
  by apply Permutation_singleton_r in Hp.
Qed.

(** X25.  When no call fails and the changed fields are gone through once
    each, in whatever order, an edit of a category adds to the audit log,
    in this order: one row for each of the six audited fields that is
    among the changed fields of the form, and for no other field, with
    the value of the column before and after; one row for each goal whose
    use the form changed, and none for a goal it left as it was; one row
    for each goal added.  Every row names the user as the actor. *)
Theorem EditCategory_audit_trail (label_lower : string -> string)
    (iter : gset string -> list string) (default_active : bool)
    (assign_id : list EditCategory.Goal -> nat) (self_user : User)
    (form : EditCategory.Form) s b c
    (Hiter : ∀ X, iter X ≡ₚ elements X) :
  let ticked := EditCategory.contains (EditCategory.active_goals form) in
  let r :=
    EditCategory.form_valid label_lower iter default_active assign_id
      self_user form (mkWorld s b c None) in
  ∃ fields created,
    NoDup fields
    ∧ (∀ field,
         field ∈ fields
         ↔ field ∈ ["name"; "short_name"; "image"; "info"; "slug_words";
                    "streaming_required"]
           ∧ field ∈ EditCategory.changed_data form)
    ∧ map EditCategory.goal_name created = EditCategory.add_new_goals form
    ∧ EditCategory.auditlog_set (db r.2)
      = EditCategory.auditlog_set s
        ++ map (fun field =>
                  {| EditCategory.actor := pk self_user;
                     EditCategory.action := field +:+ "_change";
                     EditCategory.goal := None;
                     EditCategory.old_value :=
                       Some (EditCategory.getattr
                               (EditCategory.category_row s) field);
                     EditCategory.new_value :=
                       Some (EditCategory.getattr
                               (EditCategory.instance form) field) |})
            fields
        ++ map (fun g =>
                  {| EditCategory.actor := pk self_user;
                     EditCategory.action :=
                       if ticked g then "goal_activate"
                       else "goal_deactivate";
                     EditCategory.goal := Some (EditCategory.goal_id g);
                     EditCategory.old_value := None;
                     EditCategory.new_value := None |})
            (filter (fun g => EditCategory.goal_active g ≠ ticked g)
               (EditCategory.goal_set s))
        ++ map (fun g =>
                  {| EditCategory.actor := pk self_user;
                     EditCategory.action := "goal_add";
                     EditCategory.goal := Some (EditCategory.goal_id g);
                     EditCategory.old_value := None;
                     EditCategory.new_value := None |})
            created.
Proof.
  intros ticked r.
  pose proof (EditCategory_form_valid_calm label_lower iter default_active
                assign_id self_user form s b c) as H.
  cbv zeta in H. fold ticked in H. fold r in H.
  destruct H as (_ & _ & _ & _ & created & Hn & _ & Haud & _).
  exists (EditCategory.changed_fields iter form), created.
  split_and!; [| |done|done].
  - unfold EditCategory.changed_fields. rewrite Hiter. apply NoDup_elements.
  - intros field. unfold EditCategory.changed_fields.
    rewrite Hiter, elem_of_elements, elem_of_intersection.
    unfold EditCategory.audited_fields. by rewrite !elem_of_list_to_set.
Qed.

(** X25 on the sample category: the edit of the information text that
    takes one goal out of use, brings one back and adds one leaves four
    audit rows. *)
Lemma EditCategory_audit_trail_witness :
  let r :=
    EditCategory.form_valid id elements true Scenario.next_key
      Scenario.bob Scenario.category_form (calm Scenario.listing 0) in
  map EditCategory.action (EditCategory.auditlog_set (db r.2))
  = ["info_change"; "goal_deactivate"; "goal_activate"; "goal_add"].
Proof.
  pose proof (EditCategory_audit_trail id elements true Scenario.next_key
                Scenario.bob Scenario.category_form Scenario.listing O 0
                (fun X => reflexivity (elements X))) as H.
  cbv zeta in H. destruct H as (fields & created & Hnd & Hin & Hn & Haud).
  assert (fields = ["info"]) as ->.
  { apply NoDup_only; [done|]. intros x. rewrite Hin.
    change (EditCategory.changed_data Scenario.category_form)
      with ["info"; "active_goals"].
    rewrite !elem_of_cons, !elem_of_nil. split.
    - intros [H1 [->|[->|[]]]]; [done|].
      exfalso. destruct H1 as [H1|[H1|[H1|[H1|[H1|[H1|[]]]]]]];
        discriminate H1.
    - intros ->. split; auto 10. }
  assert (length created = 1%nat) as Hlen
    by (rewrite <- (length_map EditCategory.goal_name), Hn; reflexivity).
  destruct created as [|g [|? ?]]; try discriminate Hlen.
  cbv zeta. unfold calm. rewrite Haud. reflexivity.
Defined.

(** X26.  A form that changes nothing is saved all the same: when none of
    the audited fields changed, the active goals are the ones in use and
    no goal is added, the handler leaves goals and audit log as they
    were, and flashes one message, which lists no field. *)
Theorem EditCategory_nothing_to_change (label_lower : string -> string)
    (iter : gset string -> list string) (default_active : bool)
    (assign_id : list EditCategory.Goal -> nat) (self_user : User)
    (form : EditCategory.Form) s b c
    (Hiter : iter ∅ = [])
    (Hkeys : NoDup (map EditCategory.goal_id (EditCategory.goal_set s)))
    (Hfields : ∀ field,
       field ∈ EditCategory.changed_data form →
       field ∉ EditCategory.audited_fields)
    (Hgoals : Forall
       (fun g =>
          EditCategory.goal_active g
          = EditCategory.contains (EditCategory.active_goals form) g)
       (EditCategory.goal_set s))
    (Hnew : EditCategory.add_new_goals form = []) :
  let r :=
    EditCategory.form_valid label_lower iter default_active assign_id
      self_user form (mkWorld s b c None) in
  EditCategory.category_row (db r.2) = EditCategory.instance form
  ∧ EditCategory.goal_set (db r.2) = EditCategory.goal_set s
  ∧ EditCategory.auditlog_set (db r.2) = EditCategory.auditlog_set s
  ∧ EditCategory.flash (db r.2)
    = EditCategory.flash s ++ [("info", "Category details updated ().")].
Proof.
  intros r.
  pose proof (EditCategory_form_valid_calm label_lower iter default_active
                assign_id self_user form s b c) as H.
  cbv zeta in H. fold r in H.
  destruct H as (_ & _ & Hrow & Hfl & created & Hn & _ & Haud & Hg).
  destruct (Hg Hkeys) as [Hgoal _].
  assert (created = []) as ->.
  { rewrite Hnew in Hn. by destruct created. }
  assert (EditCategory.changed_fields iter form = []) as Hnone.
  { unfold EditCategory.changed_fields.
    replace (EditCategory.audited_fields
             ∩ list_to_set (EditCategory.changed_data form))
      with (∅ : gset string); [done|].
    apply set_eq. intros field.
    rewrite elem_of_intersection, elem_of_list_to_set.
    split; [set_solver|]. intros [? ?]. exfalso. by eapply Hfields. }
  assert (filter
            (fun g =>
               EditCategory.goal_active g
               ≠ EditCategory.contains (EditCategory.active_goals form) g)
            (EditCategory.goal_set s) = []) as Hsame.
  { clear -Hgoals. induction Hgoals as [|g rows Hg _ IH]; [done|].
    rewrite filter_cons_False by (by intros ?). exact IH. }
  rewrite Hnone, Hsame, Hnew in *. cbn [map app String.concat] in *.
  rewrite app_nil_r in *. split_and!; try done.
  rewrite Hgoal. clear -Hgoals.
  induction Hgoals as [|g rows Hg _ IH]; [done|].
  cbn [map]. rewrite IH, <- Hg. by destruct g.
Qed.

Lemma EditCategory_nothing_to_change_witness :
  let r :=
    EditCategory.form_valid id elements true Scenario.next_key
      Scenario.bob Scenario.idle_form (calm Scenario.listing 0) in
  db r.2
  = {| EditCategory.category_row := Scenario.sm64_row;
       EditCategory.goal_set := EditCategory.goal_set Scenario.listing;
       EditCategory.auditlog_set := [];
       EditCategory.flash := [("info", "Category details updated ().")] |}.
Proof.
  assert (Hkeys : NoDup (map EditCategory.goal_id
                           (EditCategory.goal_set Scenario.listing))).
  { refine (bool_decide_unpack _ _). vm_compute. exact I. }
  assert (Hgoals : Forall
            (fun g =>
               EditCategory.goal_active g
               = EditCategory.contains
                   (EditCategory.active_goals Scenario.idle_form) g)
            (EditCategory.goal_set Scenario.listing)).
  { repeat constructor. }
  pose proof (EditCategory_nothing_to_change id elements true
                Scenario.next_key Scenario.bob Scenario.idle_form
                Scenario.listing O 0 elements_empty Hkeys
                ltac:(intros field Hin; by apply elem_of_nil in Hin)
                Hgoals eq_refl) as H.
  cbv zeta in H. destruct H as (H1 & H2 & H3 & H4).
  cbv zeta. unfold calm.
  destruct (db _) as [row goals audit fl].
  cbn [EditCategory.category_row EditCategory.goal_set
       EditCategory.auditlog_set EditCategory.flash] in *.
  by subst.
Defined.


(** A failed edit on the sample category: the last write fails, the
    tables are as they were, and the four messages of the edit are still
    queued. *)
Lemma EditCategory_failed_edit_keeps_messages :
  let r :=
    EditCategory.form_valid id elements true Scenario.next_key
      Scenario.bob Scenario.category_form (faulty Scenario.listing 0 14) in
  r.1 = Raised
  ∧ EditCategory.category_row (db r.2) = Scenario.sm64_row
  ∧ EditCategory.goal_set (db r.2) = EditCategory.goal_set Scenario.listing
  ∧ EditCategory.auditlog_set (db r.2) = []
  ∧ length (EditCategory.flash (db r.2)) = 4%nat.
Proof. vm_compute. by split_and!. Qed.

(** X28.  The handler keeps the keys of the goals distinct: when the
    database gives a new goal a key that is not in use, the goals have
    distinct keys after the edit if they had before, whichever call
    fails. *)
Theorem EditCategory_keeps_goal_keys_unique (label_lower : string -> string)
    (iter : gset string -> list string) (default_active : bool)
    (assign_id : list EditCategory.Goal -> nat) (self_user : User)
    (form : EditCategory.Form) w
    (Hfresh : ∀ rows, assign_id rows ∉ map EditCategory.goal_id rows)
    (Hkeys : NoDup (map EditCategory.goal_id
                      (EditCategory.goal_set (db w)))) :
  let r :=
    EditCategory.form_valid label_lower iter default_active assign_id
      self_user form w in
  NoDup (map EditCategory.goal_id (EditCategory.goal_set (db r.2))).
Proof.
  intros r.
  pose proof (EditCategory_form_valid_calm label_lower iter default_active
                assign_id self_user form (db w) (broadcasts w) (clock w))
    as Hcalm.
  cbv zeta in Hcalm.
  destruct Hcalm as (_ & _ & _ & _ & created & _ & _ & _ & Hg).
  destruct (Hg Hkeys) as [_ Hnd]. specialize (Hnd Hfresh).
  destruct w as [s b c [n|]]; cbn [db broadcasts clock] in *; [|exact Hnd].
  pose proof (EditCategory_form_valid_steady label_lower iter
                default_active assign_id self_user form s b c n) as Hs.
  fold r in Hs.
  destruct r as [[resp|] w'] eqn:Er.
  - destruct Hs as [_ Hs]. rewrite Hs in Hnd. exact Hnd.
  - subst r. revert Er.
    unfold EditCategory.form_valid, EditCategory.atomic.
    match goal with
    | |- context [match ?m with _ => _ end] => destruct m as [[?|] ?]
    end; [done|]. intros [= <-]. exact Hkeys.
Qed.

Lemma EditCategory_keeps_goal_keys_unique_witness :
  NoDup
    (map EditCategory.goal_id
       (EditCategory.goal_set
          (db (EditCategory.form_valid id elements true Scenario.next_key
                 Scenario.bob Scenario.category_form
                 (faulty Scenario.listing 0 40)).2))).
Proof.
  refine (EditCategory_keeps_goal_keys_unique id elements true
            Scenario.next_key Scenario.bob Scenario.category_form
            (faulty Scenario.listing 0 40) _ _).
  - intros rows Hin. unfold Scenario.next_key in Hin.
    apply max_list_elem_of_le in Hin. lia.
  - refine (bool_decide_unpack _ _). vm_compute. exact I.
Defined.
